(** * Chain training: objective-and-derivative drivers

    A shallow embedding of the four drivers of [chain/chain-training.cc]

      - [ComputeChainObjfAndDerivE2e]
      - [ComputeKLObjfAndDeriv]
      - [ComputeChainObjfAndDeriv]
      - [ComputeChainSmbrObjfAndDeriv]

    together with the option struct of [chain/chain-training.h].

    Scalars are IEEE-754 numbers in the inductive presentation of the
    standard library ([spec_float]): [BaseFloat] is the single-precision
    format of the default build, and the few sub-expressions that C++
    evaluates in [double] (those with a literal such as [-0.5]) are computed
    in the double-precision format and rounded back on assignment.

    Matrices are row-major lists of rows.  Output pointers that may be
    [NULL] are [option]s, and the contents they point to are threaded
    through the drivers explicitly.  The forward-backward objects
    (numerator, generic numerator, denominator, SMBR denominator) live in
    other files; they enter as the operations of the class
    [ChainComputations].  Log and warning messages, and the block that logs
    the squared norms of the derivatives per frame at verbose level 1, write
    to none of the outputs and are left out. *)

From Stdlib Require Import ZArith Bool List Lia String Ascii.
From Stdlib Require Import SpecFloat.
From stdpp Require Import base option list.
Import ListNotations.

Local Open Scope Z_scope.

(** ** Floating-point scalars *)

(** [BaseFloat] is [float] in the default configuration. *)
Definition BaseFloat : Type := spec_float.

Definition float_prec : Z := 24.
Definition float_emax : Z := 128.
Definition double_prec : Z := 53.
Definition double_emax : Z := 1024.

Definition fadd : BaseFloat -> BaseFloat -> BaseFloat := SFadd float_prec float_emax.
Definition fsub : BaseFloat -> BaseFloat -> BaseFloat := SFsub float_prec float_emax.
Definition fmul : BaseFloat -> BaseFloat -> BaseFloat := SFmul float_prec float_emax.
Definition fopp : BaseFloat -> BaseFloat := SFopp.
Definition feqb : BaseFloat -> BaseFloat -> bool := SFeqb.

(** Values of type [double], as produced by the usual arithmetic
    conversions when one operand is a [double] literal. *)
Definition Double : Type := spec_float.

Definition dmul : Double -> Double -> Double := SFmul double_prec double_emax.

(** Rounding of a value into the format [(prec, emax)]; used for the
    conversions [float -> double] (exact on single-precision numbers) and
    [double -> float] (round to nearest even). *)
Definition round_to (prec emax : Z) (x : spec_float) : spec_float :=
  match x with
  | S754_finite s m e => binary_round prec emax s m e
  | _ => x
  end.

Definition to_double (x : BaseFloat) : Double := round_to double_prec double_emax x.
Definition to_float (x : Double) : BaseFloat := round_to float_prec float_emax x.

(** Conversion of an [int32] operand to [BaseFloat]. *)
Definition float_of_int (n : Z) : BaseFloat :=
  binary_normalize float_prec float_emax n 0 false.

(** Conversion of an integer-valued [double] literal. *)
Definition double_of_int (n : Z) : Double :=
  binary_normalize double_prec double_emax n 0 false.

Definition fzero : BaseFloat := S754_zero false.
Definition fone : BaseFloat := float_of_int 1.

(** The literal [0.5], of type [double]. *)
Definition double_half : Double := S754_finite false 4503599627370496 (-53).

(** A number is finite when it is neither an infinity nor a NaN. *)
Definition is_finite (x : spec_float) : bool :=
  match x with
  | S754_zero _ | S754_finite _ _ _ => true
  | S754_infinity _ | S754_nan => false
  end.

(** The test the drivers write as [x - x == 0]. *)
Definition sub_self_is_zero (x : BaseFloat) : bool :=
  feqb (fsub x x) (float_of_int 0).

(** [x == 0.0] and [x != 0.0]: the comparison is on values, so promoting
    the left operand to [double] does not change the outcome. *)
Definition eq_zero (x : BaseFloat) : bool := feqb x fzero.
Definition ne_zero (x : BaseFloat) : bool := negb (feqb x fzero).

(** ** Matrices

    [CuMatrix<BaseFloat>] and [CuMatrixBase<BaseFloat>]: a list of rows.
    The matrix library asserts that the operands of a binary operation
    have one shape; the drivers only combine matrices that have the shape
    of [nnet_output], and the operations below are written for that
    case. *)

Abbreviation Vector := (list BaseFloat) (only parsing).
Abbreviation Matrix := (list (list BaseFloat)) (only parsing).

Definition NumRows (M : Matrix) : nat := length M.
Definition NumCols (M : Matrix) : nat :=
  match M with
  | [] => 0%nat
  | row :: _ => length row
  end.

(** Entry [(r, c)], when it exists. *)
Definition entry (M : Matrix) (r c : nat) : option BaseFloat :=
  M !! r ≫= fun row => row !! c.

Definition all_zero (M : Matrix) : Prop :=
  Forall (Forall (fun x => x = fzero)) M.

(** The operations of the matrix library (cudamatrix/, matrix/) that the
    drivers call are defined in other files; each is given here by the
    elementwise reading of its documented meaning. *)

(** Modelled from the spec: [M->SetZero()], every entry becomes zero. *)
Definition SetZero (M : Matrix) : Matrix := map (map (fun _ => fzero)) M.

(** Modelled from the spec: [M->Resize(rows, cols, kSetZero)], and the
    constructor [CuMatrix<BaseFloat> M(rows, cols)]. *)
Definition Resize (rows cols : nat) : Matrix :=
  replicate rows (replicate cols fzero).

(** Modelled from the spec: [M->Scale(alpha)], every entry is multiplied
    by [alpha]. *)
Definition Scale (alpha : BaseFloat) (M : Matrix) : Matrix :=
  map (map (fun x => fmul x alpha)) M.

(** Modelled from the spec: [M->AddMat(alpha, A)], that is
    [M += alpha * A]. *)
Definition AddMat (alpha : BaseFloat) (A M : Matrix) : Matrix :=
  zip_with (zip_with (fun m a => fadd (fmul alpha a) m)) M A.

(** Modelled from the spec: the assertion at the head of
    [M->CopyFromMat(src)], that [src] and [M] have the same numbers of rows
    and of columns.  A call for which it is [false] ends the program. *)
Definition CopyFromMat_asserts (src M : Matrix) : bool :=
  ((NumRows src =? NumRows M) && (NumCols src =? NumCols M))%nat.

(** Modelled from the spec: [M->CopyFromMat(src)], after which [M] holds the
    entries of [src].  The function gives the contents of [M] after a call
    that passes [CopyFromMat_asserts]; it says nothing of a call that does
    not, which never returns. *)
Definition CopyFromMat (src M : Matrix) : Matrix := src.

(** Modelled from the spec: [src.CopyToMat(M)] of a general matrix, after
    which [M] holds the entries of [src]. *)
Definition CopyToMat (src M : Matrix) : Matrix := src.

(** Sum of a sequence of scalars, accumulated from the left. *)
Definition fsum (l : list BaseFloat) : BaseFloat := foldl fadd fzero l.

(** Modelled from the spec: [TraceMatMat(A, B, kTrans)], the trace of
    [A * B^T], which is the sum of the products of corresponding entries. *)
Definition TraceMatMat (A B : Matrix) : BaseFloat :=
  fsum (concat (zip_with (zip_with fmul) A B)).

(** Modelled from the spec: [M.Sum()], the sum of all entries. *)
Definition Sum (M : Matrix) : BaseFloat := fsum (concat M).

(** Modelled from the spec: [v.AddColSumMat(alpha, M, beta)], that is
    [v(r) = alpha * sum_c M(r, c) + beta * v(r)]. *)
Definition AddColSumMat (alpha : BaseFloat) (M : Matrix) (beta : BaseFloat)
    (v : Vector) : Vector :=
  zip_with (fun x row => fadd (fmul alpha (fsum row)) (fmul beta x)) v M.

(** Modelled from the spec: one assignment of [CopyCols].  Column [c] of the
    destination row receives zero when [indices[c]] is negative and entry
    [indices[c]] of the source row otherwise.  An index outside the source
    row is excluded by an assertion of the library; the row is then left as
    it is. *)
Definition copy_col (indices : list Z) (src_row dst_row : list BaseFloat)
    (c : nat) : list BaseFloat :=
  match indices !! c with
  | Some i =>
      if i <? 0 then <[c := fzero]> dst_row
      else match src_row !! Z.to_nat i with
           | Some v => <[c := v]> dst_row
           | None => dst_row
           end
  | None => dst_row
  end.

(** Modelled from the spec: [dst.CopyCols(src, indices)] for a source
    distinct from the destination, row by row and columns from left to
    right. *)
Definition CopyCols_row (indices : list Z) (src_row dst_row : list BaseFloat)
    : list BaseFloat :=
  foldl (copy_col indices src_row) dst_row (seq 0 (length dst_row)).

Definition CopyCols (src : Matrix) (indices : list Z) (dst : Matrix) : Matrix :=
  zip_with (CopyCols_row indices) src dst.

(** Modelled from the spec: [M.CopyCols(M, indices)].  Source and
    destination are one object, so each assignment reads the row as the
    earlier assignments left it. *)
Definition CopyCols_inplace_row (indices : list Z) (row : list BaseFloat)
    : list BaseFloat :=
  foldl (fun cur c => copy_col indices cur cur c) row (seq 0 (length row)).

Definition CopyCols_inplace (indices : list Z) (M : Matrix) : Matrix :=
  map (CopyCols_inplace_row indices) M.

(** Modelled from the spec: [M.CopyColsFromVec(v, indices)].  The spec has
    the summed silence posterior broadcast back into each silence column:
    column [c] of row [r] receives [v(r)] when [indices[c]] is non-negative,
    and keeps its value otherwise. *)
Definition CopyColsFromVec_row (indices : list Z) (x : BaseFloat)
    (row : list BaseFloat) : list BaseFloat :=
  zip_with (fun i y => if i <? 0 then y else x) indices row.

Definition CopyColsFromVec (v : Vector) (indices : list Z) (M : Matrix)
    : Matrix :=
  zip_with (CopyColsFromVec_row indices) v M.

(** The squared Frobenius norm, as the spec words it: the sum of the squares
    of all entries. *)
Definition frobenius_norm_sq (X : Matrix) : BaseFloat :=
  fsum (map (fun x => fmul x x) (concat X)).

(** ** Integers *)

(** A value of type [int32], as the two's complement representation keeps
    it: the representative of [z] modulo [2^32] in [[-2^31, 2^31)]. *)
Definition int32_wrap (z : Z) : Z := (z + 2 ^ 31) mod 2 ^ 32 - 2 ^ 31.

(** The product of two [int32] operands, which wraps around in the
    compiled code. *)
Definition int32_mul (a b : Z) : Z := int32_wrap (a * b).

(** ** Options and supervision *)

(** [struct ChainTrainingOptions]. *)
Record ChainTrainingOptions : Type := {
  l2_regularize : BaseFloat;
  leaky_hmm_coefficient : BaseFloat;
  xent_regularize : BaseFloat;
  use_smbr_objective : bool;
  exclude_silence : bool;
  one_silence_class : bool;
  silence_pdfs_str : string;
  mmi_factor : BaseFloat;
  smbr_factor : BaseFloat;
  norm_regularize : bool
}.

(** The default constructor.  [1.0e-05] is the single-precision number
    nearest to that literal. *)
Definition default_options : ChainTrainingOptions := {|
  l2_regularize := fzero;
  leaky_hmm_coefficient := S754_finite false 10995116 (-40);
  xent_regularize := fzero;
  use_smbr_objective := false;
  exclude_silence := false;
  one_silence_class := false;
  silence_pdfs_str := EmptyString;
  mmi_factor := fzero;
  smbr_factor := fone;
  norm_regularize := false
|}.

(** The fields of [chain::Supervision] that the drivers read.  The
    supervision graphs themselves are only handed on to the numerator
    objects, and stay abstract in [Fst]. *)
Record Supervision (Fst : Type) : Type := {
  weight : BaseFloat;
  num_sequences : Z;
  frames_per_sequence : Z;
  supervision_fst : Fst;
  e2e : bool;
  numerator_post_targets : Matrix
}.

Arguments weight {Fst} _.
Arguments num_sequences {Fst} _.
Arguments frames_per_sequence {Fst} _.
Arguments supervision_fst {Fst} _.
Arguments e2e {Fst} _.
Arguments numerator_post_targets {Fst} _.

(** ** The forward-backward objects

    Each object is built from the arguments of its constructor and then
    asked for [Forward()] and [Backward(...)]; as both are determined by
    the constructor arguments, an object is given by two functions of
    those arguments.  A [Backward] that accumulates into a matrix takes
    the matrix and returns it updated, with the [bool] it returns in the
    source when it has one. *)
Class ChainComputations (DenominatorGraph Fst : Type) : Type := {
  (** [DenominatorComputation(opts, den_graph, num_sequences, nnet_output)] *)
  denominator_Forward :
    ChainTrainingOptions -> DenominatorGraph -> Z -> Matrix -> BaseFloat;
  denominator_Backward :
    ChainTrainingOptions -> DenominatorGraph -> Z -> Matrix ->
    BaseFloat -> Matrix -> bool * Matrix;
  (** [NumeratorComputation(supervision, nnet_output)] *)
  numerator_Forward : Supervision Fst -> Matrix -> BaseFloat;
  numerator_Backward : Supervision Fst -> Matrix -> Matrix -> Matrix;
  (** [GenericNumeratorComputation(supervision, nnet_output)] *)
  generic_numerator_Forward : Supervision Fst -> Matrix -> BaseFloat;
  generic_numerator_Backward :
    Supervision Fst -> Matrix -> Matrix -> bool * Matrix;
  (** [DenominatorSmbrComputation(opts, den_graph, num_sequences,
      nnet_output, num_posteriors)]; [ForwardSmbr] returns the SMBR
      objective together with the negated denominator log-probability *)
  denominator_ForwardSmbr :
    ChainTrainingOptions -> DenominatorGraph -> Z -> Matrix -> Matrix ->
    BaseFloat * BaseFloat;
  denominator_BackwardSmbr :
    ChainTrainingOptions -> DenominatorGraph -> Z -> Matrix -> Matrix ->
    BaseFloat -> Matrix -> bool * Matrix;
  (** the exponential of the math library, used by [ApplyExp] *)
  Exp : BaseFloat -> BaseFloat
}.

(** ** Outputs *)

(** The two derivative matrices behind the output pointers
    [nnet_output_deriv] and [xent_output_deriv]; [None] is [NULL]. *)
Record DerivBuffers : Type := {
  nnet_output_deriv : option Matrix;
  xent_output_deriv : option Matrix
}.

(** What a driver has written through its output pointers when it
    returns.  The output [*weight] is the field [tot_weight]. *)
Record ChainObjf : Type := {
  objf : BaseFloat;
  l2_term : BaseFloat;
  tot_weight : BaseFloat;
  derivs : DerivBuffers
}.

(** The SMBR driver has the additional output [*mmi_objf]. *)
Record SmbrObjf : Type := {
  smbr_outputs :> ChainObjf;
  mmi_objf : BaseFloat
}.

(** ** The drivers *)

Section Drivers.

Context {DenominatorGraph Fst : Type}.
Context {computations : ChainComputations DenominatorGraph Fst}.

Implicit Types (opts : ChainTrainingOptions) (den_graph : DenominatorGraph).
Implicit Types (supervision : Supervision Fst) (nnet_output : Matrix).
Implicit Types (bufs : DerivBuffers) (sil_indices : option (list Z)).

(** [supervision.weight * supervision.num_sequences *
    supervision.frames_per_sequence]: the products associate to the left and
    each [int32] operand is converted to [BaseFloat]. *)
Definition supervision_tot_weight supervision : BaseFloat :=
  fmul (fmul (weight supervision) (float_of_int (num_sequences supervision)))
       (float_of_int (frames_per_sequence supervision)).

(** The first block of the three MMI-style drivers:
<<
    DenominatorComputation denominator(opts, den_graph,
                                       supervision.num_sequences, nnet_output);
    den_logprob_weighted = supervision.weight * denominator.Forward();
    if (nnet_output_deriv)
      ok = denominator.Backward(-supervision.weight, nnet_output_deriv);
>>
    It returns [den_logprob_weighted], the flag and the derivative. *)
Definition denominator_block opts den_graph supervision nnet_output
    (deriv : option Matrix) : BaseFloat * bool * option Matrix :=
  let den_logprob_weighted :=
    fmul (weight supervision)
         (denominator_Forward opts den_graph (num_sequences supervision) nnet_output) in
  match deriv with
  | Some d =>
      let '(ok, d') :=
        denominator_Backward opts den_graph (num_sequences supervision)
          nnet_output (fopp (weight supervision)) d in
      (den_logprob_weighted, ok, Some d')
  | None => (den_logprob_weighted, true, None)
  end.

(** The body of the branch taken on [inf], [NaN] or a failed computation:
    both derivatives are set to zero. *)
Definition zero_derivs bufs : DerivBuffers :=
  {| nnet_output_deriv := SetZero <$> nnet_output_deriv bufs;
     xent_output_deriv := SetZero <$> xent_output_deriv bufs |}.

(** [BaseFloat default_objf = -10;] *)
Definition default_objf : BaseFloat := float_of_int (-10).

(** [-0.5 * scale * TraceMatMat(nnet_output, nnet_output, kTrans)], evaluated
    in [double] because of the literal and rounded when stored in
    [*l2_term]. *)
Definition l2_penalty (scale : BaseFloat) nnet_output : BaseFloat :=
  to_float (dmul (dmul (SFopp double_half) (to_double scale))
                 (to_double (TraceMatMat nnet_output nnet_output))).

(** [-1.0 * scale], rounded to the [BaseFloat] parameter of [AddMat]. *)
Definition minus_scale (scale : BaseFloat) : BaseFloat :=
  to_float (dmul (SFopp (double_of_int 1)) (to_double scale)).

(** The last block of [ComputeKLObjfAndDeriv] and of
    [ComputeChainObjfAndDeriv]: the l2 penalty and its derivative. *)
Definition l2_block opts supervision nnet_output (deriv : option Matrix)
    : BaseFloat * option Matrix :=
  if eq_zero (l2_regularize opts) then (fzero, deriv)
  else
    let scale := fmul (weight supervision) (l2_regularize opts) in
    (l2_penalty scale nnet_output,
     AddMat (minus_scale scale) nnet_output <$> deriv).

(** *** ComputeChainObjfAndDerivE2e *)

(** What the function has computed when it reaches the test for [inf] and
    [NaN]. *)
Record E2eAttempt : Type := {
  e2e_objf : BaseFloat;
  e2e_denominator_ok : bool;
  e2e_numerator_ok : bool;
  e2e_derivs : DerivBuffers
}.

Definition E2e_attempt opts den_graph supervision nnet_output bufs : E2eAttempt :=
  let deriv := SetZero <$> nnet_output_deriv bufs in
  let '(den_logprob_weighted, denominator_ok, deriv) :=
    denominator_block opts den_graph supervision nnet_output deriv in
  let xent :=
    (fun _ => Resize (NumRows nnet_output) (NumCols nnet_output))
      <$> xent_output_deriv bufs in
  let num_logprob_weighted := generic_numerator_Forward supervision nnet_output in
  let numerator_ok := sub_self_is_zero num_logprob_weighted in
  let '(numerator_ok, deriv, xent) :=
    match xent, deriv, numerator_ok with
    | Some x, _, true =>
        let '(ok, x') := generic_numerator_Backward supervision nnet_output x in
        (ok, AddMat fone x' <$> deriv, Some x')
    | None, Some d, true =>
        let '(ok, d') := generic_numerator_Backward supervision nnet_output d in
        (ok, Some d', None)
    | _, _, _ => (numerator_ok, deriv, xent)
    end in
  {| e2e_objf := fsub num_logprob_weighted den_logprob_weighted;
     e2e_denominator_ok := denominator_ok;
     e2e_numerator_ok := numerator_ok;
     e2e_derivs := {| nnet_output_deriv := deriv; xent_output_deriv := xent |} |}.

(** The condition of the [if] that guards the substitution. *)
Definition E2e_failed (a : E2eAttempt) : bool :=
  negb (sub_self_is_zero (e2e_objf a))
  || negb (e2e_denominator_ok a) || negb (e2e_numerator_ok a).

(** The objective and the derivatives after that [if]. *)
Definition E2e_checked supervision (a : E2eAttempt) : BaseFloat * DerivBuffers :=
  if E2e_failed a
  then (fmul default_objf (supervision_tot_weight supervision),
        zero_derivs (e2e_derivs a))
  else (e2e_objf a, e2e_derivs a).

Definition ComputeChainObjfAndDerivE2e opts den_graph supervision nnet_output
    bufs : ChainObjf :=
  let a := E2e_attempt opts den_graph supervision nnet_output bufs in
  let '(objf, checked) := E2e_checked supervision a in
  let '(l2_term, deriv) :=
    if ne_zero (l2_regularize opts) && e2e_numerator_ok a
    then
      let scale := fmul (weight supervision) (l2_regularize opts) in
      (l2_penalty scale nnet_output,
       AddMat (minus_scale scale) nnet_output <$> nnet_output_deriv checked)
    else (fzero, nnet_output_deriv checked) in
  {| objf := objf;
     l2_term := l2_term;
     tot_weight := supervision_tot_weight supervision;
     derivs := {| nnet_output_deriv := deriv;
                  xent_output_deriv := xent_output_deriv checked |} |}.

(** *** ComputeKLObjfAndDeriv and ComputeChainObjfAndDeriv *)

(** What either function has computed when it reaches the test for [inf]
    and [NaN]: [*objf], the flag [ok] and the derivatives. *)
Record Attempt : Type := {
  att_objf : BaseFloat;
  att_ok : bool;
  att_derivs : DerivBuffers
}.

Definition failed (a : Attempt) : bool :=
  negb (sub_self_is_zero (att_objf a)) || negb (att_ok a).

Definition checked supervision (a : Attempt) : BaseFloat * DerivBuffers :=
  if failed a
  then (fmul default_objf (supervision_tot_weight supervision),
        zero_derivs (att_derivs a))
  else (att_objf a, att_derivs a).

(** The objective and derivatives after the check, followed by the l2
    block. *)
Definition finish opts supervision nnet_output (a : Attempt) : ChainObjf :=
  let '(objf, bufs) := checked supervision a in
  let '(l2_term, deriv) :=
    l2_block opts supervision nnet_output (nnet_output_deriv bufs) in
  {| objf := objf;
     l2_term := l2_term;
     tot_weight := supervision_tot_weight supervision;
     derivs := {| nnet_output_deriv := deriv;
                  xent_output_deriv := xent_output_deriv bufs |} |}.

(** The three [KALDI_ASSERT]s at the head of [ComputeKLObjfAndDeriv].  The
    product of the two [int32] fields is an [int32]. *)
Definition KL_asserts supervision nnet_output : bool :=
  (0 <? Z.of_nat (NumRows (numerator_post_targets supervision)))
  && (Z.of_nat (NumRows nnet_output)
        =? int32_mul (num_sequences supervision) (frames_per_sequence supervision))
  && (NumRows (numerator_post_targets supervision) =? NumRows nnet_output)%nat.

Definition KL_attempt opts den_graph supervision nnet_output bufs : Attempt :=
  let deriv := SetZero <$> nnet_output_deriv bufs in
  let '(den_logprob_weighted, ok, deriv) :=
    denominator_block opts den_graph supervision nnet_output deriv in
  let '(deriv, xent) :=
    match xent_output_deriv bufs with
    | Some _ =>
        let x := Resize (NumRows nnet_output) (NumCols nnet_output) in
        let x := CopyToMat (numerator_post_targets supervision) x in
        let x := Scale (weight supervision) x in
        (AddMat fone x <$> deriv, Some x)
    | None =>
        let numerator_post := Resize (NumRows nnet_output) (NumCols nnet_output) in
        let numerator_post :=
          CopyToMat (numerator_post_targets supervision) numerator_post in
        (AddMat (weight supervision) numerator_post <$> deriv, None)
    end in
  {| att_objf := fopp den_logprob_weighted;
     att_ok := ok;
     att_derivs := {| nnet_output_deriv := deriv; xent_output_deriv := xent |} |}.

(** [None] stands for a failed assertion, which ends the program. *)
Definition ComputeKLObjfAndDeriv opts den_graph supervision nnet_output bufs
    : option ChainObjf :=
  if KL_asserts supervision nnet_output
  then Some (finish opts supervision nnet_output
               (KL_attempt opts den_graph supervision nnet_output bufs))
  else None.

Definition Chain_attempt opts den_graph supervision nnet_output bufs : Attempt :=
  let deriv := SetZero <$> nnet_output_deriv bufs in
  let '(den_logprob_weighted, ok, deriv) :=
    denominator_block opts den_graph supervision nnet_output deriv in
  let xent :=
    (fun _ => Resize (NumRows nnet_output) (NumCols nnet_output))
      <$> xent_output_deriv bufs in
  let num_logprob_weighted := numerator_Forward supervision nnet_output in
  let '(deriv, xent) :=
    match xent with
    | Some x =>
        let x' := numerator_Backward supervision nnet_output x in
        (AddMat fone x' <$> deriv, Some x')
    | None => (numerator_Backward supervision nnet_output <$> deriv, None)
    end in
  {| att_objf := fsub num_logprob_weighted den_logprob_weighted;
     att_ok := ok;
     att_derivs := {| nnet_output_deriv := deriv; xent_output_deriv := xent |} |}.

Definition ComputeChainObjfAndDeriv opts den_graph supervision nnet_output bufs
    : ChainObjf :=
  if e2e supervision
  then ComputeChainObjfAndDerivE2e opts den_graph supervision nnet_output bufs
  else finish opts supervision nnet_output
         (Chain_attempt opts den_graph supervision nnet_output bufs).

(** *** ComputeChainSmbrObjfAndDeriv *)

(** The numerator posteriors, written by [numerator.Backward] into a
    freshly constructed matrix. *)
Definition Smbr_num_posteriors supervision nnet_output : Matrix :=
  numerator_Backward supervision nnet_output
    (Resize (NumRows nnet_output) (NumCols nnet_output)).

(** The treatment of silence: [num_posteriors] as it is handed to the
    denominator object. *)
Definition Smbr_silence opts sil_indices nnet_output (num_posteriors : Matrix)
    : Matrix :=
  match sil_indices with
  | Some sil =>
      if exclude_silence opts then CopyCols_inplace sil num_posteriors
      else if one_silence_class opts then
        let silence_post :=
          CopyCols num_posteriors sil
            (Resize (NumRows nnet_output) (NumCols nnet_output)) in
        let total_silence_post :=
          AddColSumMat fone silence_post fzero
            (replicate (NumRows nnet_output) fzero) in
        CopyColsFromVec total_silence_post sil num_posteriors
      else num_posteriors
  | None => num_posteriors
  end.

(** The derivatives as the first block leaves them: the scaled copy in
    [nnet_output_deriv] when [mmi_factor] is not zero, and the copy in
    [xent_output_deriv]. *)
Definition Smbr_numerator_derivs opts (num_posteriors : Matrix) bufs
    : DerivBuffers :=
  {| nnet_output_deriv :=
       if ne_zero (mmi_factor opts)
       then (fun d => Scale (mmi_factor opts) (CopyFromMat num_posteriors d))
              <$> nnet_output_deriv bufs
       else nnet_output_deriv bufs;
     xent_output_deriv :=
       CopyFromMat num_posteriors <$> xent_output_deriv bufs |}.

(** The assertions of the [CopyFromMat] calls of the first block.  Neither
    output is resized by this driver, so each one that is copied into has to
    arrive with the dimensions of [num_posteriors]; [Smbr_numerator_derivs]
    describes the calls for which that is so. *)
Definition Smbr_copy_asserts opts (num_posteriors : Matrix) bufs : bool :=
  (if ne_zero (mmi_factor opts)
   then from_option (CopyFromMat_asserts num_posteriors) true
          (nnet_output_deriv bufs)
   else true)
  && from_option (CopyFromMat_asserts num_posteriors) true
       (xent_output_deriv bufs).

(** What the function has computed when it reaches the test for [inf] and
    [NaN]. *)
Record SmbrAttempt : Type := {
  sa_objf : BaseFloat;
  sa_mmi_objf : BaseFloat;
  sa_ok : bool;
  sa_derivs : DerivBuffers
}.

Definition Smbr_attempt opts den_graph supervision nnet_output bufs sil_indices
    : SmbrAttempt :=
  let num_logprob_weighted :=
    fmul (mmi_factor opts) (numerator_Forward supervision nnet_output) in
  let num_posteriors := Smbr_num_posteriors supervision nnet_output in
  let bufs := Smbr_numerator_derivs opts num_posteriors bufs in
  let num_posteriors := Smbr_silence opts sil_indices nnet_output num_posteriors in
  let '(smbr_objf, den_logprob_negated) :=
    denominator_ForwardSmbr opts den_graph (num_sequences supervision)
      nnet_output num_posteriors in
  let '(ok, deriv) :=
    match nnet_output_deriv bufs with
    | Some d =>
        let d := if eq_zero (mmi_factor opts) then SetZero d else d in
        let '(ok, d') :=
          denominator_BackwardSmbr opts den_graph (num_sequences supervision)
            nnet_output num_posteriors (weight supervision) d in
        (ok, Some d')
    | None => (true, None)
    end in
  {| sa_objf := fmul (weight supervision) smbr_objf;
     sa_mmi_objf :=
       fadd (fmul (weight supervision) den_logprob_negated) num_logprob_weighted;
     sa_ok := ok;
     sa_derivs := {| nnet_output_deriv := deriv;
                     xent_output_deriv := xent_output_deriv bufs |} |}.

Definition Smbr_failed (a : SmbrAttempt) : bool :=
  let total_objf := fadd (sa_objf a) (sa_mmi_objf a) in
  negb (sub_self_is_zero total_objf) || negb (sa_ok a).

(** [BaseFloat default_objf = -opts.mmi_factor * 10;] *)
Definition Smbr_default_objf opts : BaseFloat :=
  fmul (fopp (mmi_factor opts)) (float_of_int 10).

(** [*objf], [*mmi_objf] and the derivatives after the check. *)
Definition Smbr_checked opts supervision (a : SmbrAttempt)
    : BaseFloat * BaseFloat * DerivBuffers :=
  if Smbr_failed a
  then (fzero,
        fmul (Smbr_default_objf opts) (supervision_tot_weight supervision),
        zero_derivs (sa_derivs a))
  else (sa_objf a, sa_mmi_objf a, sa_derivs a).

(** [exp_nnet_output.ApplyExp()] on a copy of [nnet_output]. *)
Definition ApplyExp (M : Matrix) : Matrix := map (map Exp) M.

(** The last block of the SMBR driver, with its two penalties. *)
Definition Smbr_l2_block opts supervision nnet_output (deriv : option Matrix)
    : BaseFloat * option Matrix :=
  if eq_zero (l2_regularize opts) then (fzero, deriv)
  else if negb (norm_regularize opts) then
    let scale := fmul (weight supervision) (l2_regularize opts) in
    (l2_penalty scale nnet_output,
     AddMat (minus_scale scale) nnet_output <$> deriv)
  else
    let scale := fmul (weight supervision) (l2_regularize opts) in
    let exp_nnet_output := ApplyExp nnet_output in
    (fmul (fopp scale) (Sum exp_nnet_output),
     AddMat (minus_scale scale) exp_nnet_output <$> deriv).

Definition ComputeChainSmbrObjfAndDeriv opts den_graph supervision nnet_output
    bufs sil_indices : SmbrObjf :=
  let a := Smbr_attempt opts den_graph supervision nnet_output bufs sil_indices in
  let '(objf, mmi_objf, checked) := Smbr_checked opts supervision a in
  let '(l2_term, deriv) :=
    Smbr_l2_block opts supervision nnet_output (nnet_output_deriv checked) in
  {| smbr_outputs :=
       {| objf := objf;
          l2_term := l2_term;
          tot_weight := supervision_tot_weight supervision;
          derivs := {| nnet_output_deriv := deriv;
                       xent_output_deriv := xent_output_deriv checked |} |};
     mmi_objf := mmi_objf |}.

End Drivers.

(** ** Vocabulary of the properties *)

(** A derivative that has been set to zero, for an output pointer that is
    [provided]: nothing for [NULL], a matrix of zeros otherwise. *)
Definition zeroed_if_provided (provided result : option Matrix) : Prop :=
  match provided, result with
  | None, None => True
  | Some _, Some z => all_zero z
  | _, _ => False
  end.

(** Two matrices with the same number of rows and the same length of each
    row. *)
Definition same_shape (A B : Matrix) : Prop := map length A = map length B.

(** [after] is [before] set to zero in place: the matrix keeps its rows and
    columns and every entry is zero; [NULL] stays [NULL]. *)
Definition set_to_zero (before after : option Matrix) : Prop :=
  match before, after with
  | None, None => True
  | Some b, Some z => same_shape b z /\ all_zero z
  | _, _ => False
  end.

(** A well-formed silence index vector: [-1] at a silence column and [c] at
    any other column [c]. *)
Definition silence_indices_ok (sil : list Z) : Prop :=
  forall (c : nat) (i : Z), sil !! c = Some i -> i = -1 \/ i = Z.of_nat c.

(** Column [c] is a silence column of the index vector. *)
Definition is_silence (sil : list Z) (c : nat) : bool :=
  match sil !! c with
  | Some i => i <? 0
  | None => false
  end.

(** The l2 penalty in the words of the spec: minus one half, times
    [w * lambda], times the squared Frobenius norm. *)
Definition l2_term_spec {Fst : Type} (opts : ChainTrainingOptions)
    (supervision : Supervision Fst) (nnet_output : Matrix) : BaseFloat :=
  to_float
    (dmul (dmul (SFopp double_half)
                (to_double (fmul (weight supervision) (l2_regularize opts))))
          (to_double (frobenius_norm_sq nnet_output))).

(** The l2 rule of the spec for one call: [before] is [nnet_output_deriv] as
    it stands when the l2 block is reached, [r] what the call returns. *)
Definition l2_rule {Fst : Type} (opts : ChainTrainingOptions)
    (supervision : Supervision Fst) (nnet_output : Matrix)
    (before : option Matrix) (r : ChainObjf) : Prop :=
  if eq_zero (l2_regularize opts)
  then l2_term r = fzero
  else l2_term r = l2_term_spec opts supervision nnet_output
       /\ nnet_output_deriv (derivs r)
          = AddMat (minus_scale (fmul (weight supervision) (l2_regularize opts)))
              nnet_output <$> before.

(** ** An instance for evaluation

    The forward passes answer with the numbers of a script, and the backward
    passes add a scaled matrix to the one they are given.  The instance
    serves to run the drivers on concrete inputs. *)
Record Script : Type := {
  script_den_logprob : BaseFloat;
  script_den_ok : bool;
  script_num_logprob : BaseFloat;
  script_generic_logprob : BaseFloat;
  script_generic_ok : bool;
  script_smbr_objf : BaseFloat;
  script_den_logprob_negated : BaseFloat;
  script_smbr_ok : bool
}.

Definition scripted (s : Script) : ChainComputations unit unit := {|
  denominator_Forward _ _ _ _ := script_den_logprob s;
  denominator_Backward _ _ _ nnet_output deriv_weight d :=
    (script_den_ok s, AddMat deriv_weight nnet_output d);
  numerator_Forward _ _ := script_num_logprob s;
  numerator_Backward supervision _ d :=
    AddMat (weight supervision) (numerator_post_targets supervision) d;
  generic_numerator_Forward _ _ := script_generic_logprob s;
  generic_numerator_Backward supervision _ d :=
    (script_generic_ok s,
     AddMat (weight supervision) (numerator_post_targets supervision) d);
  denominator_ForwardSmbr _ _ _ _ _ :=
    (script_smbr_objf s, script_den_logprob_negated s);
  denominator_BackwardSmbr _ _ _ _ num_posteriors deriv_weight d :=
    (script_smbr_ok s, AddMat deriv_weight num_posteriors d);
  Exp x := fadd fone x
|}.

(** A run in which every pass succeeds. *)
Definition good_script : Script := {|
  script_den_logprob := float_of_int (-3);
  script_den_ok := true;
  script_num_logprob := float_of_int (-2);
  script_generic_logprob := float_of_int (-2);
  script_generic_ok := true;
  script_smbr_objf := float_of_int 1;
  script_den_logprob_negated := float_of_int 3;
  script_smbr_ok := true
|}.

(** A run in which the denominator backward passes return [false]. *)
Definition bad_denominator_script : Script := {|
  script_den_logprob := float_of_int (-3);
  script_den_ok := false;
  script_num_logprob := float_of_int (-2);
  script_generic_logprob := float_of_int (-2);
  script_generic_ok := true;
  script_smbr_objf := float_of_int 1;
  script_den_logprob_negated := float_of_int 3;
  script_smbr_ok := false
|}.

(** A run in which the generic numerator graph is unreachable: its forward
    log-probability is minus infinity. *)
Definition unreachable_script : Script := {|
  script_den_logprob := float_of_int (-3);
  script_den_ok := true;
  script_num_logprob := float_of_int (-2);
  script_generic_logprob := S754_infinity true;
  script_generic_ok := true;
  script_smbr_objf := float_of_int 1;
  script_den_logprob_negated := float_of_int 3;
  script_smbr_ok := true
|}.

(** Two frames of one sequence over two classes, with weight one; class [0]
    is silence. *)
Definition sample_output : Matrix :=
  [[float_of_int 1; float_of_int 2]; [float_of_int 3; float_of_int 4]].

Definition sample_supervision (is_e2e : bool) : Supervision unit := {|
  weight := fone;
  num_sequences := 1;
  frames_per_sequence := 2;
  supervision_fst := tt;
  e2e := is_e2e;
  numerator_post_targets := [[fone; fzero]; [fzero; fone]]
|}.

(** Output pointers to two matrices of the dimensions of [sample_output],
    with contents left over from an earlier use. *)
Definition sample_bufs : DerivBuffers := {|
  nnet_output_deriv := Some [[fone; fone]; [fone; fone]];
  xent_output_deriv := Some [[fone; fzero]; [fone; fone]]
|}.

Definition sample_sil_indices : list Z := [-1; 1].

Definition set_l2_regularize (lambda : BaseFloat) (opts : ChainTrainingOptions)
    : ChainTrainingOptions := {|
  l2_regularize := lambda;
  leaky_hmm_coefficient := leaky_hmm_coefficient opts;
  xent_regularize := xent_regularize opts;
  use_smbr_objective := use_smbr_objective opts;
  exclude_silence := exclude_silence opts;
  one_silence_class := one_silence_class opts;
  silence_pdfs_str := silence_pdfs_str opts;
  mmi_factor := mmi_factor opts;
  smbr_factor := smbr_factor opts;
  norm_regularize := norm_regularize opts
|}.

Definition set_one_silence_class (b : bool) (opts : ChainTrainingOptions)
    : ChainTrainingOptions := {|
  l2_regularize := l2_regularize opts;
  leaky_hmm_coefficient := leaky_hmm_coefficient opts;
  xent_regularize := xent_regularize opts;
  use_smbr_objective := use_smbr_objective opts;
  exclude_silence := exclude_silence opts;
  one_silence_class := b;
  silence_pdfs_str := silence_pdfs_str opts;
  mmi_factor := mmi_factor opts;
  smbr_factor := smbr_factor opts;
  norm_regularize := norm_regularize opts
|}.

Definition set_exclude_silence (b : bool) (opts : ChainTrainingOptions)
    : ChainTrainingOptions := {|
  l2_regularize := l2_regularize opts;
  leaky_hmm_coefficient := leaky_hmm_coefficient opts;
  xent_regularize := xent_regularize opts;
  use_smbr_objective := use_smbr_objective opts;
  exclude_silence := b;
  one_silence_class := one_silence_class opts;
  silence_pdfs_str := silence_pdfs_str opts;
  mmi_factor := mmi_factor opts;
  smbr_factor := smbr_factor opts;
  norm_regularize := norm_regularize opts
|}.

(** ** The paths of ComputeChainObjfAndDeriv

    [ComputeChainObjfAndDeriv] hands the call to the e2e function when
    [supervision.e2e] is set.  The definitions below name, for a call, the
    quantities of whichever path it takes. *)

Section Paths.

Context {DenominatorGraph Fst : Type}.
Context {computations : ChainComputations DenominatorGraph Fst}.

Implicit Types (opts : ChainTrainingOptions) (den_graph : DenominatorGraph).
Implicit Types (supervision : Supervision Fst) (nnet_output : Matrix).
Implicit Types (bufs : DerivBuffers).

(** [*objf] as computed, before the test for [inf] and [NaN]. *)
Definition Chain_objf_computed opts den_graph supervision nnet_output bufs
    : BaseFloat :=
  if e2e supervision
  then e2e_objf (E2e_attempt opts den_graph supervision nnet_output bufs)
  else att_objf (Chain_attempt opts den_graph supervision nnet_output bufs).



(** The condition under which the call substitutes the default
    objective. *)
Definition Chain_failed opts den_graph supervision nnet_output bufs : bool :=
  if e2e supervision
  then E2e_failed (E2e_attempt opts den_graph supervision nnet_output bufs)
  else failed (Chain_attempt opts den_graph supervision nnet_output bufs).


(** The objective and the derivatives after the test for [inf] and [NaN],
    before the l2 block. *)
Definition Chain_after_check opts den_graph supervision nnet_output bufs
    : BaseFloat * DerivBuffers :=
  if e2e supervision
  then E2e_checked supervision
         (E2e_attempt opts den_graph supervision nnet_output bufs)
  else checked supervision
         (Chain_attempt opts den_graph supervision nnet_output bufs).

(** The weighted numerator log-probability of the call. *)
Definition Chain_num_logprob_weighted supervision nnet_output : BaseFloat :=
  if e2e supervision
  then generic_numerator_Forward supervision nnet_output
  else numerator_Forward supervision nnet_output.

(** The weighted numerator posteriors of the call: what the numerator
    backward pass writes into a matrix of zeros. *)
Definition Chain_num_posteriors supervision nnet_output : Matrix :=
  let zeros := Resize (NumRows nnet_output) (NumCols nnet_output) in
  if e2e supervision
  then snd (generic_numerator_Backward supervision nnet_output zeros)
  else numerator_Backward supervision nnet_output zeros.

End Paths.

(** ** The earlier chain-training.cc

    The file chain/chain-training.h comes with an earlier text of
    chain-training.cc.  Its [ComputeChainObjfAndDeriv] has no e2e branch,
    runs the numerator before the denominator and fills
    [xent_output_deriv], a [CuMatrixBase] that it does not resize, with a
    copy of [nnet_output_deriv]; its [ComputeChainSmbrObjfAndDeriv] has the
    text of the current one up to the l2 block, which has no
    [norm_regularize] branch. *)

Module Earlier.
Section Drivers.

Context {DenominatorGraph Fst : Type}.
Context {computations : ChainComputations DenominatorGraph Fst}.

Implicit Types (opts : ChainTrainingOptions) (den_graph : DenominatorGraph).
Implicit Types (supervision : Supervision Fst) (nnet_output : Matrix).
Implicit Types (bufs : DerivBuffers) (sil_indices : option (list Z)).

Definition Chain_attempt opts den_graph supervision nnet_output bufs : Attempt :=
  let deriv := SetZero <$> nnet_output_deriv bufs in
  let num_logprob_weighted := numerator_Forward supervision nnet_output in
  let '(deriv, xent) :=
    match deriv with
    | Some d =>
        let d := numerator_Backward supervision nnet_output d in
        (Some d, CopyFromMat d <$> xent_output_deriv bufs)
    | None =>
        (None,
         (fun x => numerator_Backward supervision nnet_output (SetZero x))
           <$> xent_output_deriv bufs)
    end in
  let den_logprob :=
    denominator_Forward opts den_graph (num_sequences supervision) nnet_output in
  let '(ok, deriv) :=
    match deriv with
    | Some d =>
        let '(ok, d') :=
          denominator_Backward opts den_graph (num_sequences supervision)
            nnet_output (fopp (weight supervision)) d in
        (ok, Some d')
    | None => (true, None)
    end in
  {| att_objf := fsub num_logprob_weighted (fmul (weight supervision) den_logprob);
     att_ok := ok;
     att_derivs := {| nnet_output_deriv := deriv; xent_output_deriv := xent |} |}.

Definition ComputeChainObjfAndDeriv opts den_graph supervision nnet_output bufs
    : ChainObjf :=
  finish opts supervision nnet_output
    (Chain_attempt opts den_graph supervision nnet_output bufs).

Definition ComputeChainSmbrObjfAndDeriv opts den_graph supervision nnet_output
    bufs sil_indices : SmbrObjf :=
  let a := Smbr_attempt opts den_graph supervision nnet_output bufs sil_indices in
  let '(objf, mmi_objf, checked) := Smbr_checked opts supervision a in
  let '(l2_term, deriv) :=
    l2_block opts supervision nnet_output (nnet_output_deriv checked) in
  {| smbr_outputs :=
       {| objf := objf;
          l2_term := l2_term;
          tot_weight := supervision_tot_weight supervision;
          derivs := {| nnet_output_deriv := deriv;
                       xent_output_deriv := xent_output_deriv checked |} |};
     mmi_objf := mmi_objf |}.

End Drivers.
End Earlier.

(** ** Replacing one backward pass

    The forward-backward objects with one of the backward passes replaced
    by another function: used to state that a driver does not run that
    pass. *)

Section Replace.

Context {DenominatorGraph Fst : Type}.
Context (c : ChainComputations DenominatorGraph Fst).

Definition with_denominator_Backward
    (f : ChainTrainingOptions -> DenominatorGraph -> Z -> Matrix ->
         BaseFloat -> Matrix -> bool * Matrix)
    : ChainComputations DenominatorGraph Fst := {|
  denominator_Forward := @denominator_Forward _ _ c;
  denominator_Backward := f;
  numerator_Forward := @numerator_Forward _ _ c;
  numerator_Backward := @numerator_Backward _ _ c;
  generic_numerator_Forward := @generic_numerator_Forward _ _ c;
  generic_numerator_Backward := @generic_numerator_Backward _ _ c;
  denominator_ForwardSmbr := @denominator_ForwardSmbr _ _ c;
  denominator_BackwardSmbr := @denominator_BackwardSmbr _ _ c;
  Exp := @Exp _ _ c
|}.

Definition with_denominator_BackwardSmbr
    (f : ChainTrainingOptions -> DenominatorGraph -> Z -> Matrix -> Matrix ->
         BaseFloat -> Matrix -> bool * Matrix)
    : ChainComputations DenominatorGraph Fst := {|
  denominator_Forward := @denominator_Forward _ _ c;
  denominator_Backward := @denominator_Backward _ _ c;
  numerator_Forward := @numerator_Forward _ _ c;
  numerator_Backward := @numerator_Backward _ _ c;
  generic_numerator_Forward := @generic_numerator_Forward _ _ c;
  generic_numerator_Backward := @generic_numerator_Backward _ _ c;
  denominator_ForwardSmbr := @denominator_ForwardSmbr _ _ c;
  denominator_BackwardSmbr := f;
  Exp := @Exp _ _ c
|}.

Definition with_numerator_Backward
    (f : Supervision Fst -> Matrix -> Matrix -> Matrix)
    : ChainComputations DenominatorGraph Fst := {|
  denominator_Forward := @denominator_Forward _ _ c;
  denominator_Backward := @denominator_Backward _ _ c;
  numerator_Forward := @numerator_Forward _ _ c;
  numerator_Backward := f;
  generic_numerator_Forward := @generic_numerator_Forward _ _ c;
  generic_numerator_Backward := @generic_numerator_Backward _ _ c;
  denominator_ForwardSmbr := @denominator_ForwardSmbr _ _ c;
  denominator_BackwardSmbr := @denominator_BackwardSmbr _ _ c;
  Exp := @Exp _ _ c
|}.

Definition with_generic_numerator_Backward
    (f : Supervision Fst -> Matrix -> Matrix -> bool * Matrix)
    : ChainComputations DenominatorGraph Fst := {|
  denominator_Forward := @denominator_Forward _ _ c;
  denominator_Backward := @denominator_Backward _ _ c;
  numerator_Forward := @numerator_Forward _ _ c;
  numerator_Backward := @numerator_Backward _ _ c;
  generic_numerator_Forward := @generic_numerator_Forward _ _ c;
  generic_numerator_Backward := f;
  denominator_ForwardSmbr := @denominator_ForwardSmbr _ _ c;
  denominator_BackwardSmbr := @denominator_BackwardSmbr _ _ c;
  Exp := @Exp _ _ c
|}.

End Replace.

(** ** Shapes *)

(** Two settings of the output pointers that provide the same pointers, with
    derivative matrices of one shape.  The shape of [xent_output_deriv] is
    left free: the e2e, KL and chain drivers resize it themselves.  The SMBR
    driver does not, and takes it only with the dimensions that
    [Smbr_copy_asserts] checks. *)
Definition same_pointers (bufs bufs' : DerivBuffers) : Prop :=
  match nnet_output_deriv bufs, nnet_output_deriv bufs' with
  | Some d, Some d' => same_shape d d'
  | None, None => True
  | _, _ => False
  end
  /\ (is_Some (xent_output_deriv bufs) <-> is_Some (xent_output_deriv bufs')).

(** A matrix has [rows] rows of [cols] entries. *)
Definition has_shape (rows cols : nat) (M : Matrix) : Prop :=
  map length M = replicate rows cols.

(** ** nnet3/nnet-chain-diagnostics.cc: the silence index vector

    The two constructors of [NnetChainComputeProb] build [sil_indices_] from
    [chain_config.silence_pdfs_str].  The string is cut by
    [SplitStringToVector(str, ":,", false, &silence_pdfs)] and each field is
    read by [std::atoi]; both are defined elsewhere and enter as the
    function [silence_pdfs_of], from the string to the list of the integers
    read.  [num_pdfs], the output dimension of the network, is taken
    non-negative. *)

(** How the construction ends: with the vector, with [KALDI_ERR] or a failed
    [KALDI_ASSERT], or with a store [indices[pdf] = ...] outside the vector,
    whose behaviour C++ leaves undefined. *)
Inductive Outcome (A : Type) : Type :=
  | Done (a : A)
  | KaldiError
  | OutOfBounds.

Arguments Done {A} a.
Arguments KaldiError {A}.
Arguments OutOfBounds {A}.

(** [indices[pdf] = value] on a [std::vector<int32>]. *)
Definition vector_store (indices : list Z) (pdf value : Z) : Outcome (list Z) :=
  if (0 <=? pdf) && (pdf <? Z.of_nat (length indices))
  then Done (<[Z.to_nat pdf := value]> indices)
  else OutOfBounds.

(** One turn of the loop over [silence_pdfs]:
<<
    int32 pdf = std::atoi(it->c_str());
    if (pdf > num_pdfs) KALDI_ERR << ...;
    indices[pdf] = value;
>>
    where [value] is [-1] in one loop and [pdf] in the other. *)
Definition mark_pdf (num_pdfs : nat) (value : Z -> Z)
    (state : Outcome (list Z)) (pdf : Z) : Outcome (list Z) :=
  match state with
  | Done indices =>
      if pdf >? Z.of_nat num_pdfs then KaldiError
      else vector_store indices pdf (value pdf)
  | KaldiError => KaldiError
  | OutOfBounds => OutOfBounds
  end.

Definition mark_pdfs (num_pdfs : nat) (value : Z -> Z) (indices : list Z)
    (silence_pdfs : list Z) : Outcome (list Z) :=
  foldl (mark_pdf num_pdfs value) (Done indices) silence_pdfs.

(** The branch for [exclude_silence]: [indices[i] = i] for every [i], then
    [-1] at each silence pdf. *)
Definition exclude_silence_indices (num_pdfs : nat) (silence_pdfs : list Z)
    : Outcome (list Z) :=
  mark_pdfs num_pdfs (fun _ => -1) (map Z.of_nat (seq 0 num_pdfs)) silence_pdfs.

(** The other branch: [-1] everywhere, then [pdf] at each silence pdf. *)
Definition one_silence_class_indices (num_pdfs : nat) (silence_pdfs : list Z)
    : Outcome (list Z) :=
  mark_pdfs num_pdfs (fun pdf => pdf) (replicate num_pdfs (-1)) silence_pdfs.

Definition string_empty (s : string) : bool :=
  match s with
  | EmptyString => true
  | String _ _ => false
  end.

Section SilenceIndices.

Variable silence_pdfs_of : string -> list Z.

(** [sil_indices_] as the constructor that takes [const Nnet &nnet] builds
    it, in the block that starts with the test of [use_smbr_objective]; the
    vector stays empty when the block is skipped.  The other blocks of the
    constructor do not touch [sil_indices_]. *)
Definition NnetChainComputeProb_sil_indices (chain_config : ChainTrainingOptions)
    (num_pdfs : nat) : Outcome (list Z) :=
  if use_smbr_objective chain_config
     && (exclude_silence chain_config || one_silence_class chain_config)
  then
    if string_empty (silence_pdfs_str chain_config) then KaldiError
    else
      let silence_pdfs := silence_pdfs_of (silence_pdfs_str chain_config) in
      if exclude_silence chain_config
      then exclude_silence_indices num_pdfs silence_pdfs
      else one_silence_class_indices num_pdfs silence_pdfs
  else Done [].

(** The body of the constructor that takes [Nnet *nnet]: its two assertions
    and the block that builds [sil_indices_]; [den_graph_NumPdfs] is
    [den_graph_.NumPdfs()]. *)
Definition NnetChainComputeProb_stats_sil_indices
    (store_component_stats compute_deriv : bool) (den_graph_NumPdfs : Z)
    (chain_config : ChainTrainingOptions) (num_pdfs : nat) : Outcome (list Z) :=
  if negb (den_graph_NumPdfs >? 0) then KaldiError
  else if negb (store_component_stats && negb compute_deriv) then KaldiError
  else if negb (string_empty (silence_pdfs_str chain_config))
  then exclude_silence_indices num_pdfs
         (silence_pdfs_of (silence_pdfs_str chain_config))
  else Done [].

End SilenceIndices.

(** [sil_indices_.Dim() ? &sil_indices_ : NULL], the last argument of the
    call of the SMBR driver in [ProcessOutputs]. *)
Definition sil_indices_arg (sil_indices_ : list Z) : option (list Z) :=
  if (length sil_indices_ =? 0)%nat then None else Some sil_indices_.

(** ** nnet3/nnet-chain-diagnostics.cc: ProcessOutputs

    The part of the loop body of [NnetChainComputeProb::ProcessOutputs] that
    computes the objective of one supervision: the two matrices resized with
    [kUndefined], the call of one of the drivers, the scaling by the entry
    of [objective_scales_], and the filling of [aux_objfs].  What follows in
    the loop body adds these numbers to [objf_info_]. *)

(** A matrix after [Resize(rows, cols, kUndefined)]: its entries are
    whatever the memory held, given by [contents]. *)
Definition Resize_undefined (rows cols : nat) (contents : nat -> nat -> BaseFloat)
    : Matrix :=
  map (fun r => map (contents r) (seq 0 cols)) (seq 0 rows).

(** The local variables after that part.  [tot_mmi_objf] is declared without
    a value and is written by the SMBR driver only; [None] stands for a
    variable that has not been written.  [po_tot_weight] is the local
    [tot_weight], and [po_nnet_output_deriv] the local [nnet_output_deriv]
    ([output_deriv] below). *)
Record ProcessOutputsLocals : Type := {
  tot_like : BaseFloat;
  tot_mmi_objf : option BaseFloat;
  tot_l2_term : BaseFloat;
  po_tot_weight : BaseFloat;
  po_nnet_output_deriv : Matrix;
  po_xent_deriv : Matrix;
  aux_objfs : list (option Double)
}.

Section ProcessOutputs.

Context {DenominatorGraph Fst : Type}.
Context {computations : ChainComputations DenominatorGraph Fst}.

(** The call of one of the drivers: its result, with the [tot_mmi_objf] it
    has written, if any.  [None] stands for a failed assertion in the KL
    driver. *)
Definition ProcessOutputs_call (chain_config_ : ChainTrainingOptions)
    (den_graph_ : DenominatorGraph) (sil_indices_ : list Z)
    (supervision : Supervision Fst) (nnet_output : Matrix) (bufs : DerivBuffers)
    : option (ChainObjf * option BaseFloat) :=
  if (0 <? NumRows (numerator_post_targets supervision))%nat
  then
    (fun r => (r, None))
      <$> ComputeKLObjfAndDeriv chain_config_ den_graph_ supervision
            nnet_output bufs
  else if use_smbr_objective chain_config_
  then
    let r :=
      ComputeChainSmbrObjfAndDeriv chain_config_ den_graph_ supervision
        nnet_output bufs (sil_indices_arg sil_indices_) in
    Some (smbr_outputs r, Some (mmi_objf r))
  else
    Some (ComputeChainObjfAndDeriv chain_config_ den_graph_ supervision
            nnet_output bufs, None).

(** [compute_deriv] is [nnet_config_.compute_deriv]; [objective_scale] is the
    result of [objective_scales_.find(sup.name)]; the two [contents] give
    the undefined entries of the resized matrices. *)
Definition ProcessOutputs_objf (compute_deriv : bool)
    (chain_config_ : ChainTrainingOptions) (den_graph_ : DenominatorGraph)
    (sil_indices_ : list Z) (objective_scale : option BaseFloat)
    (supervision : Supervision Fst) (nnet_output : Matrix)
    (deriv_contents xent_contents : nat -> nat -> BaseFloat)
    : option ProcessOutputsLocals :=
  let use_xent := ne_zero (xent_regularize chain_config_) in
  let output_deriv :=
    if compute_deriv
    then Resize_undefined (NumRows nnet_output) (NumCols nnet_output) deriv_contents
    else [] in
  let xent_deriv :=
    if use_xent
    then Resize_undefined (NumRows nnet_output) (NumCols nnet_output) xent_contents
    else [] in
  let bufs :=
    {| nnet_output_deriv := if compute_deriv then Some output_deriv else None;
       xent_output_deriv := if use_xent then Some xent_deriv else None |} in
  let called :=
    ProcessOutputs_call chain_config_ den_graph_ sil_indices_ supervision
      nnet_output bufs in
  match called with
  | None => None
  | Some (r, written_mmi_objf) =>
      let output_deriv :=
        default output_deriv (nnet_output_deriv (derivs r)) in
      let xent_deriv := default xent_deriv (xent_output_deriv (derivs r)) in
      let '(tot_like, tot_l2_term, tot_mmi_objf, tot_weight, output_deriv) :=
        match objective_scale with
        | Some scale =>
            (fmul (objf r) scale,
             fmul (l2_term r) scale,
             (fun x => fmul x scale) <$> written_mmi_objf,
             fmul (tot_weight r) scale,
             if compute_deriv then Scale scale output_deriv
             else output_deriv)
        | None =>
            (objf r, l2_term r, written_mmi_objf, tot_weight r, output_deriv)
        end in
      Some {| tot_like := tot_like;
              tot_mmi_objf := tot_mmi_objf;
              tot_l2_term := tot_l2_term;
              po_tot_weight := tot_weight;
              po_nnet_output_deriv := output_deriv;
              po_xent_deriv := xent_deriv;
              aux_objfs :=
                Some (to_double tot_l2_term)
                :: (if use_smbr_objective chain_config_
                    then [to_double <$> tot_mmi_objf]
                    else []) |}
  end.

End ProcessOutputs.

(** ** More inputs for evaluation *)

(** A reader of silence pdfs, for strings whose fields are decimal digits:
    the fields are cut at [':'] and [','], and an empty field reads as [0],
    as with [std::atoi]. *)
Definition is_delimiter (ch : ascii) : bool :=
  (nat_of_ascii ch =? 58)%nat || (nat_of_ascii ch =? 44)%nat.

Fixpoint read_fields (s : string) (current : Z) : list Z :=
  match s with
  | EmptyString => [current]
  | String ch rest =>
      if is_delimiter ch then current :: read_fields rest 0
      else read_fields rest (10 * current + (Z.of_nat (nat_of_ascii ch) - 48))
  end.

Definition read_silence_pdfs (s : string) : list Z := read_fields s 0.

(** Options for the SMBR objective with the given silence options and
    silence pdfs. *)
Definition smbr_options (exclude one_class : bool) (silence_pdfs : string)
    : ChainTrainingOptions := {|
  l2_regularize := fzero;
  leaky_hmm_coefficient := leaky_hmm_coefficient default_options;
  xent_regularize := float_of_int 1;
  use_smbr_objective := true;
  exclude_silence := exclude;
  one_silence_class := one_class;
  silence_pdfs_str := silence_pdfs;
  mmi_factor := fzero;
  smbr_factor := fone;
  norm_regularize := false
|}.

(** Output pointers with other contents than [sample_bufs] and an
    [xent_output_deriv] of another size, for the drivers that resize it. *)
Definition sample_bufs_other : DerivBuffers := {|
  nnet_output_deriv := Some [[fzero; float_of_int 7]; [float_of_int 5; fzero]];
  xent_output_deriv := Some [[fone]]
|}.

(** Output pointers to matrices of the dimensions of [sample_output], with
    other contents than [sample_bufs]. *)
Definition sample_bufs_other_contents : DerivBuffers := {|
  nnet_output_deriv := Some [[fzero; float_of_int 7]; [float_of_int 5; fzero]];
  xent_output_deriv := Some [[float_of_int 3; fzero]; [fzero; float_of_int 9]]
|}.

(** The supervision of [sample_supervision] with another number of frames
    per sequence. *)
Definition sample_supervision_frames (frames : Z) : Supervision unit := {|
  weight := fone;
  num_sequences := 1;
  frames_per_sequence := frames;
  supervision_fst := tt;
  e2e := false;
  numerator_post_targets := numerator_post_targets (sample_supervision false)
|}.

Definition set_mmi_factor (factor : BaseFloat) (opts : ChainTrainingOptions)
    : ChainTrainingOptions := {|
  l2_regularize := l2_regularize opts;
  leaky_hmm_coefficient := leaky_hmm_coefficient opts;
  xent_regularize := xent_regularize opts;
  use_smbr_objective := use_smbr_objective opts;
  exclude_silence := exclude_silence opts;
  one_silence_class := one_silence_class opts;
  silence_pdfs_str := silence_pdfs_str opts;
  mmi_factor := factor;
  smbr_factor := smbr_factor opts;
  norm_regularize := norm_regularize opts
|}.

(** [xent_output_deriv] alone. *)
Definition sample_xent_only : DerivBuffers := {|
  nnet_output_deriv := None;
  xent_output_deriv := Some [[fone; fone]; [fone; fone]]
|}.
(** ** Facts about the scalars *)

(** The test [x - x == 0] holds exactly of the finite numbers. *)
Lemma sub_self_is_zero_finite (x : BaseFloat) : sub_self_is_zero x = is_finite x.
Proof.
  unfold sub_self_is_zero, fsub, feqb.
  destruct x as [s | s | | s m e]; try (destruct s; reflexivity); try reflexivity.
  unfold SFsub, is_finite.
  match goal with
  | |- context [binary_normalize _ _ (?a - ?a)] => replace (a - a) with 0 by lia
  end.
  reflexivity.
Qed.

Lemma SFopp_binary_round_aux prec emax s m e l :
  SFopp (binary_round_aux prec emax s m e l)
  = binary_round_aux prec emax (negb s) m e l.
Proof.
  unfold binary_round_aux.
  destruct (shr_fexp prec emax m e l) as [mrs' e'].
  destruct (shr_fexp prec emax _ e' loc_Exact) as [mrs'' e''].
  destruct (shr_m mrs''); try reflexivity.
  destruct (e'' <=? emax - prec); reflexivity.
Qed.

(** Negation commutes with the rounded product: [-(x * y) = (-x) * y]. *)
Lemma fopp_fmul (x y : BaseFloat) : fopp (fmul x y) = fmul (fopp x) y.
Proof.
  unfold fopp, fmul.
  destruct x as [sx | sx | | sx mx ex], y as [sy | sy | | sy my ey];
    cbn [SFmul SFopp];
    rewrite ?SFopp_binary_round_aux, ?negb_xorb_l; reflexivity.
Qed.

Lemma default_objf_value : default_objf = S754_finite true 10485760 (-20).
Proof. reflexivity. Qed.

(** The conversions of the [double] sub-expressions on small numbers:
    [-1.0 * 3] is [-3], and [-0.5 * 1 * (1 + 4 + 9 + 16)] is [-15]. *)
Example minus_scale_three : minus_scale (float_of_int 3) = float_of_int (-3).
Proof. reflexivity. Qed.

Example l2_penalty_sample : l2_penalty fone sample_output = float_of_int (-15).
Proof. reflexivity. Qed.

Example tot_weight_sample :
  supervision_tot_weight (sample_supervision false) = float_of_int 2.
Proof. reflexivity. Qed.

(** ** Facts about the matrices *)

Lemma SetZero_all_zero (M : Matrix) : all_zero (SetZero M).
Proof.
  unfold all_zero, SetZero.
  induction M as [| row M IH]; cbn [map]; constructor; [| exact IH].
  induction row as [| x row IHrow]; cbn [map]; constructor; [reflexivity | exact IHrow].
Qed.

Lemma zeroed_if_provided_SetZero (provided current : option Matrix) :
  (is_Some provided <-> is_Some current) ->
  zeroed_if_provided provided (SetZero <$> current).
Proof.
  intros Hiff. destruct provided as [p |], current as [c |]; cbn.
  - apply SetZero_all_zero.
  - destruct Hiff as [H _]. destruct H as [x Hx]; [eauto | discriminate].
  - destruct Hiff as [_ H]. destruct H as [x Hx]; [eauto | discriminate].
  - exact I.
Qed.

Lemma zip_with_self {A B : Type} (f : A -> A -> B) (l : list A) :
  zip_with f l l = map (fun x => f x x) l.
Proof. induction l as [| x l IH]; cbn; [reflexivity | now rewrite IH]. Qed.

(** The trace of [X * X^T] is the sum of the squares of the entries of [X]. *)
Lemma TraceMatMat_self (X : Matrix) : TraceMatMat X X = frobenius_norm_sq X.
Proof.
  unfold TraceMatMat, frobenius_norm_sq. f_equal.
  induction X as [| row X IH]; cbn [zip_with concat map]; [reflexivity |].
  rewrite map_app, IH, zip_with_self. reflexivity.
Qed.

Lemma l2_penalty_spec {Fst : Type} (opts : ChainTrainingOptions)
    (supervision : Supervision Fst) (nnet_output : Matrix) :
  l2_penalty (fmul (weight supervision) (l2_regularize opts)) nnet_output
  = l2_term_spec opts supervision nnet_output.
Proof. unfold l2_penalty, l2_term_spec. now rewrite TraceMatMat_self. Qed.

(** *** Copying columns in place *)

(** With the index vector of [exclude_silence] the silence column is
    cleared.  With a vector that swaps two columns, copying in place differs
    from copying out of a second matrix: the second assignment reads what
    the first one wrote. *)
Example CopyCols_inplace_sample :
  CopyCols_inplace sample_sil_indices sample_output
  = [[fzero; float_of_int 2]; [fzero; float_of_int 4]].
Proof. reflexivity. Qed.

Example CopyCols_swap :
  CopyCols [[float_of_int 1; float_of_int 2]] [1; 0] [[fzero; fzero]]
  = [[float_of_int 2; float_of_int 1]]
  /\ CopyCols_inplace [1; 0] [[float_of_int 1; float_of_int 2]]
     = [[float_of_int 2; float_of_int 2]].
Proof. split; reflexivity. Qed.

(** The in-place loop after its first [k] assignments: the silence columns
    below [k] hold zero and every other entry is the one of the row the
    loop started from. *)
Lemma CopyCols_inplace_prefix (sil : list Z) (row : list BaseFloat) (k : nat) :
  silence_indices_ok sil ->
  (k <= length row)%nat ->
  let cur := foldl (fun cur c => copy_col sil cur cur c) row (seq 0 k) in
  length cur = length row
  /\ forall (c : nat) (x : BaseFloat), row !! c = Some x ->
       cur !! c = Some (if (c <? k)%nat && is_silence sil c then fzero else x).
Proof.
  intros Hsil. induction k as [| k IH]; intros Hk cur.
  - subst cur. cbn. split; [reflexivity |]. intros c x Hx. exact Hx.
  - subst cur. rewrite seq_S, foldl_app. cbn [foldl Nat.add].
    destruct IH as [Hlen Hcur]; [lia |].
    set (cur := foldl _ row (seq 0 k)) in *.
    destruct (lookup_lt_is_Some_2 row k) as [xk Hxk]; [lia |].
    assert (Hcurk : cur !! k = Some xk).
    { rewrite (Hcur k xk Hxk), Nat.ltb_irrefl. reflexivity. }
    assert (Hother : forall c, c <> k -> (c <? S k)%nat = (c <? k)%nat).
    { intros c Hc. destruct (Nat.ltb_spec c (S k)), (Nat.ltb_spec c k); lia || reflexivity. }
    unfold copy_col. destruct (sil !! k) as [i |] eqn:Hi.
    + destruct (Z.ltb_spec i 0) as [Hneg | Hpos].
      * split; [now rewrite length_insert |].
        intros c x Hx. destruct (decide (c = k)) as [-> | Hne].
        -- rewrite list_lookup_insert_eq by lia.
           unfold is_silence. rewrite Hi.
           destruct (Z.ltb_spec i 0); [| lia].
           replace (k <? S k)%nat with true by (symmetry; apply Nat.ltb_lt; lia).
           reflexivity.
        -- rewrite list_lookup_insert_ne by congruence.
           rewrite (Hcur c x Hx), (Hother c Hne). reflexivity.
      * destruct (Hsil k i Hi) as [-> | ->]; [lia |].
        rewrite Nat2Z.id, Hcurk.
        split; [now rewrite length_insert |].
        intros c x Hx. destruct (decide (c = k)) as [-> | Hne].
        -- rewrite list_lookup_insert_eq by lia.
           unfold is_silence. rewrite Hi.
           destruct (Z.ltb_spec (Z.of_nat k) 0); [lia |].
           rewrite andb_false_r. congruence.
        -- rewrite list_lookup_insert_ne by congruence.
           rewrite (Hcur c x Hx), (Hother c Hne). reflexivity.
    + split; [exact Hlen |].
      intros c x Hx. destruct (decide (c = k)) as [-> | Hne].
      * unfold is_silence. rewrite Hi, andb_false_r. congruence.
      * rewrite (Hcur c x Hx), (Hother c Hne). reflexivity.
Qed.

Lemma CopyCols_inplace_row_length (sil : list Z) (row : list BaseFloat) :
  silence_indices_ok sil ->
  length (CopyCols_inplace_row sil row) = length row.
Proof.
  intros Hsil. unfold CopyCols_inplace_row.
  destruct (CopyCols_inplace_prefix sil row (length row) Hsil) as [H _]; [lia |].
  exact H.
Qed.

Lemma CopyCols_inplace_row_lookup (sil : list Z) (row : list BaseFloat) (c : nat) :
  silence_indices_ok sil ->
  CopyCols_inplace_row sil row !! c
  = (fun x => if is_silence sil c then fzero else x) <$> row !! c.
Proof.
  intros Hsil. destruct (row !! c) as [x |] eqn:Hx; cbn.
  - unfold CopyCols_inplace_row.
    destruct (CopyCols_inplace_prefix sil row (length row) Hsil) as [_ H]; [lia |].
    rewrite (H c x Hx).
    replace (c <? length row)%nat with true; [reflexivity |].
    symmetry. apply Nat.ltb_lt. eapply lookup_lt_Some, Hx.
  - apply lookup_ge_None. rewrite CopyCols_inplace_row_length by exact Hsil.
    apply lookup_ge_None, Hx.
Qed.

Lemma lookup_map {A B : Type} (f : A -> B) (l : list A) (i : nat) :
  map f l !! i = f <$> l !! i.
Proof.
  revert i. induction l as [| x l IH]; intros [| i]; cbn; try reflexivity.
  apply IH.
Qed.

Lemma CopyCols_inplace_entry (sil : list Z) (M : Matrix) (r c : nat) :
  silence_indices_ok sil ->
  entry (CopyCols_inplace sil M) r c
  = (fun x => if is_silence sil c then fzero else x) <$> entry M r c.
Proof.
  intros Hsil. unfold entry, CopyCols_inplace. rewrite lookup_map.
  destruct (M !! r) as [row |]; cbn; [| reflexivity].
  apply CopyCols_inplace_row_lookup, Hsil.
Qed.


(** ** Properties of the drivers *)

Section DriverProperties.

Context {DenominatorGraph Fst : Type}.
Context {computations : ChainComputations DenominatorGraph Fst}.

Implicit Types (opts : ChainTrainingOptions) (den_graph : DenominatorGraph).
Implicit Types (supervision : Supervision Fst) (nnet_output : Matrix).
Implicit Types (bufs : DerivBuffers) (sil_indices : option (list Z)).

(** Splits the pairs returned by the forward-backward objects. *)
Ltac split_pairs :=
  repeat match goal with
         | |- context [let '(_, _) := ?e in _] => destruct e
         end.

(** *** The denominator block *)

Lemma denominator_block_logprob opts den_graph supervision nnet_output deriv :
  fst (fst (denominator_block opts den_graph supervision nnet_output deriv))
  = fmul (weight supervision)
      (denominator_Forward opts den_graph (num_sequences supervision) nnet_output).
Proof.
  unfold denominator_block. destruct deriv as [d |]; [| reflexivity].
  destruct (denominator_Backward _ _ _ _ _ _). reflexivity.
Qed.

Lemma denominator_block_provided opts den_graph supervision nnet_output deriv :
  is_Some (snd (denominator_block opts den_graph supervision nnet_output deriv))
  <-> is_Some deriv.
Proof.
  unfold denominator_block. destruct deriv as [d |]; cbn.
  - destruct (denominator_Backward _ _ _ _ _ _). cbn. split; eauto.
  - reflexivity.
Qed.

(** *** The failure conditions, in terms of finiteness *)



Lemma Smbr_failed_true_iff (a : SmbrAttempt) :
  Smbr_failed a = true
  <-> is_finite (fadd (sa_objf a) (sa_mmi_objf a)) = false \/ sa_ok a = false.
Proof.
  unfold Smbr_failed. cbv zeta.
  rewrite sub_self_is_zero_finite, orb_true_iff, !negb_true_iff. reflexivity.
Qed.


(** *** Which derivatives an attempt holds

    An attempt holds a derivative exactly for the output pointers that were
    provided. *)

Lemma is_Some_Some_True {A : Type} (x : A) : is_Some (Some x) <-> True.
Proof. split; [trivial | intros _; eexists; reflexivity]. Qed.

Lemma is_Some_None_False {A : Type} : is_Some (@None A) <-> False.
Proof. split; [intros [x Hx]; discriminate | tauto]. Qed.

(** Closes a goal of the form [is_Some o <-> is_Some o'], where [o'] is [o]
    under maps, or both are visibly provided, or both visibly absent. *)
Ltac same_provided :=
  cbn in *;
  rewrite ?fmap_is_Some, ?is_Some_Some_True, ?is_Some_None_False in *;
  tauto.

Lemma Chain_attempt_provided opts den_graph supervision nnet_output bufs :
  let a := Chain_attempt opts den_graph supervision nnet_output bufs in
  (is_Some (nnet_output_deriv bufs) <-> is_Some (nnet_output_deriv (att_derivs a)))
  /\ (is_Some (xent_output_deriv bufs) <-> is_Some (xent_output_deriv (att_derivs a))).
Proof.
  unfold Chain_attempt.
  pose proof (denominator_block_provided opts den_graph supervision nnet_output
                (SetZero <$> nnet_output_deriv bufs)) as Hp.
  rewrite fmap_is_Some in Hp.
  destruct (denominator_block _ _ _ _ _) as [[den ok] deriv]. cbn in Hp.
  destruct (xent_output_deriv bufs) as [x |]; split; same_provided.
Qed.

Lemma KL_attempt_provided opts den_graph supervision nnet_output bufs :
  let a := KL_attempt opts den_graph supervision nnet_output bufs in
  (is_Some (nnet_output_deriv bufs) <-> is_Some (nnet_output_deriv (att_derivs a)))
  /\ (is_Some (xent_output_deriv bufs) <-> is_Some (xent_output_deriv (att_derivs a))).
Proof.
  unfold KL_attempt.
  pose proof (denominator_block_provided opts den_graph supervision nnet_output
                (SetZero <$> nnet_output_deriv bufs)) as Hp.
  rewrite fmap_is_Some in Hp.
  destruct (denominator_block _ _ _ _ _) as [[den ok] deriv]. cbn in Hp.
  destruct (xent_output_deriv bufs) as [x |]; split; same_provided.
Qed.

Lemma E2e_attempt_provided opts den_graph supervision nnet_output bufs :
  let a := E2e_attempt opts den_graph supervision nnet_output bufs in
  (is_Some (nnet_output_deriv bufs) <-> is_Some (nnet_output_deriv (e2e_derivs a)))
  /\ (is_Some (xent_output_deriv bufs) <-> is_Some (xent_output_deriv (e2e_derivs a))).
Proof.
  unfold E2e_attempt.
  pose proof (denominator_block_provided opts den_graph supervision nnet_output
                (SetZero <$> nnet_output_deriv bufs)) as Hp.
  rewrite fmap_is_Some in Hp.
  destruct (denominator_block _ _ _ _ _) as [[den ok] deriv]. cbn in Hp.
  destruct (xent_output_deriv bufs) as [x |], deriv as [d |],
    (sub_self_is_zero _); cbn [fmap option_fmap option_map];
    try destruct (generic_numerator_Backward _ _ _) as [ok' m];
    split; same_provided.
Qed.

Lemma Smbr_attempt_provided opts den_graph supervision nnet_output bufs sil_indices :
  let a := Smbr_attempt opts den_graph supervision nnet_output bufs sil_indices in
  (is_Some (nnet_output_deriv bufs) <-> is_Some (nnet_output_deriv (sa_derivs a)))
  /\ (is_Some (xent_output_deriv bufs) <-> is_Some (xent_output_deriv (sa_derivs a))).
Proof.
  unfold Smbr_attempt, Smbr_numerator_derivs.
  destruct (denominator_ForwardSmbr _ _ _ _ _) as [smbr_objf den_logprob_negated].
  destruct bufs as [[d |] x]; cbn; destruct (ne_zero _); cbn;
    try destruct (denominator_BackwardSmbr _ _ _ _ _ _ _) as [ok d'];
    split; same_provided.
Qed.

Lemma zero_derivs_zeroed bufs current :
  (is_Some (nnet_output_deriv bufs) <-> is_Some (nnet_output_deriv current)) ->
  (is_Some (xent_output_deriv bufs) <-> is_Some (xent_output_deriv current)) ->
  zeroed_if_provided (nnet_output_deriv bufs) (nnet_output_deriv (zero_derivs current))
  /\ zeroed_if_provided (xent_output_deriv bufs) (xent_output_deriv (zero_derivs current)).
Proof.
  intros Hd Hx. split; apply zeroed_if_provided_SetZero; assumption.
Qed.

Lemma SetZero_set_to_zero (current : option Matrix) :
  set_to_zero current (SetZero <$> current).
Proof.
  destruct current as [M |]; cbn; [| exact I]. split.
  - unfold same_shape, SetZero. rewrite map_map.
    apply map_ext. intros row. now rewrite length_map.
  - apply SetZero_all_zero.
Qed.

Lemma zero_derivs_set_to_zero current :
  set_to_zero (nnet_output_deriv current) (nnet_output_deriv (zero_derivs current))
  /\ set_to_zero (xent_output_deriv current)
       (xent_output_deriv (zero_derivs current)).
Proof. split; apply SetZero_set_to_zero. Qed.

(** *** What the drivers return, in terms of the state after the check *)

Lemma finish_returns opts supervision nnet_output (a : Attempt) :
  let r := finish opts supervision nnet_output a in
  let after := checked supervision a in
  let l2 := l2_block opts supervision nnet_output (nnet_output_deriv (snd after)) in
  objf r = fst after
  /\ tot_weight r = supervision_tot_weight supervision
  /\ xent_output_deriv (derivs r) = xent_output_deriv (snd after)
  /\ l2_term r = fst l2
  /\ nnet_output_deriv (derivs r) = snd l2.
Proof.
  unfold finish. destruct (checked supervision a) as [o b]. cbn [fst snd].
  destruct (l2_block _ _ _ _) as [l d]. cbn. tauto.
Qed.

Lemma E2e_returns opts den_graph supervision nnet_output bufs :
  let a := E2e_attempt opts den_graph supervision nnet_output bufs in
  let r := ComputeChainObjfAndDerivE2e opts den_graph supervision nnet_output bufs in
  let after := E2e_checked supervision a in
  let scale := fmul (weight supervision) (l2_regularize opts) in
  objf r = fst after
  /\ tot_weight r = supervision_tot_weight supervision
  /\ xent_output_deriv (derivs r) = xent_output_deriv (snd after)
  /\ l2_term r
     = (if ne_zero (l2_regularize opts) && e2e_numerator_ok a
        then l2_penalty scale nnet_output else fzero)
  /\ nnet_output_deriv (derivs r)
     = (if ne_zero (l2_regularize opts) && e2e_numerator_ok a
        then AddMat (minus_scale scale) nnet_output <$> nnet_output_deriv (snd after)
        else nnet_output_deriv (snd after)).
Proof.
  unfold ComputeChainObjfAndDerivE2e.
  destruct (E2e_checked supervision _) as [o b]. cbn [fst snd].
  destruct (ne_zero (l2_regularize opts) && e2e_numerator_ok _); cbn; tauto.
Qed.

Lemma Smbr_returns opts den_graph supervision nnet_output bufs sil_indices :
  let a := Smbr_attempt opts den_graph supervision nnet_output bufs sil_indices in
  let r := ComputeChainSmbrObjfAndDeriv opts den_graph supervision nnet_output
             bufs sil_indices in
  let after := Smbr_checked opts supervision a in
  let l2 := Smbr_l2_block opts supervision nnet_output (nnet_output_deriv (snd after)) in
  objf r = fst (fst after)
  /\ mmi_objf r = snd (fst after)
  /\ tot_weight r = supervision_tot_weight supervision
  /\ xent_output_deriv (derivs r) = xent_output_deriv (snd after)
  /\ l2_term r = fst l2
  /\ nnet_output_deriv (derivs r) = snd l2.
Proof.
  unfold ComputeChainSmbrObjfAndDeriv.
  destruct (Smbr_checked opts supervision _) as [[o m] b]. cbn [fst snd].
  destruct (Smbr_l2_block _ _ _ _) as [l d]. cbn. tauto.
Qed.

Lemma l2_block_deriv opts supervision nnet_output (deriv : option Matrix) :
  snd (l2_block opts supervision nnet_output deriv)
  = if ne_zero (l2_regularize opts) && true
    then AddMat (minus_scale (fmul (weight supervision) (l2_regularize opts)))
           nnet_output <$> deriv
    else deriv.
Proof.
  unfold l2_block, ne_zero. destruct (eq_zero (l2_regularize opts)) eqn:E;
    unfold eq_zero in E; rewrite E; reflexivity.
Qed.


(** C2. Every driver writes
    [supervision.weight * supervision.num_sequences *
     supervision.frames_per_sequence] to [*weight].  The KL driver does so
    on every call that passes its assertions; a call that fails one of them
    ends the program and returns nothing. *)
Theorem weight_is_supervision_weight_times_frames
    opts den_graph supervision nnet_output bufs sil_indices :
  let w :=
    fmul (fmul (weight supervision) (float_of_int (num_sequences supervision)))
         (float_of_int (frames_per_sequence supervision)) in
  tot_weight (ComputeChainObjfAndDeriv opts den_graph supervision nnet_output bufs) = w
  /\ tot_weight (ComputeChainObjfAndDerivE2e opts den_graph supervision nnet_output bufs) = w
  /\ tot_weight (ComputeChainSmbrObjfAndDeriv opts den_graph supervision
                   nnet_output bufs sil_indices) = w
  /\ match ComputeKLObjfAndDeriv opts den_graph supervision nnet_output bufs with
     | Some r => tot_weight r = w
     | None => KL_asserts supervision nnet_output = false
     end.
Proof.
  intros w.
  assert (He2e : tot_weight (ComputeChainObjfAndDerivE2e opts den_graph
                               supervision nnet_output bufs) = w).
  { unfold ComputeChainObjfAndDerivE2e. split_pairs. reflexivity. }
  assert (Hfin : forall a, tot_weight (finish opts supervision nnet_output a) = w).
  { intros a. unfold finish. split_pairs. reflexivity. }
  repeat split.
  - unfold ComputeChainObjfAndDeriv. destruct (e2e supervision); [exact He2e | apply Hfin].
  - exact He2e.
  - unfold ComputeChainSmbrObjfAndDeriv. split_pairs. reflexivity.
  - unfold ComputeKLObjfAndDeriv.
    destruct (KL_asserts supervision nnet_output); [apply Hfin | reflexivity].
Qed.

(** *** The objective as computed *)

Lemma Chain_attempt_objf opts den_graph supervision nnet_output bufs :
  att_objf (Chain_attempt opts den_graph supervision nnet_output bufs)
  = fsub (numerator_Forward supervision nnet_output)
      (fmul (weight supervision)
         (denominator_Forward opts den_graph (num_sequences supervision) nnet_output)).
Proof.
  unfold Chain_attempt.
  rewrite <- (denominator_block_logprob opts den_graph supervision nnet_output
                (SetZero <$> nnet_output_deriv bufs)).
  destruct (denominator_block _ _ _ _ _) as [[den ok] deriv].
  destruct (_ <$> xent_output_deriv bufs); reflexivity.
Qed.

Lemma E2e_attempt_objf opts den_graph supervision nnet_output bufs :
  e2e_objf (E2e_attempt opts den_graph supervision nnet_output bufs)
  = fsub (generic_numerator_Forward supervision nnet_output)
      (fmul (weight supervision)
         (denominator_Forward opts den_graph (num_sequences supervision) nnet_output)).
Proof.
  unfold E2e_attempt.
  rewrite <- (denominator_block_logprob opts den_graph supervision nnet_output
                (SetZero <$> nnet_output_deriv bufs)).
  destruct (denominator_block _ _ _ _ _) as [[den ok] deriv].
  destruct (_ <$> xent_output_deriv bufs), deriv, (sub_self_is_zero _);
    try destruct (generic_numerator_Backward _ _ _); reflexivity.
Qed.

Lemma KL_attempt_objf opts den_graph supervision nnet_output bufs :
  att_objf (KL_attempt opts den_graph supervision nnet_output bufs)
  = fopp (fmul (weight supervision)
            (denominator_Forward opts den_graph (num_sequences supervision)
               nnet_output)).
Proof.
  unfold KL_attempt.
  rewrite <- (denominator_block_logprob opts den_graph supervision nnet_output
                (SetZero <$> nnet_output_deriv bufs)).
  destruct (denominator_block _ _ _ _ _) as [[den ok] deriv].
  destruct (xent_output_deriv bufs); reflexivity.
Qed.

Lemma Chain_objf_computed_eq opts den_graph supervision nnet_output bufs :
  Chain_objf_computed opts den_graph supervision nnet_output bufs
  = fsub (Chain_num_logprob_weighted supervision nnet_output)
      (fmul (weight supervision)
         (denominator_Forward opts den_graph (num_sequences supervision) nnet_output)).
Proof.
  unfold Chain_objf_computed, Chain_num_logprob_weighted.
  destruct (e2e supervision); [apply E2e_attempt_objf | apply Chain_attempt_objf].
Qed.

Lemma Chain_objf_after_check opts den_graph supervision nnet_output bufs :
  objf (ComputeChainObjfAndDeriv opts den_graph supervision nnet_output bufs)
  = fst (Chain_after_check opts den_graph supervision nnet_output bufs).
Proof.
  unfold ComputeChainObjfAndDeriv, Chain_after_check.
  destruct (e2e supervision); [apply E2e_returns | apply finish_returns].
Qed.

Lemma Chain_after_check_ok opts den_graph supervision nnet_output bufs :
  Chain_failed opts den_graph supervision nnet_output bufs = false ->
  fst (Chain_after_check opts den_graph supervision nnet_output bufs)
  = Chain_objf_computed opts den_graph supervision nnet_output bufs.
Proof.
  unfold Chain_failed, Chain_after_check, Chain_objf_computed, E2e_checked, checked.
  destruct (e2e supervision); intros ->; reflexivity.
Qed.

(** C3. When no failure occurs, [ComputeChainObjfAndDeriv] returns the
    weighted numerator log-probability minus [supervision.weight] times the
    denominator log-probability.  [ComputeKLObjfAndDeriv] returns
    [-w * log Z_den], which is the negation of [w * log Z_den] that the
    code writes; it consults no numerator object, so that its result is
    the same under any other numerator. *)
Theorem objf_is_numerator_minus_weighted_denominator
    opts den_graph supervision nnet_output bufs :
  let log_Z_den :=
    denominator_Forward opts den_graph (num_sequences supervision) nnet_output in
  (Chain_failed opts den_graph supervision nnet_output bufs = false ->
   objf (ComputeChainObjfAndDeriv opts den_graph supervision nnet_output bufs)
   = fsub (Chain_num_logprob_weighted supervision nnet_output)
       (fmul (weight supervision) log_Z_den))
  /\ (KL_asserts supervision nnet_output = true ->
      failed (KL_attempt opts den_graph supervision nnet_output bufs) = false ->
      exists r,
        ComputeKLObjfAndDeriv opts den_graph supervision nnet_output bufs = Some r
        /\ objf r = fmul (fopp (weight supervision)) log_Z_den
        /\ objf r = fopp (fmul (weight supervision) log_Z_den))
  /\ (forall other : ChainComputations DenominatorGraph Fst,
        (forall o g n X,
            @denominator_Forward _ _ other o g n X
            = @denominator_Forward _ _ computations o g n X) ->
        (forall o g n X w d,
            @denominator_Backward _ _ other o g n X w d
            = @denominator_Backward _ _ computations o g n X w d) ->
        @ComputeKLObjfAndDeriv _ _ other opts den_graph supervision nnet_output bufs
        = @ComputeKLObjfAndDeriv _ _ computations opts den_graph supervision
            nnet_output bufs).
Proof.
  intros log_Z_den. split; [| split].
  - intros Hok.
    rewrite Chain_objf_after_check, (Chain_after_check_ok _ _ _ _ _ Hok).
    apply Chain_objf_computed_eq.
  - intros Hassert Hok. unfold ComputeKLObjfAndDeriv. rewrite Hassert.
    eexists. split; [reflexivity |].
    destruct (finish_returns opts supervision nnet_output
                (KL_attempt opts den_graph supervision nnet_output bufs))
      as (Hobjf & _).
    rewrite Hobjf. unfold checked. rewrite Hok. cbn [fst].
    rewrite KL_attempt_objf. split; [apply fopp_fmul | reflexivity].
  - intros other Hfwd Hbwd.
    unfold ComputeKLObjfAndDeriv, KL_attempt, denominator_block.
    rewrite Hfwd.
    destruct (nnet_output_deriv bufs) as [d |]; cbn [fmap option_fmap option_map];
      [rewrite Hbwd |]; reflexivity.
Qed.

(** *** The SMBR driver *)

Lemma Smbr_attempt_objfs opts den_graph supervision nnet_output bufs sil_indices :
  let a := Smbr_attempt opts den_graph supervision nnet_output bufs sil_indices in
  let accuracies :=
    Smbr_silence opts sil_indices nnet_output
      (Smbr_num_posteriors supervision nnet_output) in
  let forward :=
    denominator_ForwardSmbr opts den_graph (num_sequences supervision)
      nnet_output accuracies in
  sa_objf a = fmul (weight supervision) (fst forward)
  /\ sa_mmi_objf a
     = fadd (fmul (weight supervision) (snd forward))
         (fmul (mmi_factor opts) (numerator_Forward supervision nnet_output)).
Proof.
  cbv zeta. unfold Smbr_attempt.
  destruct (denominator_ForwardSmbr _ _ _ _ _) as [smbr_objf den_logprob_negated].
  destruct (nnet_output_deriv (Smbr_numerator_derivs _ _ _)) as [d |];
    [destruct (denominator_BackwardSmbr _ _ _ _ _ _ _) |]; cbn; tauto.
Qed.

Lemma Smbr_attempt_derivs opts den_graph supervision nnet_output bufs sil_indices :
  let a := Smbr_attempt opts den_graph supervision nnet_output bufs sil_indices in
  let num_posteriors := Smbr_num_posteriors supervision nnet_output in
  let accuracies := Smbr_silence opts sil_indices nnet_output num_posteriors in
  let backward (d : Matrix) :=
    denominator_BackwardSmbr opts den_graph (num_sequences supervision)
      nnet_output accuracies (weight supervision)
      (if ne_zero (mmi_factor opts)
       then Scale (mmi_factor opts) num_posteriors
       else SetZero d) in
  xent_output_deriv (sa_derivs a)
  = (fun _ => num_posteriors) <$> xent_output_deriv bufs
  /\ nnet_output_deriv (sa_derivs a)
     = (fun d => snd (backward d)) <$> nnet_output_deriv bufs
  /\ sa_ok a
     = match nnet_output_deriv bufs with
       | Some d => fst (backward d)
       | None => true
       end.
Proof.
  cbv zeta. unfold Smbr_attempt, Smbr_numerator_derivs, CopyFromMat, ne_zero.
  destruct (denominator_ForwardSmbr _ _ _ _ _) as [smbr_objf den_logprob_negated].
  cbn [nnet_output_deriv xent_output_deriv].
  destruct (nnet_output_deriv bufs) as [d |].
  - unfold eq_zero. destruct (feqb (mmi_factor opts) fzero);
      cbn [negb fmap option_fmap option_map];
      destruct (denominator_BackwardSmbr _ _ _ _ _ _ _); cbn; tauto.
  - destruct (negb _); cbn; tauto.
Qed.

(** C4. When no failure occurs, [ComputeChainSmbrObjfAndDeriv] returns
    [objf = supervision.weight * smbr_objf] and
    [mmi_objf = supervision.weight * den_logprob_negated
                + mmi_factor * numerator.Forward()],
    where [smbr_objf] and [den_logprob_negated] are what [ForwardSmbr]
    returns. *)
Theorem smbr_objf_and_mmi_objf
    opts den_graph supervision nnet_output bufs sil_indices :
  Smbr_failed (Smbr_attempt opts den_graph supervision nnet_output bufs sil_indices)
  = false ->
  let r := ComputeChainSmbrObjfAndDeriv opts den_graph supervision nnet_output
             bufs sil_indices in
  let forward :=
    denominator_ForwardSmbr opts den_graph (num_sequences supervision) nnet_output
      (Smbr_silence opts sil_indices nnet_output
         (Smbr_num_posteriors supervision nnet_output)) in
  objf r = fmul (weight supervision) (fst forward)
  /\ mmi_objf r
     = fadd (fmul (weight supervision) (snd forward))
         (fmul (mmi_factor opts) (numerator_Forward supervision nnet_output)).
Proof.
  intros Hok. cbv zeta.
  destruct (Smbr_returns opts den_graph supervision nnet_output bufs sil_indices)
    as (Hobjf & Hmmi & _).
  destruct (Smbr_attempt_objfs opts den_graph supervision nnet_output bufs sil_indices)
    as [Ho Hm].
  rewrite Hobjf, Hmmi. unfold Smbr_checked. rewrite Hok. cbn [fst snd].
  split; assumption.
Qed.

(** C5. On a numerical failure in [ComputeChainSmbrObjfAndDeriv], that is
    when [objf + mmi_objf] is not finite or the backward pass of the SMBR
    denominator returned false, the failure branch sets the derivatives
    that were provided to zero in place, each matrix keeping the rows and
    columns it has when the test is reached and every entry becoming zero,
    and sets [*mmi_objf] to [-mmi_factor * 10 * weight] and [*objf] to
    zero; the function then returns, with these objectives, with
    [xent_output_deriv] still zero and with [nnet_output_deriv] changed by
    nothing but the l2 block. *)
Theorem smbr_failure_zeroes_derivs_and_substitutes_default
    opts den_graph supervision nnet_output bufs sil_indices :
  let a := Smbr_attempt opts den_graph supervision nnet_output bufs sil_indices in
  is_finite (fadd (sa_objf a) (sa_mmi_objf a)) = false \/ sa_ok a = false ->
  let after := Smbr_checked opts supervision a in
  let r := ComputeChainSmbrObjfAndDeriv opts den_graph supervision nnet_output
             bufs sil_indices in
  zeroed_if_provided (nnet_output_deriv bufs) (nnet_output_deriv (snd after))
  /\ zeroed_if_provided (xent_output_deriv bufs) (xent_output_deriv (snd after))
  /\ set_to_zero (nnet_output_deriv (sa_derivs a)) (nnet_output_deriv (snd after))
  /\ set_to_zero (xent_output_deriv (sa_derivs a)) (xent_output_deriv (snd after))
  /\ mmi_objf r
     = fmul (fmul (fopp (mmi_factor opts)) (float_of_int 10)) (tot_weight r)
  /\ objf r = fzero
  /\ xent_output_deriv (derivs r) = xent_output_deriv (snd after)
  /\ nnet_output_deriv (derivs r)
     = snd (Smbr_l2_block opts supervision nnet_output
              (nnet_output_deriv (snd after))).
Proof.
  intros a Hfail. apply Smbr_failed_true_iff in Hfail. cbv zeta.
  destruct (Smbr_returns opts den_graph supervision nnet_output bufs sil_indices)
    as (Hobjf & Hmmi & Hw & Hxent & _ & Hderiv).
  destruct (Smbr_attempt_provided opts den_graph supervision nnet_output bufs
              sil_indices) as [Hd Hx].
  destruct (zero_derivs_zeroed bufs _ Hd Hx) as [Hzd Hzx].
  destruct (zero_derivs_set_to_zero (sa_derivs a)) as [Hsd Hsx].
  rewrite Hobjf, Hmmi, Hw, Hxent, Hderiv.
  fold a. unfold Smbr_checked. rewrite Hfail. cbn [fst snd].
  repeat (split; [assumption || reflexivity |]). reflexivity.
Qed.

(** C10. In [ComputeChainSmbrObjfAndDeriv] the treatment of silence reaches
    the denominator object only.  The posteriors after it are the argument
    of [ForwardSmbr] and [BackwardSmbr]; the copy in [xent_output_deriv] and
    the copy, scaled by [mmi_factor], that [nnet_output_deriv] holds when
    the backward pass starts are made from the numerator posteriors as
    [numerator.Backward] left them, whatever the silence options and the
    index vector are. *)
Theorem silence_treatment_reaches_denominator_only
    opts den_graph supervision nnet_output bufs sil_indices :
  let a := Smbr_attempt opts den_graph supervision nnet_output bufs sil_indices in
  let r := ComputeChainSmbrObjfAndDeriv opts den_graph supervision nnet_output
             bufs sil_indices in
  let num_posteriors := Smbr_num_posteriors supervision nnet_output in
  let accuracies := Smbr_silence opts sil_indices nnet_output num_posteriors in
  let forward :=
    denominator_ForwardSmbr opts den_graph (num_sequences supervision)
      nnet_output accuracies in
  let backward (d : Matrix) :=
    denominator_BackwardSmbr opts den_graph (num_sequences supervision)
      nnet_output accuracies (weight supervision)
      (if ne_zero (mmi_factor opts)
       then Scale (mmi_factor opts) num_posteriors
       else SetZero d) in
  sa_objf a = fmul (weight supervision) (fst forward)
  /\ xent_output_deriv (sa_derivs a)
     = (fun _ => num_posteriors) <$> xent_output_deriv bufs
  /\ nnet_output_deriv (sa_derivs a)
     = (fun d => snd (backward d)) <$> nnet_output_deriv bufs
  /\ xent_output_deriv (derivs r)
     = (if Smbr_failed a
        then (fun _ => SetZero num_posteriors) <$> xent_output_deriv bufs
        else (fun _ => num_posteriors) <$> xent_output_deriv bufs)
  /\ (forall (exclude one_class : bool) (other_indices : option (list Z)),
        let other_opts :=
          set_exclude_silence exclude (set_one_silence_class one_class opts) in
        Smbr_numerator_derivs other_opts num_posteriors bufs
        = Smbr_numerator_derivs opts num_posteriors bufs
        /\ xent_output_deriv
             (sa_derivs (Smbr_attempt other_opts den_graph supervision
                           nnet_output bufs other_indices))
           = xent_output_deriv (sa_derivs a)).
Proof.
  cbv zeta.
  assert (Hframe : forall (exclude one_class : bool) (other_indices : option (list Z)),
             Smbr_numerator_derivs
               (set_exclude_silence exclude (set_one_silence_class one_class opts))
               (Smbr_num_posteriors supervision nnet_output) bufs
             = Smbr_numerator_derivs opts
                 (Smbr_num_posteriors supervision nnet_output) bufs
             /\ xent_output_deriv
                  (sa_derivs
                     (Smbr_attempt
                        (set_exclude_silence exclude
                           (set_one_silence_class one_class opts))
                        den_graph supervision nnet_output bufs other_indices))
                = xent_output_deriv
                    (sa_derivs (Smbr_attempt opts den_graph supervision
                                  nnet_output bufs sil_indices))).
  { intros exclude one_class other_indices. split; [reflexivity |].
    destruct (Smbr_attempt_derivs
                (set_exclude_silence exclude (set_one_silence_class one_class opts))
                den_graph supervision nnet_output bufs other_indices) as (-> & _).
    destruct (Smbr_attempt_derivs opts den_graph supervision nnet_output bufs
                sil_indices) as (-> & _).
    reflexivity. }
  destruct (Smbr_attempt_objfs opts den_graph supervision nnet_output bufs sil_indices)
    as [Ho _].
  destruct (Smbr_attempt_derivs opts den_graph supervision nnet_output bufs
              sil_indices) as (Hx & Hd & _).
  destruct (Smbr_returns opts den_graph supervision nnet_output bufs sil_indices)
    as (_ & _ & _ & Hxent & _).
  split; [exact Ho |]. split; [exact Hx |]. split; [exact Hd |].
  split; [| exact Hframe].
  rewrite Hxent. unfold Smbr_checked.
  destruct (Smbr_failed _); cbn [snd zero_derivs xent_output_deriv]; rewrite Hx.
  - destruct (xent_output_deriv bufs); reflexivity.
  - reflexivity.
Qed.


(** *** The cross-entropy derivative *)

Lemma Chain_attempt_xent opts den_graph supervision nnet_output bufs :
  xent_output_deriv (att_derivs (Chain_attempt opts den_graph supervision
                                   nnet_output bufs))
  = (fun _ => numerator_Backward supervision nnet_output
                (Resize (NumRows nnet_output) (NumCols nnet_output)))
      <$> xent_output_deriv bufs.
Proof.
  unfold Chain_attempt.
  destruct (denominator_block _ _ _ _ _) as [[den ok] deriv].
  destruct (xent_output_deriv bufs); reflexivity.
Qed.

Lemma E2e_attempt_xent opts den_graph supervision nnet_output bufs :
  let a := E2e_attempt opts den_graph supervision nnet_output bufs in
  e2e_numerator_ok a = true ->
  xent_output_deriv (e2e_derivs a)
  = (fun _ => snd (generic_numerator_Backward supervision nnet_output
                     (Resize (NumRows nnet_output) (NumCols nnet_output))))
      <$> xent_output_deriv bufs.
Proof.
  cbv zeta. unfold E2e_attempt.
  destruct (denominator_block _ _ _ _ _) as [[den ok] deriv].
  destruct (xent_output_deriv bufs) as [x |], deriv as [d |],
    (sub_self_is_zero _); cbn [fmap option_fmap option_map];
    try destruct (generic_numerator_Backward _ _ _) as [ok' m];
    cbn; intros H; discriminate || reflexivity.
Qed.

(** C8. When [xent_output_deriv] is provided and no failure occurs,
    [ComputeChainObjfAndDeriv] leaves in it what the numerator backward
    pass writes into a matrix of zeros, that is the numerator posteriors
    scaled by the supervision weight; neither the options nor the
    denominator enter. *)
Theorem xent_output_deriv_is_numerator_posterior
    opts den_graph supervision nnet_output bufs :
  is_Some (xent_output_deriv bufs) ->
  Chain_failed opts den_graph supervision nnet_output bufs = false ->
  xent_output_deriv
    (derivs (ComputeChainObjfAndDeriv opts den_graph supervision nnet_output bufs))
  = Some (Chain_num_posteriors supervision nnet_output).
Proof.
  intros [x Hx]. unfold Chain_failed, ComputeChainObjfAndDeriv, Chain_num_posteriors.
  destruct (e2e supervision); intros Hok.
  - destruct (E2e_returns opts den_graph supervision nnet_output bufs)
      as (_ & _ & Hxent & _).
    rewrite Hxent. unfold E2e_checked. rewrite Hok. cbn [snd].
    rewrite E2e_attempt_xent, Hx; [reflexivity |].
    unfold E2e_failed in Hok.
    destruct (e2e_numerator_ok _); [reflexivity |].
    rewrite orb_true_r in Hok. discriminate.
  - destruct (finish_returns opts supervision nnet_output
                (Chain_attempt opts den_graph supervision nnet_output bufs))
      as (_ & _ & Hxent & _).
    rewrite Hxent. unfold checked. rewrite Hok. cbn [snd].
    rewrite Chain_attempt_xent, Hx. reflexivity.
Qed.

(** C9. On the e2e path, when the generic numerator fails the l2 block is
    skipped: [l2_term] is zero and both derivatives are returned as the
    failure branch left them, at zero, whatever [l2_regularize] is.  On the
    other path the l2 block runs after the failure branch, and with a
    nonzero [l2_regularize] it adds its term to the zeroed derivative. *)
Theorem e2e_numerator_failure_skips_l2
    opts den_graph supervision nnet_output bufs :
  (e2e_numerator_ok (E2e_attempt opts den_graph supervision nnet_output bufs)
   = false ->
   let r := ComputeChainObjfAndDerivE2e opts den_graph supervision nnet_output
              bufs in
   l2_term r = fzero
   /\ zeroed_if_provided (nnet_output_deriv bufs) (nnet_output_deriv (derivs r))
   /\ zeroed_if_provided (xent_output_deriv bufs) (xent_output_deriv (derivs r)))
  /\ (e2e supervision = false ->
      failed (Chain_attempt opts den_graph supervision nnet_output bufs) = true ->
      eq_zero (l2_regularize opts) = false ->
      let r := ComputeChainObjfAndDeriv opts den_graph supervision nnet_output
                 bufs in
      let after := Chain_after_check opts den_graph supervision nnet_output bufs in
      zeroed_if_provided (nnet_output_deriv bufs) (nnet_output_deriv (snd after))
      /\ nnet_output_deriv (derivs r)
         = AddMat (minus_scale (fmul (weight supervision) (l2_regularize opts)))
             nnet_output <$> nnet_output_deriv (snd after)).
Proof.
  split.
  - intros Hnum. cbv zeta.
    destruct (E2e_returns opts den_graph supervision nnet_output bufs)
      as (_ & _ & Hxent & Hl2 & Hderiv).
    destruct (E2e_attempt_provided opts den_graph supervision nnet_output bufs)
      as [Hd Hx].
    destruct (zero_derivs_zeroed bufs _ Hd Hx) as [Hzd Hzx].
    rewrite Hl2, Hderiv, Hxent, Hnum, andb_false_r.
    unfold E2e_checked, E2e_failed. rewrite Hnum, orb_true_r. cbn [snd].
    repeat split; assumption || reflexivity.
  - intros He2e Hfail Hl2. cbv zeta.
    unfold ComputeChainObjfAndDeriv, Chain_after_check. rewrite He2e.
    destruct (finish_returns opts supervision nnet_output
                (Chain_attempt opts den_graph supervision nnet_output bufs))
      as (_ & _ & _ & _ & Hderiv).
    destruct (Chain_attempt_provided opts den_graph supervision nnet_output bufs)
      as [Hd Hx].
    destruct (zero_derivs_zeroed bufs _ Hd Hx) as [Hzd _].
    rewrite Hderiv. unfold checked, l2_block. rewrite Hfail, Hl2. cbn [snd].
    split; [assumption | reflexivity].
Qed.

(** *** The l2 rule *)

Lemma finish_l2_rule opts supervision nnet_output (a : Attempt) :
  l2_rule opts supervision nnet_output
    (nnet_output_deriv (snd (checked supervision a)))
    (finish opts supervision nnet_output a).
Proof.
  destruct (finish_returns opts supervision nnet_output a)
    as (_ & _ & _ & Hl2 & Hderiv).
  unfold l2_rule. rewrite Hl2, Hderiv. unfold l2_block.
  destruct (eq_zero (l2_regularize opts)); cbn [fst snd]; [reflexivity |].
  split; [apply l2_penalty_spec | reflexivity].
Qed.

(** C6, as the code has it.  The l2 rule of the spec ([l2_term] is
    [-0.5 * w * lambda] times the squared Frobenius norm of the network
    output and [-w * lambda] times the output is added to
    [nnet_output_deriv] when [lambda] is not zero; [l2_term] is zero when
    [lambda] is zero) holds of the KL driver, of [ComputeChainObjfAndDeriv]
    on its standard path and of the SMBR driver without [norm_regularize].
    On the e2e path it holds when the generic numerator succeeded; when the
    numerator failed, [l2_term] is zero and nothing is added to
    [nnet_output_deriv]. *)
Theorem l2_rule_of_the_drivers
    opts den_graph supervision nnet_output bufs sil_indices :
  match ComputeKLObjfAndDeriv opts den_graph supervision nnet_output bufs with
  | Some r =>
      l2_rule opts supervision nnet_output
        (nnet_output_deriv
           (snd (checked supervision
                   (KL_attempt opts den_graph supervision nnet_output bufs))))
        r
  | None => KL_asserts supervision nnet_output = false
  end
  /\ (e2e supervision = false ->
      l2_rule opts supervision nnet_output
        (nnet_output_deriv
           (snd (Chain_after_check opts den_graph supervision nnet_output bufs)))
        (ComputeChainObjfAndDeriv opts den_graph supervision nnet_output bufs))
  /\ (norm_regularize opts = false ->
      l2_rule opts supervision nnet_output
        (nnet_output_deriv
           (snd (Smbr_checked opts supervision
                   (Smbr_attempt opts den_graph supervision nnet_output bufs
                      sil_indices))))
        (ComputeChainSmbrObjfAndDeriv opts den_graph supervision nnet_output
           bufs sil_indices))
  /\ (let a := E2e_attempt opts den_graph supervision nnet_output bufs in
      let r := ComputeChainObjfAndDerivE2e opts den_graph supervision
                 nnet_output bufs in
      let before := nnet_output_deriv (snd (E2e_checked supervision a)) in
      if e2e_numerator_ok a
      then l2_rule opts supervision nnet_output before r
      else l2_term r = fzero /\ nnet_output_deriv (derivs r) = before).
Proof.
  split; [| split; [| split]].
  - unfold ComputeKLObjfAndDeriv.
    destruct (KL_asserts supervision nnet_output); [apply finish_l2_rule | reflexivity].
  - intros He2e. unfold ComputeChainObjfAndDeriv, Chain_after_check.
    rewrite He2e. apply finish_l2_rule.
  - intros Hnorm.
    destruct (Smbr_returns opts den_graph supervision nnet_output bufs sil_indices)
      as (_ & _ & _ & _ & Hl2 & Hderiv).
    unfold l2_rule. cbn [smbr_outputs] in *. rewrite Hl2, Hderiv.
    unfold Smbr_l2_block. rewrite Hnorm.
    destruct (eq_zero (l2_regularize opts)); cbn [fst snd negb]; [reflexivity |].
    split; [apply l2_penalty_spec | reflexivity].
  - cbv zeta.
    destruct (E2e_returns opts den_graph supervision nnet_output bufs)
      as (_ & _ & _ & Hl2 & Hderiv).
    destruct (e2e_numerator_ok _).
    + unfold l2_rule. rewrite Hl2, Hderiv. unfold ne_zero, eq_zero.
      destruct (feqb (l2_regularize opts) fzero); cbn [negb andb]; [reflexivity |].
      split; [apply l2_penalty_spec | reflexivity].
    + rewrite Hl2, Hderiv, andb_false_r. split; reflexivity.
Qed.

End DriverProperties.

(** ** The theorems at concrete calls *)



(** A call in which every pass succeeds, on the standard path and in the KL
    driver. *)
Lemma objf_witness :
  let c := scripted good_script in
  let other := scripted unreachable_script in
  let opts := default_options in
  let supervision := sample_supervision false in
  let log_Z_den :=
    @denominator_Forward _ _ c opts tt (num_sequences supervision) sample_output in
  (@Chain_failed _ _ c opts tt supervision sample_output sample_bufs = false
   /\ KL_asserts supervision sample_output = true
   /\ failed (@KL_attempt _ _ c opts tt supervision sample_output sample_bufs)
      = false)
  /\ objf (@ComputeChainObjfAndDeriv _ _ c opts tt supervision sample_output
             sample_bufs)
     = fsub (@Chain_num_logprob_weighted _ _ c supervision sample_output)
         (fmul (weight supervision) log_Z_den)
  /\ (exists r,
        @ComputeKLObjfAndDeriv _ _ c opts tt supervision sample_output sample_bufs
        = Some r
        /\ objf r = fmul (fopp (weight supervision)) log_Z_den
        /\ objf r = fopp (fmul (weight supervision) log_Z_den))
  /\ @ComputeKLObjfAndDeriv _ _ other opts tt supervision sample_output sample_bufs
     = @ComputeKLObjfAndDeriv _ _ c opts tt supervision sample_output sample_bufs.
Proof.
  intros c other opts supervision log_Z_den.
  destruct (@objf_is_numerator_minus_weighted_denominator _ _ c opts tt
              supervision sample_output sample_bufs) as (Hchain & HKL & Hother).
  split; [repeat split; reflexivity |].
  split; [apply Hchain; reflexivity |].
  split; [apply HKL; reflexivity |].
  apply Hother; intros; reflexivity.
Defined.

(** An SMBR call in which every pass succeeds. *)
Lemma smbr_objf_witness :
  let c := scripted good_script in
  let opts := default_options in
  let supervision := sample_supervision false in
  let sil := Some sample_sil_indices in
  Smbr_failed
    (@Smbr_attempt _ _ c opts tt supervision sample_output sample_bufs sil) = false
  /\ (let r :=
        @ComputeChainSmbrObjfAndDeriv _ _ c opts tt supervision sample_output
          sample_bufs sil in
      let forward :=
        @denominator_ForwardSmbr _ _ c opts tt (num_sequences supervision)
          sample_output
          (Smbr_silence opts sil sample_output
             (@Smbr_num_posteriors _ _ c supervision sample_output)) in
      objf r = fmul (weight supervision) (fst forward)
      /\ mmi_objf r
         = fadd (fmul (weight supervision) (snd forward))
             (fmul (mmi_factor opts)
                (@numerator_Forward _ _ c supervision sample_output))).
Proof.
  intros c opts supervision sil.
  split; [reflexivity |].
  apply (@smbr_objf_and_mmi_objf _ _ c opts tt supervision sample_output
           sample_bufs sil).
  reflexivity.
Defined.

(** An SMBR call whose backward pass returns false.  Both outputs arrive
    with the dimensions of the numerator posteriors, as the copies of the
    first block require. *)
Lemma smbr_failure_witness :
  let c := scripted bad_denominator_script in
  let opts := set_l2_regularize fone default_options in
  let supervision := sample_supervision false in
  let a :=
    @Smbr_attempt _ _ c opts tt supervision sample_output sample_bufs None in
  Smbr_copy_asserts opts (@Smbr_num_posteriors _ _ c supervision sample_output)
    sample_bufs = true
  /\ sa_ok a = false
  /\ (let after := Smbr_checked opts supervision a in
      let r :=
        @ComputeChainSmbrObjfAndDeriv _ _ c opts tt supervision sample_output
          sample_bufs None in
      zeroed_if_provided (nnet_output_deriv sample_bufs)
        (nnet_output_deriv (snd after))
      /\ zeroed_if_provided (xent_output_deriv sample_bufs)
           (xent_output_deriv (snd after))
      /\ set_to_zero (nnet_output_deriv (sa_derivs a))
           (nnet_output_deriv (snd after))
      /\ set_to_zero (xent_output_deriv (sa_derivs a))
           (xent_output_deriv (snd after))
      /\ mmi_objf r
         = fmul (fmul (fopp (mmi_factor opts)) (float_of_int 10)) (tot_weight r)
      /\ objf r = fzero
      /\ xent_output_deriv (derivs r) = xent_output_deriv (snd after)
      /\ nnet_output_deriv (derivs r)
         = snd (@Smbr_l2_block _ _ c opts supervision sample_output
                  (nnet_output_deriv (snd after)))).
Proof.
  intros c opts supervision a.
  split; [reflexivity |]. split; [reflexivity |].
  apply (@smbr_failure_zeroes_derivs_and_substitutes_default _ _ c opts tt
           supervision sample_output sample_bufs None).
  right. reflexivity.
Defined.

(** The l2 rule on a call with [l2_regularize = 1], on the standard path and
    without [norm_regularize]. *)
Lemma l2_rule_witness :
  let c := scripted good_script in
  let opts := set_l2_regularize fone default_options in
  let supervision := sample_supervision false in
  (e2e supervision = false /\ norm_regularize opts = false)
  /\ l2_rule opts supervision sample_output
       (nnet_output_deriv
          (snd (@Chain_after_check _ _ c opts tt supervision sample_output
                  sample_bufs)))
       (@ComputeChainObjfAndDeriv _ _ c opts tt supervision sample_output
          sample_bufs)
  /\ l2_rule opts supervision sample_output
       (nnet_output_deriv
          (snd (Smbr_checked opts supervision
                  (@Smbr_attempt _ _ c opts tt supervision sample_output
                     sample_bufs None))))
       (@ComputeChainSmbrObjfAndDeriv _ _ c opts tt supervision sample_output
          sample_bufs None).
Proof.
  intros c opts supervision.
  destruct (@l2_rule_of_the_drivers _ _ c opts tt supervision sample_output
              sample_bufs None) as (_ & Hchain & Hsmbr & _).
  split; [split; reflexivity |].
  split; [apply Hchain | apply Hsmbr]; reflexivity.
Defined.

(** C6, as stated, fails on the e2e path: with an unreachable
    numerator graph and [l2_regularize = 1] the driver returns
    [l2_term = 0], where the rule asks for [-0.5 * 30 = -15], and a zero
    derivative, where the rule asks for minus the network output. *)
Lemma l2_rule_fails_on_e2e_numerator_failure :
  let c := scripted unreachable_script in
  let opts := set_l2_regularize fone default_options in
  let supervision := sample_supervision true in
  let r :=
    @ComputeChainObjfAndDeriv _ _ c opts tt supervision sample_output sample_bufs in
  let before :=
    nnet_output_deriv
      (snd (@Chain_after_check _ _ c opts tt supervision sample_output
              sample_bufs)) in
  eq_zero (l2_regularize opts) = false
  /\ norm_regularize opts = false
  /\ l2_term r = fzero
  /\ l2_term_spec opts supervision sample_output = float_of_int (-15)
  /\ nnet_output_deriv (derivs r) = Some (SetZero sample_output)
  /\ ~ l2_rule opts supervision sample_output before r.
Proof.
  intros c opts supervision r before.
  repeat split; try reflexivity.
  unfold l2_rule. change (eq_zero (l2_regularize opts)) with false.
  intros [Hterm _]. vm_compute in Hterm. discriminate Hterm.
Qed.


(** A call with [xent_output_deriv] provided in which every pass
    succeeds. *)
Lemma xent_output_deriv_witness :
  let c := scripted good_script in
  let opts := set_l2_regularize fone default_options in
  let supervision := sample_supervision false in
  (is_Some (xent_output_deriv sample_bufs)
   /\ @Chain_failed _ _ c opts tt supervision sample_output sample_bufs = false)
  /\ xent_output_deriv
       (derivs (@ComputeChainObjfAndDeriv _ _ c opts tt supervision sample_output
                  sample_bufs))
     = Some (@Chain_num_posteriors _ _ c supervision sample_output).
Proof.
  intros c opts supervision.
  assert (Hx : is_Some (xent_output_deriv sample_bufs)).
  { eexists. reflexivity. }
  split; [split; [exact Hx | reflexivity] |].
  apply (@xent_output_deriv_is_numerator_posterior _ _ c opts tt supervision
           sample_output sample_bufs Hx).
  reflexivity.
Defined.

(** An e2e call with an unreachable numerator graph, and a call on the
    standard path whose denominator backward pass returns false, both with
    [l2_regularize = 1]. *)
Lemma e2e_numerator_failure_witness :
  let unreachable := scripted unreachable_script in
  let bad := scripted bad_denominator_script in
  let opts := set_l2_regularize fone default_options in
  (e2e_numerator_ok
     (@E2e_attempt _ _ unreachable opts tt (sample_supervision true) sample_output
        sample_bufs) = false
   /\ (let r :=
         @ComputeChainObjfAndDerivE2e _ _ unreachable opts tt
           (sample_supervision true) sample_output sample_bufs in
       l2_term r = fzero
       /\ zeroed_if_provided (nnet_output_deriv sample_bufs)
            (nnet_output_deriv (derivs r))
       /\ zeroed_if_provided (xent_output_deriv sample_bufs)
            (xent_output_deriv (derivs r))))
  /\ ((e2e (sample_supervision false) = false
       /\ failed (@Chain_attempt _ _ bad opts tt (sample_supervision false)
                    sample_output sample_bufs) = true
       /\ eq_zero (l2_regularize opts) = false)
      /\ (let r :=
            @ComputeChainObjfAndDeriv _ _ bad opts tt (sample_supervision false)
              sample_output sample_bufs in
          let after :=
            @Chain_after_check _ _ bad opts tt (sample_supervision false)
              sample_output sample_bufs in
          zeroed_if_provided (nnet_output_deriv sample_bufs)
            (nnet_output_deriv (snd after))
          /\ nnet_output_deriv (derivs r)
             = AddMat
                 (minus_scale
                    (fmul (weight (sample_supervision false)) (l2_regularize opts)))
                 sample_output <$> nnet_output_deriv (snd after))).
Proof.
  intros unreachable bad opts.
  split.
  - split; [reflexivity |].
    apply (proj1 (@e2e_numerator_failure_skips_l2 _ _ unreachable opts tt
                    (sample_supervision true) sample_output sample_bufs)).
    reflexivity.
  - split; [repeat split; reflexivity |].
    apply (proj2 (@e2e_numerator_failure_skips_l2 _ _ bad opts tt
                    (sample_supervision false) sample_output sample_bufs));
      reflexivity.
Defined.

(** ** Further properties of the drivers *)

Lemma is_finite_fadd (a b : BaseFloat) :
  is_finite (fadd a b) = true -> is_finite a = true /\ is_finite b = true.
Proof.
  unfold fadd.
  destruct a as [sa | sa | | sa ma ea], b as [sb | sb | | sb mb eb];
    cbn [SFadd is_finite]; try (intros H; split; reflexivity || exact H);
    try discriminate;
    destruct sa, sb; cbn [is_finite]; intros H; try discriminate;
    split; reflexivity.
Qed.

(** X1. The test [x - x == 0], by which the drivers detect [inf] and [NaN],
    fails for the two infinities and for NaN, and for nothing else. *)
Theorem finite_test_fails_exactly_on_inf_and_nan (x : BaseFloat) :
  sub_self_is_zero x = false
  <-> x = S754_nan \/ exists s : bool, x = S754_infinity s.
Proof.
  rewrite sub_self_is_zero_finite.
  destruct x as [s | s | | s m e]; cbn [is_finite]; split;
    try discriminate; try (intros _; reflexivity).
  - intros [H | [s' H]]; discriminate.
  - intros _. right. exists s. reflexivity.
  - intros _. left. reflexivity.
  - intros [H | [s' H]]; discriminate.
Qed.

Section MoreDriverProperties.

Context {DenominatorGraph Fst : Type}.
Context {computations : ChainComputations DenominatorGraph Fst}.

Implicit Types (opts : ChainTrainingOptions) (den_graph : DenominatorGraph).
Implicit Types (supervision : Supervision Fst) (nnet_output : Matrix).
Implicit Types (bufs : DerivBuffers) (sil_indices : option (list Z)).

Lemma finish_finite_or_default opts supervision nnet_output (a : Attempt) :
  let r := finish opts supervision nnet_output a in
  is_finite (objf r) = true
  \/ objf r = fmul (float_of_int (-10)) (tot_weight r).
Proof.
  cbv zeta.
  destruct (finish_returns opts supervision nnet_output a) as (Hobjf & Hw & _).
  rewrite Hobjf, Hw. unfold checked, failed.
  destruct (sub_self_is_zero (att_objf a)) eqn:Hfin; cbn [negb orb].
  - destruct (att_ok a); cbn [negb fst].
    + left. now rewrite <- sub_self_is_zero_finite.
    + right. reflexivity.
  - right. reflexivity.
Qed.

(** X2. The objective that [ComputeChainObjfAndDeriv], the e2e function and
    the KL driver return is a finite number or the substituted
    [-10 * weight]: an infinity or a NaN that the computation produced is
    never returned. *)
Theorem returned_objf_is_finite_or_default
    opts den_graph supervision nnet_output bufs :
  let finite_or_default (r : ChainObjf) :=
    is_finite (objf r) = true
    \/ objf r = fmul (float_of_int (-10)) (tot_weight r) in
  finite_or_default
    (ComputeChainObjfAndDeriv opts den_graph supervision nnet_output bufs)
  /\ finite_or_default
       (ComputeChainObjfAndDerivE2e opts den_graph supervision nnet_output bufs)
  /\ match ComputeKLObjfAndDeriv opts den_graph supervision nnet_output bufs with
     | Some r => finite_or_default r
     | None => KL_asserts supervision nnet_output = false
     end.
Proof.
  cbv zeta.
  assert (He2e :
    let r := ComputeChainObjfAndDerivE2e opts den_graph supervision nnet_output
               bufs in
    is_finite (objf r) = true
    \/ objf r = fmul (float_of_int (-10)) (tot_weight r)).
  { cbv zeta.
    destruct (E2e_returns opts den_graph supervision nnet_output bufs)
      as (Hobjf & Hw & _).
    rewrite Hobjf, Hw. unfold E2e_checked, E2e_failed.
    destruct (sub_self_is_zero (e2e_objf _)) eqn:Hfin; cbn [negb orb];
      [| right; reflexivity].
    destruct (e2e_denominator_ok _), (e2e_numerator_ok _); cbn [negb orb fst];
      try (right; reflexivity).
    left. now rewrite <- sub_self_is_zero_finite. }
  split; [| split].
  - unfold ComputeChainObjfAndDeriv.
    destruct (e2e supervision); [exact He2e | apply finish_finite_or_default].
  - exact He2e.
  - unfold ComputeKLObjfAndDeriv.
    destruct (KL_asserts supervision nnet_output);
      [apply finish_finite_or_default | reflexivity].
Qed.

(** X3. [ComputeChainSmbrObjfAndDeriv] returns either two finite objectives
    or the substituted pair, [objf = 0] and
    [mmi_objf = -mmi_factor * 10 * weight]. *)
Theorem smbr_objectives_are_finite_or_default
    opts den_graph supervision nnet_output bufs sil_indices :
  let r := ComputeChainSmbrObjfAndDeriv opts den_graph supervision nnet_output
             bufs sil_indices in
  (is_finite (objf r) = true /\ is_finite (mmi_objf r) = true)
  \/ (objf r = fzero
      /\ mmi_objf r
         = fmul (fmul (fopp (mmi_factor opts)) (float_of_int 10)) (tot_weight r)).
Proof.
  cbv zeta.
  destruct (Smbr_returns opts den_graph supervision nnet_output bufs sil_indices)
    as (Hobjf & Hmmi & Hw & _).
  rewrite Hobjf, Hmmi, Hw. unfold Smbr_checked, Smbr_failed. cbv zeta.
  destruct (sub_self_is_zero (fadd _ _)) eqn:Hfin; cbn [negb orb];
    [| right; split; reflexivity].
  destruct (sa_ok _); cbn [negb fst snd]; [| right; split; reflexivity].
  left. apply is_finite_fadd. now rewrite <- sub_self_is_zero_finite.
Qed.

(** *** The contents of the derivative matrices on entry *)

Lemma SetZero_row_replicate (row : list BaseFloat) :
  map (fun _ : BaseFloat => fzero) row = replicate (length row) fzero.
Proof. induction row as [| x row IH]; cbn; [reflexivity | now rewrite IH]. Qed.

Lemma SetZero_same_shape (A B : Matrix) :
  same_shape A B -> SetZero A = SetZero B.
Proof.
  unfold same_shape, SetZero. revert B.
  induction A as [| a A IH]; intros [| b B] H; cbn in *; try discriminate;
    [reflexivity |].
  injection H as Hab HAB.
  rewrite !SetZero_row_replicate, Hab, (IH B HAB). reflexivity.
Qed.

Lemma same_pointers_zeroed bufs bufs' :
  same_pointers bufs bufs' ->
  SetZero <$> nnet_output_deriv bufs = SetZero <$> nnet_output_deriv bufs'.
Proof.
  intros [H _].
  destruct (nnet_output_deriv bufs), (nnet_output_deriv bufs'); cbn in *;
    try contradiction; [| reflexivity].
  now rewrite (SetZero_same_shape _ _ H).
Qed.

Lemma same_pointers_xent {A : Type} (x : A) bufs bufs' :
  same_pointers bufs bufs' ->
  (fun _ => x) <$> xent_output_deriv bufs
  = (fun _ => x) <$> xent_output_deriv bufs'.
Proof.
  intros [_ H].
  destruct (xent_output_deriv bufs), (xent_output_deriv bufs'); cbn;
    try reflexivity; exfalso.
  - destruct (proj1 H) as [y Hy]; [eexists; reflexivity | discriminate].
  - destruct (proj2 H) as [y Hy]; [eexists; reflexivity | discriminate].
Qed.

Lemma Chain_attempt_same_pointers opts den_graph supervision nnet_output bufs bufs' :
  same_pointers bufs bufs' ->
  Chain_attempt opts den_graph supervision nnet_output bufs
  = Chain_attempt opts den_graph supervision nnet_output bufs'.
Proof.
  intros H. unfold Chain_attempt.
  rewrite (same_pointers_zeroed _ _ H).
  rewrite (same_pointers_xent
             (Resize (NumRows nnet_output) (NumCols nnet_output)) _ _ H).
  reflexivity.
Qed.

Lemma E2e_attempt_same_pointers opts den_graph supervision nnet_output bufs bufs' :
  same_pointers bufs bufs' ->
  E2e_attempt opts den_graph supervision nnet_output bufs
  = E2e_attempt opts den_graph supervision nnet_output bufs'.
Proof.
  intros H. unfold E2e_attempt.
  rewrite (same_pointers_zeroed _ _ H).
  rewrite (same_pointers_xent
             (Resize (NumRows nnet_output) (NumCols nnet_output)) _ _ H).
  reflexivity.
Qed.

Lemma KL_attempt_same_pointers opts den_graph supervision nnet_output bufs bufs' :
  same_pointers bufs bufs' ->
  KL_attempt opts den_graph supervision nnet_output bufs
  = KL_attempt opts den_graph supervision nnet_output bufs'.
Proof.
  intros H. unfold KL_attempt.
  rewrite (same_pointers_zeroed _ _ H).
  pose proof (same_pointers_xent tt _ _ H) as Hx.
  destruct (xent_output_deriv bufs), (xent_output_deriv bufs');
    cbn in Hx; try discriminate; reflexivity.
Qed.

Lemma Smbr_attempt_same_pointers
    opts den_graph supervision nnet_output bufs bufs' sil_indices :
  same_pointers bufs bufs' ->
  Smbr_attempt opts den_graph supervision nnet_output bufs sil_indices
  = Smbr_attempt opts den_graph supervision nnet_output bufs' sil_indices.
Proof.
  intros H. unfold Smbr_attempt, Smbr_numerator_derivs, CopyFromMat, ne_zero,
    eq_zero.
  cbn [nnet_output_deriv xent_output_deriv].
  rewrite (same_pointers_xent (Smbr_num_posteriors supervision nnet_output) _ _ H).
  pose proof (same_pointers_zeroed _ _ H) as Hd.
  destruct (denominator_ForwardSmbr _ _ _ _ _) as [smbr_objf den_logprob_negated].
  destruct (feqb (mmi_factor opts) fzero); cbn [negb];
    destruct (nnet_output_deriv bufs) as [d |],
      (nnet_output_deriv bufs') as [d' |];
    cbn in Hd |- *; try discriminate; try reflexivity.
  injection Hd as Hd. rewrite Hd. reflexivity.
Qed.

(** X4. [ComputeChainObjfAndDeriv], the e2e function and the KL driver zero
    [nnet_output_deriv] and resize [xent_output_deriv] themselves: two calls
    that differ only in what the two matrices hold on entry return the
    same. *)
Theorem chain_drivers_ignore_contents_on_entry
    opts den_graph supervision nnet_output bufs bufs' :
  same_pointers bufs bufs' ->
  ComputeChainObjfAndDeriv opts den_graph supervision nnet_output bufs
  = ComputeChainObjfAndDeriv opts den_graph supervision nnet_output bufs'
  /\ ComputeChainObjfAndDerivE2e opts den_graph supervision nnet_output bufs
     = ComputeChainObjfAndDerivE2e opts den_graph supervision nnet_output bufs'
  /\ ComputeKLObjfAndDeriv opts den_graph supervision nnet_output bufs
     = ComputeKLObjfAndDeriv opts den_graph supervision nnet_output bufs'.
Proof.
  intros H.
  unfold ComputeChainObjfAndDeriv, ComputeChainObjfAndDerivE2e,
    ComputeKLObjfAndDeriv.
  rewrite (Chain_attempt_same_pointers _ _ _ _ _ _ H),
    (E2e_attempt_same_pointers _ _ _ _ _ _ H),
    (KL_attempt_same_pointers _ _ _ _ _ _ H).
  repeat split; reflexivity.
Qed.

(** X5. [ComputeChainSmbrObjfAndDeriv] overwrites [xent_output_deriv], and
    overwrites [nnet_output_deriv] or sets it to zero according to
    [mmi_factor], but resizes neither: a call has to pass the assertions of
    the copies, each destination arriving with the dimensions of the
    numerator posteriors.  Two calls that both pass them, and that differ
    only in what the two matrices hold on entry, return the same. *)
Theorem smbr_driver_ignores_contents_on_entry
    opts den_graph supervision nnet_output bufs bufs' sil_indices :
  let num_posteriors := Smbr_num_posteriors supervision nnet_output in
  Smbr_copy_asserts opts num_posteriors bufs = true ->
  Smbr_copy_asserts opts num_posteriors bufs' = true ->
  same_pointers bufs bufs' ->
  ComputeChainSmbrObjfAndDeriv opts den_graph supervision nnet_output bufs
    sil_indices
  = ComputeChainSmbrObjfAndDeriv opts den_graph supervision nnet_output bufs'
      sil_indices.
Proof.
  intros num_posteriors _ _ H. unfold ComputeChainSmbrObjfAndDeriv.
  rewrite (Smbr_attempt_same_pointers _ _ _ _ _ _ _ H). reflexivity.
Qed.

End MoreDriverProperties.

(** ** Backward passes that are not run *)

Section NotRun.

Context {DenominatorGraph Fst : Type}.
Context (c : ChainComputations DenominatorGraph Fst).

Implicit Types (opts : ChainTrainingOptions) (den_graph : DenominatorGraph).
Implicit Types (supervision : Supervision Fst) (nnet_output : Matrix).
Implicit Types (bufs : DerivBuffers) (sil_indices : option (list Z)).

(** X6. Without [nnet_output_deriv] no driver runs the backward pass of its
    denominator object: the drivers return the same whatever that pass
    would do. *)
Theorem no_denominator_backward_without_deriv
    opts den_graph supervision nnet_output bufs sil_indices
    (f : ChainTrainingOptions -> DenominatorGraph -> Z -> Matrix ->
         BaseFloat -> Matrix -> bool * Matrix)
    (g : ChainTrainingOptions -> DenominatorGraph -> Z -> Matrix -> Matrix ->
         BaseFloat -> Matrix -> bool * Matrix) :
  nnet_output_deriv bufs = None ->
  @ComputeChainObjfAndDeriv _ _ (with_denominator_Backward c f) opts den_graph
    supervision nnet_output bufs
  = @ComputeChainObjfAndDeriv _ _ c opts den_graph supervision nnet_output bufs
  /\ @ComputeChainObjfAndDerivE2e _ _ (with_denominator_Backward c f) opts
       den_graph supervision nnet_output bufs
     = @ComputeChainObjfAndDerivE2e _ _ c opts den_graph supervision nnet_output
         bufs
  /\ @ComputeKLObjfAndDeriv _ _ (with_denominator_Backward c f) opts den_graph
       supervision nnet_output bufs
     = @ComputeKLObjfAndDeriv _ _ c opts den_graph supervision nnet_output bufs
  /\ @ComputeChainSmbrObjfAndDeriv _ _ (with_denominator_BackwardSmbr c g) opts
       den_graph supervision nnet_output bufs sil_indices
     = @ComputeChainSmbrObjfAndDeriv _ _ c opts den_graph supervision
         nnet_output bufs sil_indices.
Proof.
  intros Hnone.
  assert (He2e :
    @E2e_attempt _ _ (with_denominator_Backward c f) opts den_graph supervision
      nnet_output bufs
    = @E2e_attempt _ _ c opts den_graph supervision nnet_output bufs).
  { unfold E2e_attempt, denominator_block. rewrite Hnone. reflexivity. }
  assert (Hchain :
    @Chain_attempt _ _ (with_denominator_Backward c f) opts den_graph supervision
      nnet_output bufs
    = @Chain_attempt _ _ c opts den_graph supervision nnet_output bufs).
  { unfold Chain_attempt, denominator_block. rewrite Hnone. reflexivity. }
  assert (HKL :
    @KL_attempt _ _ (with_denominator_Backward c f) opts den_graph supervision
      nnet_output bufs
    = @KL_attempt _ _ c opts den_graph supervision nnet_output bufs).
  { unfold KL_attempt, denominator_block. rewrite Hnone. reflexivity. }
  assert (Hsmbr :
    @Smbr_attempt _ _ (with_denominator_BackwardSmbr c g) opts den_graph
      supervision nnet_output bufs sil_indices
    = @Smbr_attempt _ _ c opts den_graph supervision nnet_output bufs
        sil_indices).
  { unfold Smbr_attempt, Smbr_numerator_derivs.
    cbn [nnet_output_deriv xent_output_deriv]. rewrite Hnone.
    destruct (ne_zero (mmi_factor opts)); reflexivity. }
  unfold ComputeChainObjfAndDeriv, ComputeChainObjfAndDerivE2e,
    ComputeKLObjfAndDeriv, ComputeChainSmbrObjfAndDeriv.
  rewrite He2e, Hchain, HKL, Hsmbr. repeat split; reflexivity.
Qed.

(** X7. When the forward log-probability of the generic numerator is not
    finite, the e2e function does not run the numerator's backward pass: it
    returns the same whatever that pass would do. *)
Theorem no_generic_backward_after_failed_forward
    opts den_graph supervision nnet_output bufs
    (f : Supervision Fst -> Matrix -> Matrix -> bool * Matrix) :
  is_finite (@generic_numerator_Forward _ _ c supervision nnet_output) = false ->
  @ComputeChainObjfAndDerivE2e _ _ (with_generic_numerator_Backward c f) opts
    den_graph supervision nnet_output bufs
  = @ComputeChainObjfAndDerivE2e _ _ c opts den_graph supervision nnet_output
      bufs.
Proof.
  intros Hfin. rewrite <- sub_self_is_zero_finite in Hfin.
  assert (Ha :
    @E2e_attempt _ _ (with_generic_numerator_Backward c f) opts den_graph
      supervision nnet_output bufs
    = @E2e_attempt _ _ c opts den_graph supervision nnet_output bufs).
  { unfold E2e_attempt.
    change (@generic_numerator_Forward _ _ (with_generic_numerator_Backward c f))
      with (@generic_numerator_Forward _ _ c).
    rewrite Hfin.
    change (@denominator_block _ _ (with_generic_numerator_Backward c f))
      with (@denominator_block _ _ c).
    destruct (denominator_block _ _ _ _ _) as [[den ok] deriv].
    destruct (_ <$> xent_output_deriv bufs), deriv; reflexivity. }
  unfold ComputeChainObjfAndDerivE2e. rewrite Ha. reflexivity.
Qed.

(** X8. With neither [nnet_output_deriv] nor [xent_output_deriv],
    [ComputeChainObjfAndDeriv] runs no backward pass of a numerator object,
    on either path: it returns the same whatever those passes would do. *)
Theorem no_numerator_backward_without_derivs
    opts den_graph supervision nnet_output
    (f : Supervision Fst -> Matrix -> Matrix -> Matrix)
    (g : Supervision Fst -> Matrix -> Matrix -> bool * Matrix) :
  let no_derivs := {| nnet_output_deriv := None; xent_output_deriv := None |} in
  @ComputeChainObjfAndDeriv _ _
    (with_numerator_Backward (with_generic_numerator_Backward c g) f)
    opts den_graph supervision nnet_output no_derivs
  = @ComputeChainObjfAndDeriv _ _ c opts den_graph supervision nnet_output
      no_derivs.
Proof.
  cbv zeta.
  unfold ComputeChainObjfAndDeriv, ComputeChainObjfAndDerivE2e, E2e_attempt,
    Chain_attempt, denominator_block.
  cbn [nnet_output_deriv xent_output_deriv fmap option_fmap option_map].
  destruct (e2e supervision); [| reflexivity].
  cbn [generic_numerator_Forward with_numerator_Backward
       with_generic_numerator_Backward].
  destruct (sub_self_is_zero _); reflexivity.
Qed.

End NotRun.

(** ** The earlier and the current text of the drivers *)

Section EarlierAndCurrent.

Context {DenominatorGraph Fst : Type}.
Context {computations : ChainComputations DenominatorGraph Fst}.

Implicit Types (opts : ChainTrainingOptions) (den_graph : DenominatorGraph).
Implicit Types (supervision : Supervision Fst) (nnet_output : Matrix).
Implicit Types (bufs : DerivBuffers) (sil_indices : option (list Z)).

Lemma has_shape_SetZero (rows cols : nat) (x : Matrix) :
  has_shape rows cols x -> SetZero x = Resize rows cols.
Proof.
  unfold has_shape, SetZero, Resize. revert rows.
  induction x as [| row x IH]; intros [| rows] H; cbn in *; try discriminate;
    [reflexivity |].
  injection H as Hrow Hx.
  rewrite SetZero_row_replicate, Hrow, (IH rows Hx). reflexivity.
Qed.

(** X9. Without [norm_regularize], the SMBR driver returns what its earlier
    text returned: the two differ in the l2 block only, by the branch that
    [norm_regularize] selects. *)
Theorem smbr_driver_agrees_with_earlier_text
    opts den_graph supervision nnet_output bufs sil_indices :
  norm_regularize opts = false ->
  ComputeChainSmbrObjfAndDeriv opts den_graph supervision nnet_output bufs
    sil_indices
  = Earlier.ComputeChainSmbrObjfAndDeriv opts den_graph supervision nnet_output
      bufs sil_indices.
Proof.
  intros Hnorm.
  unfold ComputeChainSmbrObjfAndDeriv, Earlier.ComputeChainSmbrObjfAndDeriv.
  destruct (Smbr_checked opts supervision _) as [[o m] b].
  unfold Smbr_l2_block, l2_block. rewrite Hnorm. cbn [negb].
  destruct (eq_zero (l2_regularize opts)); reflexivity.
Qed.

(** X10. [ComputeChainObjfAndDeriv] called without [nnet_output_deriv], for a
    supervision that is not e2e, returns what its earlier text returned,
    provided that [xent_output_deriv], if given, has the shape of
    [nnet_output] (the earlier text does not resize it). *)
Theorem chain_driver_agrees_with_earlier_text_without_deriv
    opts den_graph supervision nnet_output bufs :
  e2e supervision = false ->
  nnet_output_deriv bufs = None ->
  (forall x, xent_output_deriv bufs = Some x ->
             has_shape (NumRows nnet_output) (NumCols nnet_output) x) ->
  ComputeChainObjfAndDeriv opts den_graph supervision nnet_output bufs
  = Earlier.ComputeChainObjfAndDeriv opts den_graph supervision nnet_output bufs.
Proof.
  intros He2e Hnone Hshape.
  unfold ComputeChainObjfAndDeriv, Earlier.ComputeChainObjfAndDeriv.
  rewrite He2e. f_equal.
  unfold Chain_attempt, Earlier.Chain_attempt, denominator_block.
  rewrite Hnone. cbn [fmap option_fmap option_map].
  destruct (xent_output_deriv bufs) as [x |]; cbn [fmap option_fmap option_map];
    [| reflexivity].
  rewrite (has_shape_SetZero _ _ x (Hshape x eq_refl)). reflexivity.
Qed.

(** X11. Called with both matrices, the earlier text copies the numerator
    derivative into [xent_output_deriv] before the denominator runs, and
    does not resize [xent_output_deriv] for the copy.  When both matrices
    arrive with the shape of [nnet_output] and neither text meets a
    failure, both leave the same [xent_output_deriv]: what
    [numerator.Backward] writes into a matrix of zeros. *)
Theorem chain_driver_xent_agrees_with_earlier_text
    opts den_graph supervision nnet_output bufs (d x : Matrix) :
  e2e supervision = false ->
  nnet_output_deriv bufs = Some d ->
  has_shape (NumRows nnet_output) (NumCols nnet_output) d ->
  xent_output_deriv bufs = Some x ->
  has_shape (NumRows nnet_output) (NumCols nnet_output) x ->
  failed (Earlier.Chain_attempt opts den_graph supervision nnet_output bufs)
  = false ->
  failed (Chain_attempt opts den_graph supervision nnet_output bufs) = false ->
  let posteriors :=
    numerator_Backward supervision nnet_output
      (Resize (NumRows nnet_output) (NumCols nnet_output)) in
  xent_output_deriv
    (derivs (Earlier.ComputeChainObjfAndDeriv opts den_graph supervision
               nnet_output bufs))
  = Some posteriors
  /\ xent_output_deriv
       (derivs (ComputeChainObjfAndDeriv opts den_graph supervision nnet_output
                  bufs))
     = Some posteriors.
Proof.
  intros He2e Hd Hshape Hx _ Hearlier Hcurrent. cbv zeta. split.
  - unfold Earlier.ComputeChainObjfAndDeriv.
    destruct (finish_returns opts supervision nnet_output
                (Earlier.Chain_attempt opts den_graph supervision nnet_output
                   bufs)) as (_ & _ & Hxent & _).
    rewrite Hxent. unfold checked. rewrite Hearlier. cbn [snd].
    unfold Earlier.Chain_attempt. rewrite Hd, Hx.
    cbn [fmap option_fmap option_map].
    destruct (denominator_Backward _ _ _ _ _ _) as [ok d'].
    cbn [att_derivs xent_output_deriv]. unfold CopyFromMat.
    rewrite (has_shape_SetZero _ _ d Hshape). reflexivity.
  - unfold ComputeChainObjfAndDeriv. rewrite He2e.
    destruct (finish_returns opts supervision nnet_output
                (Chain_attempt opts den_graph supervision nnet_output bufs))
      as (_ & _ & Hxent & _).
    rewrite Hxent. unfold checked. rewrite Hcurrent. cbn [snd].
    rewrite Chain_attempt_xent, Hx. reflexivity.
Qed.

End EarlierAndCurrent.

(** ** The silence index vector *)

Lemma mark_pdfs_stuck (num_pdfs : nat) (value : Z -> Z)
    (state : Outcome (list Z)) (silence_pdfs : list Z) :
  (forall v, state <> Done v) ->
  foldl (mark_pdf num_pdfs value) state silence_pdfs = state.
Proof.
  revert state. induction silence_pdfs as [| p ps IH]; intros state H;
    [reflexivity |].
  cbn [foldl]. destruct state as [v | |]; [now destruct (H v) | |]; apply IH;
    intros v; discriminate.
Qed.

Lemma mark_pdfs_cons_valid (num_pdfs : nat) (value : Z -> Z)
    (indices : list Z) (p : Z) (ps : list Z) :
  length indices = num_pdfs ->
  0 <= p < Z.of_nat num_pdfs ->
  mark_pdfs num_pdfs value indices (p :: ps)
  = mark_pdfs num_pdfs value (<[Z.to_nat p := value p]> indices) ps.
Proof.
  intros Hlen Hp. unfold mark_pdfs. cbn [foldl mark_pdf]. unfold vector_store.
  rewrite Hlen.
  destruct (Z.gtb_spec p (Z.of_nat num_pdfs)); [lia |].
  destruct (Z.leb_spec 0 p); [| lia].
  destruct (Z.ltb_spec p (Z.of_nat num_pdfs)); [| lia].
  reflexivity.
Qed.

Lemma mark_pdfs_cons_invalid (num_pdfs : nat) (value : Z -> Z)
    (indices : list Z) (p : Z) (ps : list Z) :
  length indices = num_pdfs ->
  ~ 0 <= p < Z.of_nat num_pdfs ->
  mark_pdfs num_pdfs value indices (p :: ps)
  = if p >? Z.of_nat num_pdfs then KaldiError else OutOfBounds.
Proof.
  intros Hlen Hp. unfold mark_pdfs. cbn [foldl mark_pdf]. unfold vector_store.
  rewrite Hlen.
  destruct (Z.gtb_spec p (Z.of_nat num_pdfs)).
  - apply mark_pdfs_stuck. intros v. discriminate.
  - destruct (Z.leb_spec 0 p), (Z.ltb_spec p (Z.of_nat num_pdfs));
      cbn [andb]; try lia; apply mark_pdfs_stuck; intros v; discriminate.
Qed.

(** With every pdf inside the vector the loop ends with the vector, in which
    the listed entries hold their value and the others are as before. *)
Lemma mark_pdfs_valid (num_pdfs : nat) (value : Z -> Z)
    (silence_pdfs : list Z) (indices : list Z) :
  length indices = num_pdfs ->
  Forall (fun p => 0 <= p < Z.of_nat num_pdfs) silence_pdfs ->
  exists v,
    mark_pdfs num_pdfs value indices silence_pdfs = Done v
    /\ length v = num_pdfs
    /\ forall c : nat,
         (c < num_pdfs)%nat ->
         (Z.of_nat c ∈ silence_pdfs -> v !! c = Some (value (Z.of_nat c)))
         /\ (Z.of_nat c ∉ silence_pdfs -> v !! c = indices !! c).
Proof.
  revert indices. induction silence_pdfs as [| p ps IH]; intros indices Hlen Hall.
  - exists indices. split; [reflexivity |]. split; [exact Hlen |].
    intros c Hc. split; [| reflexivity].
    intros Hin. inversion Hin.
  - apply Forall_cons in Hall as [Hp Hps].
    rewrite (mark_pdfs_cons_valid _ _ _ _ _ Hlen Hp).
    destruct (IH (<[Z.to_nat p := value p]> indices)) as (v & Hv & Hlenv & Hlook);
      [now rewrite length_insert | exact Hps |].
    exists v. split; [exact Hv |]. split; [exact Hlenv |].
    intros c Hc. destruct (Hlook c Hc) as [Hin Hout].
    destruct (decide (Z.of_nat c ∈ ps)) as [Hcps | Hcps].
    + split; [intros _; apply Hin, Hcps |].
      intros Hnot. exfalso. apply Hnot. apply elem_of_cons. now right.
    + split.
      * intros Hcp. apply elem_of_cons in Hcp as [<- | Hcp]; [| contradiction].
        rewrite (Hout Hcps), Nat2Z.id.
        apply list_lookup_insert_eq. lia.
      * intros Hnot. rewrite (Hout Hcps).
        apply list_lookup_insert_ne. intros Heq. apply Hnot.
        rewrite <- Heq, Z2Nat.id by lia. apply elem_of_cons. now left.
Qed.

(** The loop ends with the vector only if every pdf is inside it. *)
Lemma mark_pdfs_Done_valid (num_pdfs : nat) (value : Z -> Z)
    (silence_pdfs : list Z) (indices v : list Z) :
  length indices = num_pdfs ->
  mark_pdfs num_pdfs value indices silence_pdfs = Done v ->
  Forall (fun p => 0 <= p < Z.of_nat num_pdfs) silence_pdfs.
Proof.
  revert indices. induction silence_pdfs as [| p ps IH]; intros indices Hlen H;
    [constructor |].
  destruct (decide (0 <= p < Z.of_nat num_pdfs)) as [Hp | Hp].
  - constructor; [exact Hp |].
    rewrite (mark_pdfs_cons_valid _ _ _ _ _ Hlen Hp) in H.
    eapply IH; [| exact H]. now rewrite length_insert.
  - rewrite (mark_pdfs_cons_invalid _ _ _ _ _ Hlen Hp) in H.
    destruct (p >? Z.of_nat num_pdfs); discriminate.
Qed.

(** The loop reports an error only for a pdf above [num_pdfs]; a pdf equal
    to [num_pdfs], or a negative one, passes the test and is stored outside
    the vector. *)
Lemma mark_pdfs_bounds (num_pdfs : nat) (value : Z -> Z)
    (silence_pdfs : list Z) (indices : list Z) :
  length indices = num_pdfs ->
  Forall (fun p => p <= Z.of_nat num_pdfs) silence_pdfs ->
  Exists (fun p => p < 0 \/ p = Z.of_nat num_pdfs) silence_pdfs ->
  mark_pdfs num_pdfs value indices silence_pdfs = OutOfBounds.
Proof.
  revert indices. induction silence_pdfs as [| p ps IH]; intros indices Hlen Hle Hex;
    [inversion Hex |].
  apply Forall_cons in Hle as [Hp Hps].
  destruct (decide (0 <= p < Z.of_nat num_pdfs)) as [Hin | Hout].
  - rewrite (mark_pdfs_cons_valid _ _ _ _ _ Hlen Hin).
    apply IH; [now rewrite length_insert | exact Hps |].
    apply Exists_cons in Hex as [Hbad | Hrest]; [lia | exact Hrest].
  - rewrite (mark_pdfs_cons_invalid _ _ _ _ _ Hlen Hout).
    destruct (Z.gtb_spec p (Z.of_nat num_pdfs)); [lia | reflexivity].
Qed.

Lemma length_identity_indices (num_pdfs : nat) :
  length (map Z.of_nat (seq 0 num_pdfs)) = num_pdfs.
Proof. now rewrite length_map, length_seq. Qed.

Lemma lookup_identity_indices (num_pdfs c : nat) :
  (c < num_pdfs)%nat ->
  map Z.of_nat (seq 0 num_pdfs) !! c = Some (Z.of_nat c).
Proof.
  intros Hc. rewrite lookup_map, lookup_seq_lt by exact Hc. reflexivity.
Qed.

Lemma mark_pdfs_first_invalid (num_pdfs : nat) (value : Z -> Z)
    (valid : list Z) (p : Z) (rest : list Z) (indices : list Z) :
  length indices = num_pdfs ->
  Forall (fun q => 0 <= q < Z.of_nat num_pdfs) valid ->
  ~ 0 <= p < Z.of_nat num_pdfs ->
  mark_pdfs num_pdfs value indices (valid ++ p :: rest)
  = if p >? Z.of_nat num_pdfs then KaldiError else OutOfBounds.
Proof.
  revert indices. induction valid as [| q qs IH]; intros indices Hlen Hvalid Hp.
  - apply mark_pdfs_cons_invalid; assumption.
  - apply Forall_cons in Hvalid as [Hq Hqs]. cbn [app].
    rewrite (mark_pdfs_cons_valid _ _ _ _ _ Hlen Hq).
    apply IH; [now rewrite length_insert | assumption | assumption].
Qed.

Section SilenceIndexProperties.

Variable silence_pdfs_of : string -> list Z.

Implicit Types (chain_config : ChainTrainingOptions) (num_pdfs : nat).

(** X12. When the first constructor builds the vector (SMBR with one of the
    two silence options, and a non-empty [silence_pdfs_str]), it ends with a
    vector exactly when every silence pdf lies in [[0, num_pdfs)]. *)
Theorem sil_indices_built_iff_pdfs_in_range chain_config num_pdfs :
  use_smbr_objective chain_config
  && (exclude_silence chain_config || one_silence_class chain_config) = true ->
  string_empty (silence_pdfs_str chain_config) = false ->
  (exists v,
      NnetChainComputeProb_sil_indices silence_pdfs_of chain_config num_pdfs
      = Done v)
  <-> Forall (fun p => 0 <= p < Z.of_nat num_pdfs)
        (silence_pdfs_of (silence_pdfs_str chain_config)).
Proof.
  intros Hsmbr Hstr. unfold NnetChainComputeProb_sil_indices.
  rewrite Hsmbr, Hstr. cbv zeta.
  unfold exclude_silence_indices, one_silence_class_indices.
  destruct (exclude_silence chain_config); split.
  - intros [v Hv]. eapply mark_pdfs_Done_valid; [| exact Hv].
    apply length_identity_indices.
  - intros Hall.
    destruct (mark_pdfs_valid num_pdfs (fun _ => -1) _
                (map Z.of_nat (seq 0 num_pdfs))
                (length_identity_indices num_pdfs) Hall) as (v & Hv & _).
    exists v. exact Hv.
  - intros [v Hv]. eapply mark_pdfs_Done_valid; [| exact Hv].
    apply length_replicate.
  - intros Hall.
    destruct (mark_pdfs_valid num_pdfs (fun pdf => pdf) _
                (replicate num_pdfs (-1))
                (length_replicate num_pdfs (-1)) Hall) as (v & Hv & _).
    exists v. exact Hv.
Qed.

(** X13. The first silence pdf outside [[0, num_pdfs)] decides how the first
    constructor ends: above [num_pdfs] it is reported by [KALDI_ERR]; equal
    to [num_pdfs], or negative, it passes the test [pdf > num_pdfs] and is
    stored outside the vector. *)
Theorem sil_indices_first_pdf_out_of_range chain_config num_pdfs
    (valid : list Z) (p : Z) (rest : list Z) :
  use_smbr_objective chain_config
  && (exclude_silence chain_config || one_silence_class chain_config) = true ->
  string_empty (silence_pdfs_str chain_config) = false ->
  silence_pdfs_of (silence_pdfs_str chain_config) = valid ++ p :: rest ->
  Forall (fun q => 0 <= q < Z.of_nat num_pdfs) valid ->
  ~ 0 <= p < Z.of_nat num_pdfs ->
  NnetChainComputeProb_sil_indices silence_pdfs_of chain_config num_pdfs
  = if p >? Z.of_nat num_pdfs then KaldiError else OutOfBounds.
Proof.
  intros Hsmbr Hstr Hpdfs Hvalid Hp. unfold NnetChainComputeProb_sil_indices.
  rewrite Hsmbr, Hstr, Hpdfs. cbv zeta.
  unfold exclude_silence_indices, one_silence_class_indices.
  destruct (exclude_silence chain_config); apply mark_pdfs_first_invalid;
    try assumption; [apply length_identity_indices | apply length_replicate].
Qed.

Lemma exclude_silence_indices_contents num_pdfs (silence_pdfs : list Z) :
  Forall (fun p => 0 <= p < Z.of_nat num_pdfs) silence_pdfs ->
  exists v,
    exclude_silence_indices num_pdfs silence_pdfs = Done v
    /\ length v = num_pdfs
    /\ forall c : nat,
         (c < num_pdfs)%nat ->
         (Z.of_nat c ∈ silence_pdfs -> v !! c = Some (-1))
         /\ (Z.of_nat c ∉ silence_pdfs -> v !! c = Some (Z.of_nat c)).
Proof.
  intros Hall. unfold exclude_silence_indices.
  destruct (mark_pdfs_valid num_pdfs (fun _ => -1) _
              (map Z.of_nat (seq 0 num_pdfs))
              (length_identity_indices num_pdfs) Hall) as (v & Hv & Hlen & Hlook).
  exists v. split; [exact Hv |]. split; [exact Hlen |].
  intros c Hc. destruct (Hlook c Hc) as [Hin Hout]. split; [exact Hin |].
  intros Hnot. rewrite (Hout Hnot). apply lookup_identity_indices, Hc.
Qed.

Lemma one_silence_class_indices_contents num_pdfs (silence_pdfs : list Z) :
  Forall (fun p => 0 <= p < Z.of_nat num_pdfs) silence_pdfs ->
  exists v,
    one_silence_class_indices num_pdfs silence_pdfs = Done v
    /\ length v = num_pdfs
    /\ forall c : nat,
         (c < num_pdfs)%nat ->
         (Z.of_nat c ∈ silence_pdfs -> v !! c = Some (Z.of_nat c))
         /\ (Z.of_nat c ∉ silence_pdfs -> v !! c = Some (-1)).
Proof.
  intros Hall. unfold one_silence_class_indices.
  destruct (mark_pdfs_valid num_pdfs (fun pdf => pdf) _
              (replicate num_pdfs (-1))
              (length_replicate num_pdfs (-1)) Hall) as (v & Hv & Hlen & Hlook).
  exists v. split; [exact Hv |]. split; [exact Hlen |].
  intros c Hc. destruct (Hlook c Hc) as [Hin Hout]. split; [exact Hin |].
  intros Hnot. rewrite (Hout Hnot). apply lookup_replicate_2, Hc.
Qed.

Lemma exclude_contents_ok (num_pdfs : nat) (silence_pdfs v : list Z) :
  length v = num_pdfs ->
  (forall c : nat,
      (c < num_pdfs)%nat ->
      (Z.of_nat c ∈ silence_pdfs -> v !! c = Some (-1))
      /\ (Z.of_nat c ∉ silence_pdfs -> v !! c = Some (Z.of_nat c))) ->
  silence_indices_ok v.
Proof.
  intros Hlen Hlook c i Hi.
  assert (Hc : (c < num_pdfs)%nat).
  { rewrite <- Hlen. eapply lookup_lt_Some, Hi. }
  destruct (Hlook c Hc) as [Hin Hout].
  destruct (decide (Z.of_nat c ∈ silence_pdfs)) as [H | H].
  - left. rewrite (Hin H) in Hi. congruence.
  - right. rewrite (Hout H) in Hi. congruence.
Qed.

(** X14. With [exclude_silence] and silence pdfs in range, the first
    constructor leaves a vector of [num_pdfs] entries that holds [-1] at
    each silence pdf and [c] at any other column [c]: the vector that the
    SMBR driver expects for [exclude_silence]. *)
Theorem sil_indices_for_exclude_silence chain_config num_pdfs :
  use_smbr_objective chain_config = true ->
  exclude_silence chain_config = true ->
  string_empty (silence_pdfs_str chain_config) = false ->
  Forall (fun p => 0 <= p < Z.of_nat num_pdfs)
    (silence_pdfs_of (silence_pdfs_str chain_config)) ->
  exists v,
    NnetChainComputeProb_sil_indices silence_pdfs_of chain_config num_pdfs
    = Done v
    /\ length v = num_pdfs
    /\ silence_indices_ok v
    /\ forall c : nat,
         (c < num_pdfs)%nat ->
         (Z.of_nat c ∈ silence_pdfs_of (silence_pdfs_str chain_config) ->
          v !! c = Some (-1))
         /\ (Z.of_nat c ∉ silence_pdfs_of (silence_pdfs_str chain_config) ->
             v !! c = Some (Z.of_nat c)).
Proof.
  intros Hsmbr Hex Hstr Hall. unfold NnetChainComputeProb_sil_indices.
  rewrite Hsmbr, Hex, Hstr. cbn [andb orb]. cbv zeta.
  destruct (exclude_silence_indices_contents num_pdfs _ Hall)
    as (v & Hv & Hlen & Hlook).
  exists v. split; [exact Hv |]. split; [exact Hlen |].
  split; [eapply exclude_contents_ok; eassumption | exact Hlook].
Qed.

(** X15. With [one_silence_class] but not [exclude_silence], and silence
    pdfs in range, the first constructor leaves a vector of [num_pdfs]
    entries that holds [pdf] at each silence pdf and [-1] at any other
    column. *)
Theorem sil_indices_for_one_silence_class chain_config num_pdfs :
  use_smbr_objective chain_config = true ->
  exclude_silence chain_config = false ->
  one_silence_class chain_config = true ->
  string_empty (silence_pdfs_str chain_config) = false ->
  Forall (fun p => 0 <= p < Z.of_nat num_pdfs)
    (silence_pdfs_of (silence_pdfs_str chain_config)) ->
  exists v,
    NnetChainComputeProb_sil_indices silence_pdfs_of chain_config num_pdfs
    = Done v
    /\ length v = num_pdfs
    /\ forall c : nat,
         (c < num_pdfs)%nat ->
         (Z.of_nat c ∈ silence_pdfs_of (silence_pdfs_str chain_config) ->
          v !! c = Some (Z.of_nat c))
         /\ (Z.of_nat c ∉ silence_pdfs_of (silence_pdfs_str chain_config) ->
             v !! c = Some (-1)).
Proof.
  intros Hsmbr Hex Hone Hstr Hall. unfold NnetChainComputeProb_sil_indices.
  rewrite Hsmbr, Hex, Hone, Hstr. cbn [andb orb]. cbv zeta.
  apply one_silence_class_indices_contents, Hall.
Qed.

(** X16. The second constructor does not look at the silence options: under
    [one_silence_class] without [exclude_silence] it still builds the vector
    of [exclude_silence], which differs from the vector of the first
    constructor in every column. *)
Theorem constructors_disagree_for_one_silence_class chain_config num_pdfs
    (den_graph_NumPdfs : Z) :
  use_smbr_objective chain_config = true ->
  exclude_silence chain_config = false ->
  one_silence_class chain_config = true ->
  string_empty (silence_pdfs_str chain_config) = false ->
  Forall (fun p => 0 <= p < Z.of_nat num_pdfs)
    (silence_pdfs_of (silence_pdfs_str chain_config)) ->
  0 < den_graph_NumPdfs ->
  exists v1 v2,
    NnetChainComputeProb_sil_indices silence_pdfs_of chain_config num_pdfs
    = Done v1
    /\ NnetChainComputeProb_stats_sil_indices silence_pdfs_of true false
         den_graph_NumPdfs chain_config num_pdfs
       = Done v2
    /\ length v1 = num_pdfs
    /\ length v2 = num_pdfs
    /\ forall c : nat, (c < num_pdfs)%nat -> v1 !! c <> v2 !! c.
Proof.
  intros Hsmbr Hex Hone Hstr Hall Hden.
  unfold NnetChainComputeProb_sil_indices,
    NnetChainComputeProb_stats_sil_indices.
  rewrite Hsmbr, Hex, Hone, Hstr. cbn [andb orb negb]. cbv zeta.
  destruct (Z.gtb_spec den_graph_NumPdfs 0) as [Hgt | Hle]; [| lia]. cbn [negb].
  destruct (one_silence_class_indices_contents num_pdfs _ Hall)
    as (v1 & Hv1 & Hlen1 & Hlook1).
  destruct (exclude_silence_indices_contents num_pdfs _ Hall)
    as (v2 & Hv2 & Hlen2 & Hlook2).
  exists v1, v2. repeat (split; [assumption |]).
  intros c Hc. destruct (Hlook1 c Hc) as [Hin1 Hout1].
  destruct (Hlook2 c Hc) as [Hin2 Hout2].
  destruct (decide (Z.of_nat c ∈ silence_pdfs_of (silence_pdfs_str chain_config)))
    as [H | H].
  - rewrite (Hin1 H), (Hin2 H). intros Heq. injection Heq. lia.
  - rewrite (Hout1 H), (Hout2 H). intros Heq. injection Heq. lia.
Qed.

(** X17. From the first constructor to the SMBR driver: with
    [exclude_silence], silence pdfs in range and at least one pdf, the
    vector of the constructor, handed on as [ProcessOutputs] does, makes the
    driver clear exactly the columns of the silence pdfs in the posteriors
    that it gives to the denominator object. *)
Theorem exclude_silence_clears_the_listed_pdfs chain_config num_pdfs
    (nnet_output num_posteriors : Matrix) :
  use_smbr_objective chain_config = true ->
  exclude_silence chain_config = true ->
  string_empty (silence_pdfs_str chain_config) = false ->
  Forall (fun p => 0 <= p < Z.of_nat num_pdfs)
    (silence_pdfs_of (silence_pdfs_str chain_config)) ->
  (0 < num_pdfs)%nat ->
  exists v,
    NnetChainComputeProb_sil_indices silence_pdfs_of chain_config num_pdfs
    = Done v
    /\ forall r c : nat,
         (c < num_pdfs)%nat ->
         let accuracies :=
           Smbr_silence chain_config (sil_indices_arg v) nnet_output
             num_posteriors in
         (Z.of_nat c ∈ silence_pdfs_of (silence_pdfs_str chain_config) ->
          entry accuracies r c = (fun _ => fzero) <$> entry num_posteriors r c)
         /\ (Z.of_nat c ∉ silence_pdfs_of (silence_pdfs_str chain_config) ->
             entry accuracies r c = entry num_posteriors r c).
Proof.
  intros Hsmbr Hex Hstr Hall Hpos. unfold NnetChainComputeProb_sil_indices.
  rewrite Hsmbr, Hex, Hstr. cbn [andb orb]. cbv zeta.
  destruct (exclude_silence_indices_contents num_pdfs _ Hall)
    as (v & Hv & Hlen & Hlook).
  exists v. split; [exact Hv |].
  intros r c Hc. cbv zeta.
  pose proof (exclude_contents_ok _ _ _ Hlen Hlook) as Hok.
  unfold sil_indices_arg, Smbr_silence. rewrite Hlen.
  destruct (Nat.eqb_spec num_pdfs 0) as [Hzero | Hnonzero]; [lia |]. rewrite Hex.
  rewrite (CopyCols_inplace_entry _ _ _ _ Hok). unfold is_silence.
  destruct (Hlook c Hc) as [Hin Hout]. split; intros H.
  - rewrite (Hin H). reflexivity.
  - rewrite (Hout H). destruct (Z.ltb_spec (Z.of_nat c) 0); [lia |].
    destruct (entry num_posteriors r c); reflexivity.
Qed.

End SilenceIndexProperties.

(** ** ProcessOutputs *)

Lemma Resize_undefined_shape (rows cols : nat) (contents : nat -> nat -> BaseFloat) :
  map length (Resize_undefined rows cols contents)
  = map (fun _ => cols) (seq 0 rows).
Proof.
  unfold Resize_undefined. rewrite map_map. apply map_ext.
  intros r. now rewrite length_map, length_seq.
Qed.

Lemma Resize_undefined_same_shape (rows cols : nat)
    (contents contents' : nat -> nat -> BaseFloat) :
  same_shape (Resize_undefined rows cols contents)
    (Resize_undefined rows cols contents').
Proof. unfold same_shape. now rewrite !Resize_undefined_shape. Qed.

Section ProcessOutputsProperties.

Context {DenominatorGraph Fst : Type}.
Context {computations : ChainComputations DenominatorGraph Fst}.

Implicit Types (opts : ChainTrainingOptions) (den_graph : DenominatorGraph).
Implicit Types (supervision : Supervision Fst) (nnet_output : Matrix).
Implicit Types (bufs : DerivBuffers) (sil_indices : option (list Z)).

(** *** The drivers return a derivative for each pointer they are given *)

Lemma checked_provided supervision (a : Attempt) :
  (is_Some (nnet_output_deriv (att_derivs a))
   <-> is_Some (nnet_output_deriv (snd (checked supervision a))))
  /\ (is_Some (xent_output_deriv (att_derivs a))
      <-> is_Some (xent_output_deriv (snd (checked supervision a)))).
Proof.
  unfold checked, zero_derivs. destruct (failed a); cbn [snd];
    cbn [nnet_output_deriv xent_output_deriv]; rewrite ?fmap_is_Some; tauto.
Qed.

Lemma finish_provided opts supervision nnet_output (a : Attempt) :
  let r := finish opts supervision nnet_output a in
  (is_Some (nnet_output_deriv (att_derivs a))
   <-> is_Some (nnet_output_deriv (derivs r)))
  /\ (is_Some (xent_output_deriv (att_derivs a))
      <-> is_Some (xent_output_deriv (derivs r))).
Proof.
  cbv zeta.
  destruct (finish_returns opts supervision nnet_output a)
    as (_ & _ & Hxent & _ & Hderiv).
  destruct (checked_provided supervision a) as [Hd Hx].
  rewrite Hxent, Hderiv, l2_block_deriv.
  destruct (ne_zero (l2_regularize opts) && true); rewrite ?fmap_is_Some; tauto.
Qed.

Lemma E2e_provided opts den_graph supervision nnet_output bufs :
  let r := ComputeChainObjfAndDerivE2e opts den_graph supervision nnet_output
             bufs in
  (is_Some (nnet_output_deriv bufs) <-> is_Some (nnet_output_deriv (derivs r)))
  /\ (is_Some (xent_output_deriv bufs) <-> is_Some (xent_output_deriv (derivs r))).
Proof.
  cbv zeta.
  destruct (E2e_returns opts den_graph supervision nnet_output bufs)
    as (_ & _ & Hxent & _ & Hderiv).
  destruct (E2e_attempt_provided opts den_graph supervision nnet_output bufs)
    as [Hd Hx].
  rewrite Hxent, Hderiv. unfold E2e_checked, zero_derivs.
  destruct (E2e_failed _), (ne_zero (l2_regularize opts) && _); cbn [snd];
    cbn [nnet_output_deriv xent_output_deriv]; rewrite ?fmap_is_Some; tauto.
Qed.

Lemma Chain_provided opts den_graph supervision nnet_output bufs :
  let r := ComputeChainObjfAndDeriv opts den_graph supervision nnet_output bufs in
  (is_Some (nnet_output_deriv bufs) <-> is_Some (nnet_output_deriv (derivs r)))
  /\ (is_Some (xent_output_deriv bufs) <-> is_Some (xent_output_deriv (derivs r))).
Proof.
  cbv zeta. unfold ComputeChainObjfAndDeriv.
  destruct (e2e supervision); [apply E2e_provided |].
  destruct (Chain_attempt_provided opts den_graph supervision nnet_output bufs)
    as [Hd Hx].
  destruct (finish_provided opts supervision nnet_output
              (Chain_attempt opts den_graph supervision nnet_output bufs))
    as [Hd' Hx'].
  tauto.
Qed.

Lemma KL_provided opts den_graph supervision nnet_output bufs (r : ChainObjf) :
  ComputeKLObjfAndDeriv opts den_graph supervision nnet_output bufs = Some r ->
  (is_Some (nnet_output_deriv bufs) <-> is_Some (nnet_output_deriv (derivs r)))
  /\ (is_Some (xent_output_deriv bufs) <-> is_Some (xent_output_deriv (derivs r))).
Proof.
  unfold ComputeKLObjfAndDeriv.
  destruct (KL_asserts supervision nnet_output); [| discriminate].
  intros Hr. injection Hr as <-.
  destruct (KL_attempt_provided opts den_graph supervision nnet_output bufs)
    as [Hd Hx].
  destruct (finish_provided opts supervision nnet_output
              (KL_attempt opts den_graph supervision nnet_output bufs))
    as [Hd' Hx'].
  tauto.
Qed.

Lemma Smbr_provided opts den_graph supervision nnet_output bufs sil_indices :
  let r := ComputeChainSmbrObjfAndDeriv opts den_graph supervision nnet_output
             bufs sil_indices in
  (is_Some (nnet_output_deriv bufs) <-> is_Some (nnet_output_deriv (derivs r)))
  /\ (is_Some (xent_output_deriv bufs) <-> is_Some (xent_output_deriv (derivs r))).
Proof.
  cbv zeta.
  destruct (Smbr_returns opts den_graph supervision nnet_output bufs sil_indices)
    as (_ & _ & _ & Hxent & _ & Hderiv).
  destruct (Smbr_attempt_provided opts den_graph supervision nnet_output bufs
              sil_indices) as [Hd Hx].
  rewrite Hxent, Hderiv. unfold Smbr_checked, zero_derivs, Smbr_l2_block.
  destruct (Smbr_failed _), (eq_zero (l2_regularize opts)),
    (negb (norm_regularize opts)); cbn [snd];
    cbn [nnet_output_deriv xent_output_deriv]; rewrite ?fmap_is_Some; tauto.
Qed.

Lemma ProcessOutputs_call_same_pointers
    (chain_config_ : ChainTrainingOptions) (den_graph_ : DenominatorGraph)
    (sil_indices_ : list Z) supervision nnet_output bufs bufs' :
  same_pointers bufs bufs' ->
  ProcessOutputs_call chain_config_ den_graph_ sil_indices_ supervision
    nnet_output bufs
  = ProcessOutputs_call chain_config_ den_graph_ sil_indices_ supervision
      nnet_output bufs'.
Proof.
  intros H.
  unfold ProcessOutputs_call, ComputeChainObjfAndDeriv,
    ComputeChainObjfAndDerivE2e, ComputeKLObjfAndDeriv,
    ComputeChainSmbrObjfAndDeriv.
  rewrite (Chain_attempt_same_pointers _ _ _ _ _ _ H),
    (E2e_attempt_same_pointers _ _ _ _ _ _ H),
    (KL_attempt_same_pointers _ _ _ _ _ _ H),
    (Smbr_attempt_same_pointers _ _ _ _ _ _ (sil_indices_arg sil_indices_) H).
  reflexivity.
Qed.

Lemma ProcessOutputs_call_provided
    (chain_config_ : ChainTrainingOptions) (den_graph_ : DenominatorGraph)
    (sil_indices_ : list Z) supervision nnet_output bufs
    (r : ChainObjf) (written : option BaseFloat) :
  ProcessOutputs_call chain_config_ den_graph_ sil_indices_ supervision
    nnet_output bufs = Some (r, written) ->
  (is_Some (nnet_output_deriv bufs) <-> is_Some (nnet_output_deriv (derivs r)))
  /\ (is_Some (xent_output_deriv bufs) <-> is_Some (xent_output_deriv (derivs r))).
Proof.
  unfold ProcessOutputs_call.
  destruct (0 <? NumRows (numerator_post_targets supervision))%nat.
  - destruct (ComputeKLObjfAndDeriv _ _ _ _ _) as [r' |] eqn:HKL;
      cbn [fmap option_fmap option_map]; [| discriminate].
    intros H. injection H as <- _. eapply KL_provided, HKL.
  - destruct (use_smbr_objective chain_config_); intros H; injection H as <- _.
    + apply Smbr_provided.
    + apply Chain_provided.
Qed.

(** X18. [ProcessOutputs] resizes its two derivative matrices with
    [kUndefined] before it calls a driver.  What it computes for a
    supervision does not depend on the entries that the two matrices hold
    after that. *)
Theorem ProcessOutputs_ignores_undefined_entries
    (compute_deriv : bool) (chain_config_ : ChainTrainingOptions)
    (den_graph_ : DenominatorGraph) (sil_indices_ : list Z)
    (objective_scale : option BaseFloat) supervision nnet_output
    (deriv_contents xent_contents deriv_contents' xent_contents'
       : nat -> nat -> BaseFloat) :
  ProcessOutputs_objf compute_deriv chain_config_ den_graph_ sil_indices_
    objective_scale supervision nnet_output deriv_contents xent_contents
  = ProcessOutputs_objf compute_deriv chain_config_ den_graph_ sil_indices_
      objective_scale supervision nnet_output deriv_contents' xent_contents'.
Proof.
  unfold ProcessOutputs_objf. cbv zeta.
  set (rows := NumRows nnet_output). set (cols := NumCols nnet_output).
  set (bufs := {| nnet_output_deriv :=
                    if compute_deriv
                    then Some (if compute_deriv
                               then Resize_undefined rows cols deriv_contents
                               else [])
                    else None;
                  xent_output_deriv := _ |}).
  set (bufs' := {| nnet_output_deriv :=
                     if compute_deriv
                     then Some (if compute_deriv
                                then Resize_undefined rows cols deriv_contents'
                                else [])
                     else None;
                   xent_output_deriv := _ |}).
  assert (Hsame : same_pointers bufs bufs').
  { subst bufs bufs'. unfold same_pointers.
    cbn [nnet_output_deriv xent_output_deriv].
    destruct compute_deriv, (ne_zero (xent_regularize chain_config_));
      split; try exact I; try apply Resize_undefined_same_shape;
      rewrite ?is_Some_Some_True, ?is_Some_None_False; tauto. }
  rewrite (ProcessOutputs_call_same_pointers chain_config_ den_graph_
             sil_indices_ supervision nnet_output bufs bufs' Hsame).
  destruct (ProcessOutputs_call _ _ _ _ _ bufs') as [[r written] |] eqn:Hcall;
    [| reflexivity].
  destruct (ProcessOutputs_call_provided _ _ _ _ _ _ _ _ Hcall) as [Hd Hx].
  subst bufs'. cbn [nnet_output_deriv xent_output_deriv] in Hd, Hx.
  assert (Hderiv :
    default (if compute_deriv
             then Resize_undefined rows cols deriv_contents else [])
      (nnet_output_deriv (derivs r))
    = default (if compute_deriv
               then Resize_undefined rows cols deriv_contents' else [])
        (nnet_output_deriv (derivs r))).
  { destruct compute_deriv; [| reflexivity].
    destruct (proj1 Hd) as [d ->]; [eexists; reflexivity | reflexivity]. }
  assert (Hxent :
    default (if ne_zero (xent_regularize chain_config_)
             then Resize_undefined rows cols xent_contents else [])
      (xent_output_deriv (derivs r))
    = default (if ne_zero (xent_regularize chain_config_)
               then Resize_undefined rows cols xent_contents' else [])
        (xent_output_deriv (derivs r))).
  { destruct (ne_zero (xent_regularize chain_config_)); [| reflexivity].
    destruct (proj1 Hx) as [x ->]; [eexists; reflexivity | reflexivity]. }
  rewrite Hderiv, Hxent. reflexivity.
Qed.

(** X19. In [ProcessOutputs] the local [tot_mmi_objf] is written only by the
    SMBR driver, which is called only for a supervision without
    [numerator_post_targets].  For a supervision with such targets and with
    [use_smbr_objective], the KL driver is called and the second entry of
    [aux_objfs] is pushed from a variable that was never written. *)
Theorem tot_mmi_objf_written_by_smbr_driver_only
    (compute_deriv : bool) (chain_config_ : ChainTrainingOptions)
    (den_graph_ : DenominatorGraph) (sil_indices_ : list Z)
    (objective_scale : option BaseFloat) supervision nnet_output
    (deriv_contents xent_contents : nat -> nat -> BaseFloat)
    (locals : ProcessOutputsLocals) :
  ProcessOutputs_objf compute_deriv chain_config_ den_graph_ sil_indices_
    objective_scale supervision nnet_output deriv_contents xent_contents
  = Some locals ->
  (is_Some (tot_mmi_objf locals)
   <-> NumRows (numerator_post_targets supervision) = 0%nat
       /\ use_smbr_objective chain_config_ = true)
  /\ ((0 < NumRows (numerator_post_targets supervision))%nat ->
      use_smbr_objective chain_config_ = true ->
      aux_objfs locals = [Some (to_double (tot_l2_term locals)); None]).
Proof.
  unfold ProcessOutputs_objf. cbv zeta. unfold ProcessOutputs_call.
  destruct (Nat.ltb_spec 0 (NumRows (numerator_post_targets supervision)))
    as [Hpos | Hzero].
  - destruct (ComputeKLObjfAndDeriv _ _ _ _ _) as [r |];
      cbn [fmap option_fmap option_map]; [| discriminate].
    destruct objective_scale as [scale |]; cbn [fmap option_fmap option_map];
      intros H; injection H as <-; cbn [tot_mmi_objf aux_objfs tot_l2_term];
      (split; [rewrite is_Some_None_False; lia |]);
      intros _ ->; reflexivity.
  - destruct (use_smbr_objective chain_config_);
      destruct objective_scale as [scale |]; cbn [fmap option_fmap option_map];
      intros H; injection H as <-; cbn [tot_mmi_objf aux_objfs tot_l2_term];
      (split; [| lia]);
      rewrite ?is_Some_Some_True, ?is_Some_None_False;
      split; try tauto; try lia; intros [_ Hfalse]; discriminate.
Qed.

(** X20. [ProcessOutputs] calls the KL driver for a supervision with target
    posteriors, so the first of the three assertions of that driver holds
    in the call.  One of its assertions fails exactly when the number of
    rows of [nnet_output] differs from the [int32] product
    [num_sequences * frames_per_sequence] or from the number of rows of the
    targets, and [ProcessOutputs] then does not return. *)
Theorem ProcessOutputs_aborts_on_row_mismatch
    (compute_deriv : bool) (chain_config_ : ChainTrainingOptions)
    (den_graph_ : DenominatorGraph) (sil_indices_ : list Z)
    (objective_scale : option BaseFloat) supervision nnet_output
    (deriv_contents xent_contents : nat -> nat -> BaseFloat) :
  (0 < NumRows (numerator_post_targets supervision))%nat ->
  (KL_asserts supervision nnet_output = false
   <-> Z.of_nat (NumRows nnet_output)
         <> int32_mul (num_sequences supervision)
              (frames_per_sequence supervision)
       \/ NumRows (numerator_post_targets supervision) <> NumRows nnet_output)
  /\ (KL_asserts supervision nnet_output = false ->
      ProcessOutputs_objf compute_deriv chain_config_ den_graph_ sil_indices_
        objective_scale supervision nnet_output deriv_contents xent_contents
      = None).
Proof.
  intros Hpos. split.
  - unfold KL_asserts.
    replace (0 <? Z.of_nat (NumRows (numerator_post_targets supervision)))
      with true by (symmetry; apply Z.ltb_lt; lia).
    cbn [andb].
    destruct (Z.eqb_spec (Z.of_nat (NumRows nnet_output))
                (int32_mul (num_sequences supervision)
                   (frames_per_sequence supervision)));
      destruct (Nat.eqb_spec (NumRows (numerator_post_targets supervision))
                  (NumRows nnet_output));
      cbn [andb]; split; tauto || discriminate.
  - intros Hfalse.
    unfold ProcessOutputs_objf. cbv zeta. unfold ProcessOutputs_call.
    destruct (Nat.ltb_spec 0 (NumRows (numerator_post_targets supervision)))
      as [_ | Hzero]; [| lia].
    unfold ComputeKLObjfAndDeriv. rewrite Hfalse. reflexivity.
Qed.

End ProcessOutputsProperties.

(** ** The further properties at concrete calls *)

Lemma chain_drivers_ignore_contents_witness :
  let c := scripted good_script in
  let opts := set_l2_regularize fone default_options in
  let supervision := sample_supervision false in
  same_pointers sample_bufs sample_bufs_other
  /\ (@ComputeChainObjfAndDeriv _ _ c opts tt supervision sample_output
        sample_bufs
      = @ComputeChainObjfAndDeriv _ _ c opts tt supervision sample_output
          sample_bufs_other
      /\ @ComputeChainObjfAndDerivE2e _ _ c opts tt supervision sample_output
           sample_bufs
         = @ComputeChainObjfAndDerivE2e _ _ c opts tt supervision sample_output
             sample_bufs_other
      /\ @ComputeKLObjfAndDeriv _ _ c opts tt supervision sample_output
           sample_bufs
         = @ComputeKLObjfAndDeriv _ _ c opts tt supervision sample_output
             sample_bufs_other).
Proof.
  intros c opts supervision.
  assert (H : same_pointers sample_bufs sample_bufs_other).
  { split; [reflexivity |].
    split; intros _; eexists; reflexivity. }
  split; [exact H |].
  apply (@chain_drivers_ignore_contents_on_entry _ _ c opts tt supervision
           sample_output sample_bufs sample_bufs_other H).
Defined.

(** Two SMBR calls with [mmi_factor = 1], so that both matrices are copied
    into; all four arrive with the dimensions of the numerator
    posteriors. *)
Lemma smbr_driver_ignores_contents_witness :
  let c := scripted good_script in
  let opts := set_mmi_factor fone default_options in
  let supervision := sample_supervision false in
  let num_posteriors := @Smbr_num_posteriors _ _ c supervision sample_output in
  (Smbr_copy_asserts opts num_posteriors sample_bufs = true
   /\ Smbr_copy_asserts opts num_posteriors sample_bufs_other_contents = true
   /\ same_pointers sample_bufs sample_bufs_other_contents)
  /\ @ComputeChainSmbrObjfAndDeriv _ _ c opts tt supervision sample_output
       sample_bufs None
     = @ComputeChainSmbrObjfAndDeriv _ _ c opts tt supervision sample_output
         sample_bufs_other_contents None.
Proof.
  intros c opts supervision num_posteriors.
  assert (H : same_pointers sample_bufs sample_bufs_other_contents).
  { split; [reflexivity |].
    split; intros _; eexists; reflexivity. }
  split; [split; [reflexivity | split; [reflexivity | exact H]] |].
  apply (@smbr_driver_ignores_contents_on_entry _ _ c opts tt supervision
           sample_output sample_bufs sample_bufs_other_contents None
           eq_refl eq_refl H).
Defined.

Lemma no_denominator_backward_witness :
  let c := scripted good_script in
  let opts := default_options in
  let supervision := sample_supervision false in
  let f := fun (_ : ChainTrainingOptions) (_ : unit) (_ : Z) (_ : Matrix)
               (_ : BaseFloat) (d : Matrix) => (false, d) in
  let g := fun (_ : ChainTrainingOptions) (_ : unit) (_ : Z) (_ _ : Matrix)
               (_ : BaseFloat) (d : Matrix) => (false, d) in
  nnet_output_deriv sample_xent_only = None
  /\ @ComputeChainObjfAndDeriv _ _ (with_denominator_Backward c f) opts tt
       supervision sample_output sample_xent_only
     = @ComputeChainObjfAndDeriv _ _ c opts tt supervision sample_output
         sample_xent_only
  /\ @ComputeChainSmbrObjfAndDeriv _ _ (with_denominator_BackwardSmbr c g) opts
       tt supervision sample_output sample_xent_only None
     = @ComputeChainSmbrObjfAndDeriv _ _ c opts tt supervision sample_output
         sample_xent_only None.
Proof.
  intros c opts supervision f g.
  destruct (@no_denominator_backward_without_deriv _ _ c opts tt supervision
              sample_output sample_xent_only None f g eq_refl)
    as (Hchain & _ & _ & Hsmbr).
  split; [reflexivity |]. split; [exact Hchain | exact Hsmbr].
Defined.

Lemma no_generic_backward_witness :
  let c := scripted unreachable_script in
  let opts := default_options in
  let supervision := sample_supervision true in
  let f := fun (_ : Supervision unit) (_ d : Matrix) => (false, d) in
  is_finite (@generic_numerator_Forward _ _ c supervision sample_output) = false
  /\ @ComputeChainObjfAndDerivE2e _ _ (with_generic_numerator_Backward c f) opts
       tt supervision sample_output sample_bufs
     = @ComputeChainObjfAndDerivE2e _ _ c opts tt supervision sample_output
         sample_bufs.
Proof.
  intros c opts supervision f.
  split; [reflexivity |].
  apply (@no_generic_backward_after_failed_forward _ _ c opts tt supervision
           sample_output sample_bufs f).
  reflexivity.
Defined.

Lemma smbr_driver_agrees_with_earlier_witness :
  let c := scripted good_script in
  let opts := set_l2_regularize fone default_options in
  let supervision := sample_supervision false in
  norm_regularize opts = false
  /\ @ComputeChainSmbrObjfAndDeriv _ _ c opts tt supervision sample_output
       sample_bufs None
     = @Earlier.ComputeChainSmbrObjfAndDeriv _ _ c opts tt supervision
         sample_output sample_bufs None.
Proof.
  intros c opts supervision.
  split; [reflexivity |].
  apply (@smbr_driver_agrees_with_earlier_text _ _ c opts tt supervision
           sample_output sample_bufs None).
  reflexivity.
Defined.

Lemma chain_driver_agrees_with_earlier_witness :
  let c := scripted good_script in
  let opts := set_l2_regularize fone default_options in
  let supervision := sample_supervision false in
  (e2e supervision = false
   /\ nnet_output_deriv sample_xent_only = None
   /\ forall x, xent_output_deriv sample_xent_only = Some x ->
                has_shape (NumRows sample_output) (NumCols sample_output) x)
  /\ @ComputeChainObjfAndDeriv _ _ c opts tt supervision sample_output
       sample_xent_only
     = @Earlier.ComputeChainObjfAndDeriv _ _ c opts tt supervision sample_output
         sample_xent_only.
Proof.
  intros c opts supervision.
  assert (Hshape : forall x, xent_output_deriv sample_xent_only = Some x ->
                     has_shape (NumRows sample_output) (NumCols sample_output) x).
  { intros x H. injection H as <-. reflexivity. }
  split; [split; [reflexivity | split; [reflexivity | exact Hshape]] |].
  apply (@chain_driver_agrees_with_earlier_text_without_deriv _ _ c opts tt
           supervision sample_output sample_xent_only eq_refl eq_refl Hshape).
Defined.

Lemma chain_driver_xent_agrees_witness :
  let c := scripted good_script in
  let opts := set_l2_regularize fone default_options in
  let supervision := sample_supervision false in
  let d := [[fone; fone]; [fone; fone]] in
  let x := [[fone; fzero]; [fone; fone]] in
  let posteriors :=
    @numerator_Backward _ _ c supervision sample_output
      (Resize (NumRows sample_output) (NumCols sample_output)) in
  (nnet_output_deriv sample_bufs = Some d
   /\ has_shape (NumRows sample_output) (NumCols sample_output) d
   /\ xent_output_deriv sample_bufs = Some x
   /\ has_shape (NumRows sample_output) (NumCols sample_output) x
   /\ failed (@Earlier.Chain_attempt _ _ c opts tt supervision sample_output
                sample_bufs) = false
   /\ failed (@Chain_attempt _ _ c opts tt supervision sample_output sample_bufs)
      = false)
  /\ xent_output_deriv
       (derivs (@Earlier.ComputeChainObjfAndDeriv _ _ c opts tt supervision
                  sample_output sample_bufs))
     = Some posteriors
  /\ xent_output_deriv
       (derivs (@ComputeChainObjfAndDeriv _ _ c opts tt supervision sample_output
                  sample_bufs))
     = Some posteriors.
Proof.
  intros c opts supervision d x posteriors.
  split; [repeat split; reflexivity |].
  apply (@chain_driver_xent_agrees_with_earlier_text _ _ c opts tt supervision
           sample_output sample_bufs d x eq_refl eq_refl eq_refl eq_refl
           eq_refl);
    reflexivity.
Defined.

Lemma pdfs_in_range_0_2 :
  Forall (fun p => 0 <= p < Z.of_nat 3) (read_silence_pdfs "0,2").
Proof.
  change (read_silence_pdfs "0,2") with [0; 2].
  apply Forall_cons; split; [lia |].
  apply Forall_cons; split; [lia |].
  apply Forall_nil_2.
Defined.

Lemma sil_indices_built_witness :
  let chain_config := smbr_options true false "0,2" in
  (use_smbr_objective chain_config
   && (exclude_silence chain_config || one_silence_class chain_config) = true
   /\ string_empty (silence_pdfs_str chain_config) = false)
  /\ ((exists v,
          NnetChainComputeProb_sil_indices read_silence_pdfs chain_config 3
          = Done v)
      <-> Forall (fun p => 0 <= p < Z.of_nat 3)
            (read_silence_pdfs (silence_pdfs_str chain_config))).
Proof.
  intros chain_config.
  split; [split; reflexivity |].
  apply (sil_indices_built_iff_pdfs_in_range read_silence_pdfs chain_config 3);
    reflexivity.
Defined.

Lemma sil_indices_out_of_range_witness :
  let chain_config := smbr_options true false "0,3" in
  (use_smbr_objective chain_config
   && (exclude_silence chain_config || one_silence_class chain_config) = true
   /\ string_empty (silence_pdfs_str chain_config) = false
   /\ read_silence_pdfs (silence_pdfs_str chain_config) = [0] ++ 3 :: []
   /\ Forall (fun q => 0 <= q < Z.of_nat 3) [0]
   /\ ~ 0 <= 3 < Z.of_nat 3)
  /\ NnetChainComputeProb_sil_indices read_silence_pdfs chain_config 3
     = (if 3 >? Z.of_nat 3 then KaldiError else OutOfBounds).
Proof.
  intros chain_config.
  assert (Hvalid : Forall (fun q => 0 <= q < Z.of_nat 3) [0]).
  { apply Forall_cons; split; [lia |]. apply Forall_nil_2. }
  assert (Hp : ~ 0 <= 3 < Z.of_nat 3) by lia.
  split; [repeat split; try reflexivity; [exact Hvalid | exact Hp] |].
  apply (sil_indices_first_pdf_out_of_range read_silence_pdfs chain_config 3
           [0] 3 [] eq_refl eq_refl eq_refl Hvalid Hp).
Defined.

Lemma sil_indices_for_exclude_silence_witness :
  let chain_config := smbr_options true false "0,2" in
  let silence_pdfs := read_silence_pdfs (silence_pdfs_str chain_config) in
  (use_smbr_objective chain_config = true
   /\ exclude_silence chain_config = true
   /\ string_empty (silence_pdfs_str chain_config) = false
   /\ Forall (fun p => 0 <= p < Z.of_nat 3) silence_pdfs)
  /\ exists v,
       NnetChainComputeProb_sil_indices read_silence_pdfs chain_config 3 = Done v
       /\ length v = 3%nat
       /\ silence_indices_ok v
       /\ forall c : nat,
            (c < 3)%nat ->
            (Z.of_nat c ∈ silence_pdfs -> v !! c = Some (-1))
            /\ (Z.of_nat c ∉ silence_pdfs -> v !! c = Some (Z.of_nat c)).
Proof.
  intros chain_config silence_pdfs.
  split; [repeat split; try reflexivity; exact pdfs_in_range_0_2 |].
  apply (sil_indices_for_exclude_silence read_silence_pdfs chain_config 3
           eq_refl eq_refl eq_refl pdfs_in_range_0_2).
Defined.

Lemma sil_indices_for_one_silence_class_witness :
  let chain_config := smbr_options false true "0,2" in
  let silence_pdfs := read_silence_pdfs (silence_pdfs_str chain_config) in
  (use_smbr_objective chain_config = true
   /\ exclude_silence chain_config = false
   /\ one_silence_class chain_config = true
   /\ string_empty (silence_pdfs_str chain_config) = false
   /\ Forall (fun p => 0 <= p < Z.of_nat 3) silence_pdfs)
  /\ exists v,
       NnetChainComputeProb_sil_indices read_silence_pdfs chain_config 3 = Done v
       /\ length v = 3%nat
       /\ forall c : nat,
            (c < 3)%nat ->
            (Z.of_nat c ∈ silence_pdfs -> v !! c = Some (Z.of_nat c))
            /\ (Z.of_nat c ∉ silence_pdfs -> v !! c = Some (-1)).
Proof.
  intros chain_config silence_pdfs.
  split; [repeat split; try reflexivity; exact pdfs_in_range_0_2 |].
  apply (sil_indices_for_one_silence_class read_silence_pdfs chain_config 3
           eq_refl eq_refl eq_refl eq_refl pdfs_in_range_0_2).
Defined.

Lemma constructors_disagree_witness :
  let chain_config := smbr_options false true "0,2" in
  (use_smbr_objective chain_config = true
   /\ exclude_silence chain_config = false
   /\ one_silence_class chain_config = true
   /\ string_empty (silence_pdfs_str chain_config) = false
   /\ Forall (fun p => 0 <= p < Z.of_nat 3)
        (read_silence_pdfs (silence_pdfs_str chain_config))
   /\ 0 < 3)
  /\ exists v1 v2,
       NnetChainComputeProb_sil_indices read_silence_pdfs chain_config 3
       = Done v1
       /\ NnetChainComputeProb_stats_sil_indices read_silence_pdfs true false 3
            chain_config 3
          = Done v2
       /\ length v1 = 3%nat
       /\ length v2 = 3%nat
       /\ forall c : nat, (c < 3)%nat -> v1 !! c <> v2 !! c.
Proof.
  intros chain_config.
  assert (Hden : 0 < 3) by lia.
  split; [repeat split; try reflexivity; exact pdfs_in_range_0_2 |].
  apply (constructors_disagree_for_one_silence_class read_silence_pdfs
           chain_config 3 3 eq_refl eq_refl eq_refl eq_refl pdfs_in_range_0_2
           Hden).
Defined.

Lemma pdfs_in_range_0 :
  Forall (fun p => 0 <= p < Z.of_nat 2) (read_silence_pdfs "0").
Proof.
  change (read_silence_pdfs "0") with [0].
  apply Forall_cons; split; [lia |].
  apply Forall_nil_2.
Defined.

Lemma exclude_silence_clears_witness :
  let chain_config := smbr_options true false "0" in
  let silence_pdfs := read_silence_pdfs (silence_pdfs_str chain_config) in
  (use_smbr_objective chain_config = true
   /\ exclude_silence chain_config = true
   /\ string_empty (silence_pdfs_str chain_config) = false
   /\ Forall (fun p => 0 <= p < Z.of_nat 2) silence_pdfs
   /\ (0 < 2)%nat)
  /\ exists v,
       NnetChainComputeProb_sil_indices read_silence_pdfs chain_config 2 = Done v
       /\ forall r c : nat,
            (c < 2)%nat ->
            let accuracies :=
              Smbr_silence chain_config (sil_indices_arg v) sample_output
                sample_output in
            (Z.of_nat c ∈ silence_pdfs ->
             entry accuracies r c = (fun _ => fzero) <$> entry sample_output r c)
            /\ (Z.of_nat c ∉ silence_pdfs ->
                entry accuracies r c = entry sample_output r c).
Proof.
  intros chain_config silence_pdfs.
  assert (Hpos : (0 < 2)%nat) by lia.
  split; [repeat split; try reflexivity; [exact pdfs_in_range_0 | exact Hpos] |].
  apply (exclude_silence_clears_the_listed_pdfs read_silence_pdfs chain_config 2
           sample_output sample_output eq_refl eq_refl eq_refl pdfs_in_range_0
           Hpos).
Defined.

Lemma tot_mmi_objf_witness :
  let c := scripted good_script in
  let chain_config := smbr_options true false "0" in
  let supervision := sample_supervision false in
  let contents := fun _ _ : nat => fone in
  exists locals,
    @ProcessOutputs_objf _ _ c true chain_config tt [-1; 1] None supervision
      sample_output contents contents = Some locals
    /\ (is_Some (tot_mmi_objf locals)
        <-> NumRows (numerator_post_targets supervision) = 0%nat
            /\ use_smbr_objective chain_config = true)
    /\ ((0 < NumRows (numerator_post_targets supervision))%nat ->
        use_smbr_objective chain_config = true ->
        aux_objfs locals = [Some (to_double (tot_l2_term locals)); None]).
Proof.
  intros c chain_config supervision contents.
  eexists. split; [vm_compute; reflexivity |].
  apply (@tot_mmi_objf_written_by_smbr_driver_only _ _ c true chain_config tt
           [-1; 1] None supervision sample_output contents contents).
  vm_compute. reflexivity.
Defined.

(** A supervision with target posteriors for two frames that announces
    three: the KL driver is called and its second assertion fails. *)
Lemma ProcessOutputs_aborts_on_row_mismatch_witness :
  let c := scripted good_script in
  let chain_config := smbr_options false false EmptyString in
  let supervision := sample_supervision_frames 3 in
  let contents := fun _ _ : nat => fone in
  (0 < NumRows (numerator_post_targets supervision))%nat
  /\ (KL_asserts supervision sample_output = false
      <-> Z.of_nat (NumRows sample_output)
            <> int32_mul (num_sequences supervision)
                 (frames_per_sequence supervision)
          \/ NumRows (numerator_post_targets supervision)
             <> NumRows sample_output)
  /\ (KL_asserts supervision sample_output = false ->
      @ProcessOutputs_objf _ _ c true chain_config tt [] None supervision
        sample_output contents contents
      = None).
Proof.
  intros c chain_config supervision contents.
  assert (H : (0 < NumRows (numerator_post_targets supervision))%nat).
  { vm_compute. lia. }
  split; [exact H |].
  apply (@ProcessOutputs_aborts_on_row_mismatch _ _ c true chain_config tt []
           None supervision sample_output contents contents H).
Defined.
